(** * adv-auto: the credential store (auth.py) and the content pipeline
    (tools.py), embedded in Rocq.

    Conventions of the embedding.
    - A Python [str] is a [string]; one [ascii] stands for one code point
      (the embedding covers code points below 256).
    - A Python [dict] keyed by user names is a [gmap string _].
    - Code that raises is modelled with an explicit [outcome]; code that
      touches the file system, the clock or a remote service threads an
      explicit state and reads the answers of the outside world from an
      environment.
    - [print] calls write to the console only and are left out. *)

From Stdlib Require Import ZArith Ascii String List Bool Lia DecimalString.
From stdpp Require Import base option gmap strings.

Local Open Scope string_scope.
Local Open Scope Z_scope.

(** [simpl] may compute with string concatenation. *)
#[local] Arguments String.append !s1 s2 : simpl nomatch.

(** ** Python strings *)

Module PyStr.

Definition code (c : ascii) : nat := nat_of_ascii c.

Definition in_range (lo hi : nat) (c : ascii) : bool :=
  (Nat.leb lo (code c)) && (Nat.leb (code c) hi).

Definition is_char (n : nat) (c : ascii) : bool := Nat.eqb (code c) n.

Definition is_lower (c : ascii) : bool := in_range 97 122 c.
Definition is_upper (c : ascii) : bool := in_range 65 90 c.
Definition is_digit (c : ascii) : bool := in_range 48 57 c.
Definition is_letter (c : ascii) : bool := is_lower c || is_upper c.

(** [str.isspace] on the code points below 256: TAB..CR, FS..US, space,
    NEL and the no-break space. *)
Definition is_space (c : ascii) : bool :=
  in_range 9 13 c || in_range 28 32 c || is_char 133 c || is_char 160 c.

(** [s[:n]] *)
Fixpoint take (n : nat) (s : string) : string :=
  match n, s with
  | S k, String c s' => String c (take k s')
  | _, _ => EmptyString
  end.

(** [s.lstrip()] *)
Fixpoint lstrip (s : string) : string :=
  match s with
  | String c s' => if is_space c then lstrip s' else s
  | EmptyString => EmptyString
  end.

(** [s.rstrip()]: a character is kept when something that is not white
    space follows it or when it is not white space itself. *)
Fixpoint rstrip (s : string) : string :=
  match s with
  | EmptyString => EmptyString
  | String c s' =>
      match rstrip s' with
      | EmptyString => if is_space c then EmptyString else String c EmptyString
      | r => String c r
      end
  end.

(** [s.strip()] *)
Definition strip (s : string) : string := rstrip (lstrip s).

(** [not s] for a string. *)
Definition falsy (s : string) : bool :=
  match s with EmptyString => true | _ => false end.

(** [s.startswith(p)] *)
Fixpoint startswith (p s : string) : bool :=
  match p, s with
  | EmptyString, _ => true
  | String a p', String b s' => Ascii.eqb a b && startswith p' s'
  | String _ _, EmptyString => false
  end.

(** [sub in s] *)
Fixpoint contains (sub s : string) : bool :=
  startswith sub s ||
  match s with
  | EmptyString => false
  | String _ s' => contains sub s'
  end.

(** [s.endswith(p)] *)
Fixpoint endswith (p s : string) : bool :=
  String.eqb p s ||
  match s with
  | EmptyString => false
  | String _ s' => endswith p s'
  end.

(** [s.replace(old, new)] for a non-empty [old]: occurrences are taken
    from the left and do not overlap. [skip] counts the characters of a
    matched occurrence that are still to be passed over. *)
Fixpoint replace_from (old new s : string) (skip : nat) : string :=
  match s with
  | EmptyString => EmptyString
  | String c s' =>
      match skip with
      | S k => replace_from old new s' k
      | O =>
          if startswith old s
          then new ++ replace_from old new s' (String.length old - 1)
          else String c (replace_from old new s' 0)
      end
  end.

Definition replace (old new s : string) : string := replace_from old new s 0.

(** [s.split(sep)[0]] for a non-empty [sep]: the text before the first
    occurrence of [sep], all of [s] when there is none. *)
Fixpoint split_head (sep s : string) : string :=
  match s with
  | EmptyString => EmptyString
  | String c s' => if startswith sep s then EmptyString else String c (split_head sep s')
  end.

(** The longest common suffix of two strings, for comparing endings. *)
Fixpoint common_prefix (a b : string) : string :=
  match a, b with
  | String x a', String y b' => if Ascii.eqb x y then String x (common_prefix a' b') else EmptyString
  | _, _ => EmptyString
  end.

Fixpoint reverse_onto (s acc : string) : string :=
  match s with
  | EmptyString => acc
  | String c s' => reverse_onto s' (String c acc)
  end.

Definition reverse (s : string) : string := reverse_onto s EmptyString.

Definition common_suffix (a b : string) : string :=
  reverse (common_prefix (reverse a) (reverse b)).

(** [c not in s] *)
Fixpoint char_free (c : ascii) (s : string) : bool :=
  match s with
  | EmptyString => true
  | String d s' => negb (Ascii.eqb c d) && char_free c s'
  end.

(** [old] and [u] differ at a position that both have: [old] cannot be
    a prefix of any string that starts with [u]. *)
Fixpoint mismatch (old u : string) : bool :=
  match old, u with
  | String a old', String b u' => negb (Ascii.eqb a b) || mismatch old' u'
  | _, _ => false
  end.

(** No occurrence of [old] can start inside [u], whatever follows [u]. *)
Fixpoint never_starts (old u : string) : bool :=
  match u with
  | EmptyString => true
  | String _ u' => mismatch old u && never_starts old u'
  end.

End PyStr.

(** ** Regular expressions, as far as [re.match] is used by auth.py *)

Module Re.

Inductive regex : Type :=
| Void : regex
| Eps : regex
| Cls (p : ascii -> bool) : regex
| Cat (r1 r2 : regex) : regex
| Alt (r1 r2 : regex) : regex
| Star (r : regex) : regex.

Definition Plus (r : regex) : regex := Cat r (Star r).

(** [r{2,}] *)
Definition AtLeast2 (r : regex) : regex := Cat r (Cat r (Star r)).

(** A pattern's final [$] (no MULTILINE flag) matches at the end of the
    string and also just before a newline that ends the string. *)
Definition Dollar : regex := Alt Eps (Cls (PyStr.is_char 10)).

Fixpoint nullable (r : regex) : bool :=
  match r with
  | Void => false
  | Eps => true
  | Cls _ => false
  | Cat r1 r2 => nullable r1 && nullable r2
  | Alt r1 r2 => nullable r1 || nullable r2
  | Star _ => true
  end.

Fixpoint deriv (c : ascii) (r : regex) : regex :=
  match r with
  | Void => Void
  | Eps => Void
  | Cls p => if p c then Eps else Void
  | Cat r1 r2 =>
      if nullable r1
      then Alt (Cat (deriv c r1) r2) (deriv c r2)
      else Cat (deriv c r1) r2
  | Alt r1 r2 => Alt (deriv c r1) (deriv c r2)
  | Star r1 => Cat (deriv c r1) (Star r1)
  end.

(** [re.match("^" r "$", s) is not None], [r] given with its [$]. *)
Fixpoint re_match (r : regex) (s : string) : bool :=
  match s with
  | EmptyString => nullable r
  | String c s' => re_match (deriv c r) s'
  end.

End Re.

(** ** auth.py: the file-backed user database *)

Module Auth.

(** The account record that [create_user] writes under a user name.
    [created_at] and [last_login] hold the instant whose ISO rendering
    ([datetime.now().isoformat()]) the source stores; [last_login] is
    [None] until the first successful login. *)
Record account : Type := Account {
  password : string;
  email : string;
  role : string;
  created_at : Z;
  last_login : option Z;
  active : bool
}.

(** What [users.json] holds: a JSON object of accounts, or something that
    [open]/[json.load] fails on. *)
Inductive file_content : Type :=
| Valid (m : gmap string account)
| Corrupt.

(** The file system as far as the database file goes: the file's content
    ([None] when [os.path.exists] is false) and whether [open(.., "w")]
    succeeds. *)
Record storage : Type := Storage {
  content : option file_content;
  writable : bool
}.

Inductive exn : Type :=
| OSError.

Inductive outcome (A : Type) : Type :=
| Return (a : A)
| Raise (e : exn).
Arguments Return {A} a.
Arguments Raise {A} e.

(** A [UserDatabase] object ([users]) together with the environment its
    methods touch: the storage and the number of clock readings so far. *)
Record state : Type := State {
  users : gmap string account;
  store : storage;
  ticks : nat
}.

Definition M (A : Type) : Type := state -> outcome A * state.

#[export] Instance M_ret : MRet M := fun A a s => (Return a, s).

#[export] Instance M_bind : MBind M := fun A B k m s =>
  match m s with
  | (Return a, s') => k a s'
  | (Raise e, s') => (Raise e, s')
  end.

Definition get_users : M (gmap string account) := fun s => (Return (users s), s).

Definition set_users (m : gmap string account) : M unit :=
  fun s => (Return tt, State m (store s) (ticks s)).

Definition set_email (v : string) (a : account) : account :=
  Account (password a) v (role a) (created_at a) (last_login a) (active a).
Definition set_role (v : string) (a : account) : account :=
  Account (password a) (email a) v (created_at a) (last_login a) (active a).
Definition set_active (v : bool) (a : account) : account :=
  Account (password a) (email a) (role a) (created_at a) (last_login a) v.
Definition set_password (v : string) (a : account) : account :=
  Account v (email a) (role a) (created_at a) (last_login a) (active a).
Definition set_last_login (v : Z) (a : account) : account :=
  Account (password a) (email a) (role a) (created_at a) (Some v) (active a).

(** [user[field] = value] for [user = self.users[username]]: the record
    is shared with [self.users], so the dict changes at once. *)
Definition modify_user (username : string) (f : account -> account) : M unit :=
  fun s => (Return tt, State (alter f username (users s)) (store s) (ticks s)).

(** [^[a-zA-Z0-9_]+$] *)
Definition username_char (c : ascii) : bool :=
  PyStr.is_letter c || PyStr.is_digit c || PyStr.is_char 95 c.
Definition username_pattern : Re.regex :=
  Re.Cat (Re.Plus (Re.Cls username_char)) Re.Dollar.

(** [^[a-zA-Z0-9._%+-]+@[a-zA-Z0-9.-]+\.[a-zA-Z]{2,}$] *)
Definition local_char (c : ascii) : bool :=
  PyStr.is_letter c || PyStr.is_digit c || PyStr.is_char 46 c || PyStr.is_char 95 c
  || PyStr.is_char 37 c || PyStr.is_char 43 c || PyStr.is_char 45 c.
Definition domain_char (c : ascii) : bool :=
  PyStr.is_letter c || PyStr.is_digit c || PyStr.is_char 46 c || PyStr.is_char 45 c.
Definition email_pattern : Re.regex :=
  Re.Cat (Re.Plus (Re.Cls local_char))
    (Re.Cat (Re.Cls (PyStr.is_char 64))
       (Re.Cat (Re.Plus (Re.Cls domain_char))
          (Re.Cat (Re.Cls (PyStr.is_char 46))
             (Re.Cat (Re.AtLeast2 (Re.Cls PyStr.is_letter)) Re.Dollar)))).

Definition _validate_email (email : string) : bool :=
  Re.re_match email_pattern email.

(** [_load_users]: the stored accounts; the empty dict when the file is
    absent and also when reading it raises (the bare [except]). *)
Definition _load_users (st : storage) : outcome (gmap string account) :=
  match content st with
  | Some (Valid m) => Return m
  | Some Corrupt => Return ∅
  | None => Return ∅
  end.

(** [_save_users]: [open(.., "w")] and [json.dump] of the whole dict; an
    error of [open] is not caught here. *)
Definition _save_users : M unit :=
  fun s =>
    if writable (store s)
    then (Return tt, State (users s) (Storage (Some (Valid (users s))) true) (ticks s))
    else (Raise OSError, s).

(** [UserDatabase.__init__] *)
Definition UserDatabase_init : M unit :=
  fun s =>
    match _load_users (store s) with
    | Return m => (Return tt, State m (store s) (ticks s))
    | Raise e => (Raise e, s)
    end.

Section Methods.

(** [hashlib.sha256(password.encode()).hexdigest()] *)
Variable hash_password : string -> string.

(** The instant that the [n]-th call of [datetime.now()] reads. *)
Variable clock : nat -> Z.

Definition now : M Z :=
  fun s => (Return (clock (ticks s)), State (users s) (store s) (S (ticks s))).

Definition create_user (username password email role : string) : M (bool * string) :=
  us ← get_users;
  if decide (is_Some (us !! username)) then mret (false, "Username already exists")
  else if negb (_validate_email email) then mret (false, "Invalid email format")
  else if negb (Re.re_match username_pattern username) then
    mret (false, "Username can only contain letters, numbers, and underscores")
  else
    let h := hash_password password in
    t ← now;
    set_users (<[username := Account h email role t None true]> us);;
    _save_users;;
    mret (true, "User created successfully").

(** The four optional fields of [update_user] in the order of the source;
    a step answers [Some r] when the method returns [r] at that point. *)
Definition update_email (username : string) (email : option string) : M (option (bool * string)) :=
  match email with
  | Some e =>
      if negb (_validate_email e) then mret (Some (false, "Invalid email format"))
      else modify_user username (set_email e);; mret None
  | None => mret None
  end.

Definition update_role (username : string) (role : option string) : M unit :=
  match role with
  | Some r => modify_user username (set_role r)
  | None => mret tt
  end.

Definition update_active (username : string) (active : option bool) : M unit :=
  match active with
  | Some a => modify_user username (set_active a)
  | None => mret tt
  end.

Definition update_password (username : string) (new_password : option string) : M (option (bool * string)) :=
  match new_password with
  | Some p =>
      if (String.length p <? 6)%nat
      then mret (Some (false, "Password must be at least 6 characters"))
      else modify_user username (set_password (hash_password p));; mret None
  | None => mret None
  end.

Definition update_user (username : string) (email role : option string)
    (active : option bool) (new_password : option string) : M (bool * string) :=
  us ← get_users;
  if decide (is_Some (us !! username)) then
    r1 ← update_email username email;
    match r1 with
    | Some r => mret r
    | None =>
        update_role username role;;
        update_active username active;;
        r2 ← update_password username new_password;
        match r2 with
        | Some r => mret r
        | None => _save_users;; mret (true, "User updated successfully")
        end
    end
  else mret (false, "User not found").

Definition delete_user (username : string) : M (bool * string) :=
  us ← get_users;
  if decide (is_Some (us !! username)) then
    set_users (delete username us);;
    _save_users;;
    mret (true, "User '" ++ username ++ "' deleted")
  else mret (false, "User not found").

Definition authenticate (username password : string) : M (bool * string * option string) :=
  us ← get_users;
  match us !! username with
  | None => mret (false, "User not found", None)
  | Some user =>
      if negb (active user) then mret (false, "Account is deactivated", None)
      else if String.eqb (Auth.password user) (hash_password password) then
        t ← now;
        modify_user username (set_last_login t);;
        _save_users;;
        mret (true, "Login successful", Some (role user))
      else mret (false, "Invalid password", None)
  end.

Definition get_all_users : M (gmap string account) := get_users.

Definition get_user (username : string) : M (option account) :=
  us ← get_users; mret (us !! username).

(** [create_default_users]: a fresh [UserDatabase] and the two default
    accounts where they are missing. The results of the two [create_user]
    calls are dropped, as in the source. *)
Definition create_default_users : M unit :=
  UserDatabase_init;;
  us ← get_users;
  (if decide (is_Some (us !! "admin")) then mret tt
   else create_user "admin" "admin123" "admin@example.com" "admin";; mret tt);;
  us' ← get_users;
  (if decide (is_Some (us' !! "user")) then mret tt
   else create_user "user" "user123" "user@example.com" "user";; mret tt).

(** [f v] applied when the optional argument is [Some v] (the Python
    argument is not [None]). *)
Definition apply_opt {A : Type} (f : A -> account -> account) (o : option A)
    (a : account) : account :=
  match o with
  | Some v => f v a
  | None => a
  end.

(** The condition under which [update_user] gets past its e-mail check:
    none given, or one that [_validate_email] accepts. *)
Definition email_passes (email : option string) : bool :=
  match email with
  | Some e => _validate_email e
  | None => true
  end.

(** What [_load_users] hands to [__init__] for a given storage. *)
Definition loaded (st : storage) : gmap string account :=
  match content st with
  | Some (Valid m) => m
  | _ => ∅
  end.

(** The four operations that change the store, and the success flag
    that each hands back to its caller. *)
Inductive mutation : Type :=
| Create (username password email role : string)
| Update (username : string) (email role : option string)
    (active : option bool) (new_password : option string)
| Delete (username : string)
| Authenticate (username password : string).

Definition run_mutation (op : mutation) : M bool :=
  match op with
  | Create u p e r => x ← create_user u p e r; mret (fst x)
  | Update u e r a p => x ← update_user u e r a p; mret (fst x)
  | Delete u => x ← delete_user u; mret (fst x)
  | Authenticate u p => x ← authenticate u p; mret (fst (fst x))
  end.

(** [st.session_state]: each key is absent ([None]) until it is set. *)
Record session_state : Type := Session {
  authenticated : option bool;
  username : option (option string);
  user_role : option (option string);
  user_db : option (gmap string account)
}.

(** [if key not in st.session_state: st.session_state.key = d] *)
Definition setdefault {A : Type} (d : A) (o : option A) : option A :=
  match o with
  | None => Some d
  | Some v => Some v
  end.

(** [init_session_state], run against the storage [st] after [n] clock
    readings; the new [UserDatabase] is kept under [user_db]. *)
Definition init_session_state (ss : session_state) (st : storage) (n : nat)
    : outcome session_state * storage * nat :=
  let a := setdefault false (authenticated ss) in
  let u := setdefault None (username ss) in
  let r := setdefault None (user_role ss) in
  match user_db ss with
  | Some db => (Return (Session a u r (Some db)), st, n)
  | None =>
      match create_default_users (State ∅ st n) with
      | (Return _, s') => (Return (Session a u r (Some (users s'))), store s', ticks s')
      | (Raise e, s') => (Raise e, store s', ticks s')
      end
  end.

End Methods.

End Auth.

(** ** tools.py: the content pipeline *)

Module Tools.

Import PyStr.

(** *** Values and exceptions *)

(** What [json.loads] builds. An object keeps its members in order, one
    per key. *)
#[warnings="-register-all"]
Inductive json : Type :=
| JNull : json
| JBool (b : bool) : json
| JInt (n : Z) : json
| JFloat (literal : string) : json
| JStr (s : string) : json
| JArr (items : list json) : json
| JObj (members : list (string * json)) : json.

Inductive exn : Type :=
| ValueError (msg : string)
| JSONDecodeError
| TypeError
| AttributeError
| KeyError
| ServiceError (what : string)
| OSError.

Inductive outcome (A : Type) : Type :=
| Return (a : A)
| Raise (e : exn).
Arguments Return {A} a.
Arguments Raise {A} e.

(** *** The outside world *)

(** A chat completion request: the single user message, whether the
    JSON response format is asked for, and [max_tokens]. *)
Record chat_request : Type := ChatRequest {
  chat_prompt : string;
  chat_json_mode : bool;
  chat_max_tokens : option nat
}.

(** What the remote services and the file system did, in order. *)
Inductive event : Type :=
| EvChat (req : chat_request)
| EvDalle (prompt : string)
| EvReplicate (prompt : string)
| EvGet (url : string)
| EvImgbbPost (path : string)
| EvRender (brand_text website_text : string) (text_size : Z)
| EvMakedirs
| EvWrite (path : string)
| EvRemove (path : string)
| EvSleep (seconds : Z).

(** [resp.choices[0].message.content], or the exception of the call. *)
Inductive chat_outcome : Type :=
| ChatRaises (e : exn)
| ChatReply (content : option string).

(** [response.data] as the list of the [url] attributes. *)
Inductive dalle_outcome : Type :=
| DalleRaises (e : exn)
| DalleData (urls : list (option string)).

(** The output list of [replicate_client.run], each item as [str] gives
    it; the empty string stands for an item that is not truthy. *)
Inductive replicate_outcome : Type :=
| ReplicateRaises (e : exn)
| ReplicateOutput (items : list string).

(** [requests.get] followed by [raise_for_status]. *)
Inductive get_outcome : Type :=
| GetRaises (e : exn)
| GetOk (body : string).

(** The JSON body of an ImgBB answer: not decodable or without
    [data.url], [success] not truthy, or [success] with its [data.url]
    (a string, as the service documents it). *)
Inductive imgbb_body : Type :=
| BodyInvalid
| BodyFailure
| BodySuccess (url : string).

Inductive post_outcome : Type :=
| PostRaises (e : exn)
| PostResponse (status_code : Z) (body : imgbb_body).

(** Writing a file: done, [open] raised (no file), or the write raised
    after [open] had created the file. *)
Inductive write_outcome : Type :=
| WriteOk
| OpenFails
| WriteFails.

(** The answers of the outside world. Each one may depend on the number
    of events that came before it, so that the same request can be
    answered differently at different times. [IMGBB_API_KEY] comes from
    the [config] module. *)
Record env : Type := Env {
  IMGBB_API_KEY : string;
  chat_completions_create : nat -> chat_request -> chat_outcome;
  images_generate : nat -> string -> dalle_outcome;
  replicate_run : nat -> string -> replicate_outcome;
  requests_get : nat -> string -> get_outcome;
  requests_post_imgbb : nat -> string -> post_outcome;
  render : nat -> option exn;
  makedirs_ok : nat -> bool;
  write_file : nat -> string -> write_outcome;
  remove_ok : nat -> string -> bool;
  timestamp : nat -> Z
}.

(** The events so far, the files that exist, and whether the [images]
    directory exists. *)
Record state : Type := State {
  trace : list event;
  files : list string;
  images_dir : bool
}.

Definition M (A : Type) : Type := state -> outcome A * state.

#[export] Instance M_ret : MRet M := fun A a s => (Return a, s).

#[export] Instance M_bind : MBind M := fun A B k m s =>
  match m s with
  | (Return a, s') => k a s'
  | (Raise e, s') => (Raise e, s')
  end.

Definition raise {A : Type} (e : exn) : M A := fun s => (Raise e, s).

(** [try: m except Exception as e: h e] *)
Definition try_except {A : Type} (m : M A) (h : exn -> M A) : M A :=
  fun s =>
    match m s with
    | (Return a, s') => (Return a, s')
    | (Raise e, s') => h e s'
    end.

(** Records [ev] and answers its position in the trace. *)
Definition emit (ev : event) : M nat :=
  fun s => (Return (length (trace s)), State (trace s ++ [ev]) (files s) (images_dir s)).

(** [only P m]: whatever [m] does, it only adds events, and all of them
    satisfy [P]. *)
Definition only {A : Type} (P : event -> Prop) (m : M A) : Prop :=
  forall s : state, exists new : list event,
    trace (snd (m s)) = (trace s ++ new)%list /\ Forall P new.

(** [returns Q m]: [m] never raises, and what it returns satisfies [Q]. *)
Definition returns {A : Type} (Q : A -> Prop) (m : M A) : Prop :=
  forall s : state, exists a : A, fst (m s) = Return a /\ Q a.

(** [os.path.exists(p)] for a file. *)
Definition file_present (p : string) (s : state) : bool :=
  existsb (String.eqb p) (files s).

Definition path_exists (p : string) : M bool :=
  fun s => (Return (file_present p s), s).

Definition add_file (p : string) : M unit :=
  fun s => (Return tt, State (trace s) (if file_present p s then files s else p :: files s) (images_dir s)).

Definition drop_file (p : string) : M unit :=
  fun s => (Return tt, State (trace s) (List.filter (fun q => negb (String.eqb p q)) (files s)) (images_dir s)).

Definition str_of_int (z : Z) : string := NilEmpty.string_of_int (Z.to_int z).

(** [f"images/temp_{ts}.jpg"] and [f"images/branded_{ts}.jpg"] *)
Definition temp_path_of (ts : Z) : string := "images/temp_" ++ str_of_int ts ++ ".jpg".
Definition branded_path_of (ts : Z) : string := "images/branded_" ++ str_of_int ts ++ ".jpg".

(** [not x] for a value that is [None] or a string. *)
Definition not_ (x : option string) : bool :=
  match x with
  | None => true
  | Some s => falsy s
  end.

(** *** Text posts generator *)

Definition dq : string := String (ascii_of_nat 34) EmptyString.

Definition quoted (s : string) : string := dq ++ s ++ dq.

(** One line of the JSON sample in the prompt: a post with empty fields. *)
Definition blank_post : string :=
  "    {" ++ quoted "title" ++ ": " ++ quoted EmptyString ++ ", "
    ++ quoted "caption" ++ ": " ++ quoted EmptyString ++ ", "
    ++ quoted "hashtags" ++ ": " ++ quoted EmptyString ++ "}".

Definition posts_prompt (topic : string) : string :=
  "
You are a Social Media Creative Agent.

Generate EXACTLY 3 posts about: " ++ topic ++ "

STYLE RULES:
- Write captions with 2-3 sentences.
- Professional and motivational.
- Relevant to the UAE.
- No repetition across posts.
- Include EXACTLY 5 high-performing hashtags.
- Return VALID JSON ONLY.

Return JSON ONLY:
{
  " ++ quoted "posts" ++ ": [
" ++ blank_post ++ ",
" ++ blank_post ++ ",
" ++ blank_post ++ "
  ]
}
".

(** *** Image prompt generator *)

(** The text that follows the substituted template. *)
Definition template_suffix : string :=
  "
CRITICAL: Absolutely NO text, NO words, NO letters, NO signs, NO labels, NO typography anywhere in the image.
Do not generate: store signs, product labels, brand names, written text, numbers, letters, Arabic text, English text, or any readable characters.
Clean product photography without any visible text or writing.
Aspect ratio: 1:1 (square).".

(** The text that follows the prompt written by the chat model. *)
Definition smart_suffix : string :=
  "
CRITICAL: Absolutely NO text, NO words, NO letters, NO signs, NO labels, NO typography anywhere in the image.
Do not generate: store signs, product labels, brand names, written text, numbers, letters, Arabic text, English text, or any readable characters.
Clean product photography without any visible text or writing.
Aspect ratio: 1:1 (square). Professional commercial photography.".

Definition ai_prompt (title caption : string) : string :=
  "
Generate a detailed image prompt for AI image generation based on this social media post:

Title: " ++ title ++ "
Caption: " ++ caption ++ "

Create a professional product photography prompt that:
1. Shows the actual products/items mentioned or implied in the post
2. Uses appropriate styling for the industry (beauty/cosmetics/tech/fashion/etc)
3. Is visually appealing and commercial-quality
4. Relevant to UAE market
5. No text in the image

Return ONLY the image generation prompt, nothing else. Be specific about products, lighting, and composition.
".

(** The fallback text before [strip()]. *)
Definition fallback_text (title caption : string) : string :=
  "
Professional commercial photograph.
Subject: " ++ title ++ "
Context: " ++ take 100 caption ++ "
Style: high-quality product photography, studio lighting
Mood: professional, commercial, aspirational
CRITICAL: Absolutely NO text, NO words, NO letters, NO signs, NO labels anywhere in the image.
Clean photography without any visible text or writing.
Aspect ratio: 1:1 (square).
                ".

(** The last three lines of the fallback text: what the fallback prompt
    ends with once [strip()] has removed the white space after them. *)
Definition fallback_suffix : string :=
  "CRITICAL: Absolutely NO text, NO words, NO letters, NO signs, NO labels anywhere in the image.
Clean photography without any visible text or writing.
Aspect ratio: 1:1 (square).".

(** The words on which the three endings agree. *)
Definition critical_clause : string :=
  "CRITICAL: Absolutely NO text, NO words, NO letters, NO signs, NO labels".
Definition aspect_clause : string := "Aspect ratio: 1:1 (square).".

(** The fallback prompt. *)
Definition fallback_prompt (title caption : string) : string :=
  strip (fallback_text title caption).

(** The prompt made from the user's template. *)
Definition template_prompt (template title caption : string) : string :=
  replace "[CAPTION]" (take 100 caption) (replace "[TITLE]" title template)
    ++ template_suffix.

(** Templates written as plain text around the two placeholders. *)
Inductive piece : Type :=
| Lit (text : string)
| TitleSlot
| CaptionSlot.

(** The pieces put together, with [t] and [c] in the two kinds of slot. *)
Fixpoint fill (t c : string) (pieces : list piece) : string :=
  match pieces with
  | [] => EmptyString
  | Lit text :: rest => text ++ fill t c rest
  | TitleSlot :: rest => t ++ fill t c rest
  | CaptionSlot :: rest => c ++ fill t c rest
  end.

(** The template text itself. *)
Definition template_text (pieces : list piece) : string :=
  fill "[TITLE]" "[CAPTION]" pieces.

(** No opening bracket in the plain text. *)
Fixpoint plain_text_ok (pieces : list piece) : bool :=
  match pieces with
  | [] => true
  | Lit text :: rest => char_free "["%char text && plain_text_ok rest
  | _ :: rest => plain_text_ok rest
  end.

(** A post draft: a dict whose values are strings; a key may be missing.
    This is the shape that the posts prompt asks the model for. What the
    functions do with an entry of another shape (a value that is null, a
    number or a list, an entry that is not an object) is the matter of
    the module [Dyn] further down, whose functions take any JSON value
    and are shown to do on posts of this shape what the ones here do. *)
Record post : Type := Post {
  post_title : option string;
  post_caption : option string;
  post_hashtags : option string
}.

(** [p.get(key, "")] *)
Definition get_or_empty (o : option string) : string :=
  match o with
  | Some s => s
  | None => EmptyString
  end.

(** The posts that get a prompt: those with a title that is not empty. *)
Definition titled (p : post) : bool := negb (falsy (get_or_empty (post_title p))).

(** What a prompt made for the post [p] looks like: with a template, the
    substituted template and its ending; without one, the ending of the
    chat model's prompt or the fallback prompt. *)
Definition prompt_of (template : option string) (p : post) (prompt : string) : Prop :=
  let title := get_or_empty (post_title p) in
  let caption := get_or_empty (post_caption p) in
  if not_ template
  then endswith smart_suffix prompt = true \/
       (prompt = fallback_prompt title caption /\ endswith fallback_suffix prompt = true)
  else prompt = template_prompt (get_or_empty template) title caption /\
       endswith template_suffix prompt = true /\
       (contains "[CAPTION]" (get_or_empty template) = true ->
          contains (take 100 caption) prompt = true).

(** *** Python operators on JSON values *)

(** [key in v] *)
Definition py_in (key : string) (v : json) : outcome bool :=
  match v with
  | JObj members => Return (existsb (fun kv => String.eqb key (fst kv)) members)
  | JArr items =>
      Return (existsb (fun x => match x with JStr s => String.eqb key s | _ => false end) items)
  | JStr s => Return (contains key s)
  | _ => Raise TypeError
  end.

(** [v[key]] for a string [key]; the call sites have [key in v] checked. *)
Definition py_getitem (key : string) (v : json) : outcome json :=
  match v with
  | JObj members =>
      match find (fun kv => String.eqb key (fst kv)) members with
      | Some kv => Return (snd kv)
      | None => Raise KeyError
      end
  | _ => Raise TypeError
  end.

(** [len(v)] *)
Definition py_len (v : json) : outcome nat :=
  match v with
  | JObj members => Return (length members)
  | JArr items => Return (length items)
  | JStr s => Return (String.length s)
  | _ => Raise TypeError
  end.

(** The structure check of [generate_posts]:
    ["posts" not in result or len(result["posts"]) != 3]. *)
Definition invalid_posts_structure (result : json) : outcome bool :=
  match py_in "posts" result with
  | Raise e => Raise e
  | Return false => Return true
  | Return true =>
      match py_getitem "posts" result with
      | Raise e => Raise e
      | Return v =>
          match py_len v with
          | Raise e => Raise e
          | Return n => Return (negb (Nat.eqb n 3))
          end
      end
  end.

(** *** The structure that the specification describes for generate_posts

    Three post drafts, each an object with a title, a caption and a
    hashtags string of exactly five tags. The code is compared with it;
    nothing in the code is defined by it. *)

Fixpoint count_char (c : ascii) (s : string) : nat :=
  match s with
  | EmptyString => O
  | String d s' => (if Ascii.eqb c d then 1 else 0) + count_char c s'
  end.

Definition member (key : string) (members : list (string * json)) : option json :=
  match find (fun kv => String.eqb key (fst kv)) members with
  | Some kv => Some (snd kv)
  | None => None
  end.

Definition spec_five_hashtags (v : option json) : bool :=
  match v with
  | Some (JStr s) => Nat.eqb (count_char "#"%char s) 5
  | _ => false
  end.

Definition spec_is_string (v : option json) : bool :=
  match v with
  | Some (JStr _) => true
  | _ => false
  end.

Definition spec_post_draft (v : json) : bool :=
  match v with
  | JObj members =>
      spec_is_string (member "title" members) && spec_is_string (member "caption" members)
      && spec_five_hashtags (member "hashtags" members)
  | _ => false
  end.

Definition spec_three_post_drafts (result : json) : bool :=
  match result with
  | JObj members =>
      match member "posts" members with
      | Some (JArr [a; b; c]) => spec_post_draft a && spec_post_draft b && spec_post_draft c
      | _ => false
      end
  | _ => false
  end.

(** *** Image generation: what is sent to the generators *)

Inductive provider : Type :=
| Dalle
| Replicate.

(** The image generation request that an event stands for, if any. *)
Definition generation_request (ev : event) : option (provider * string) :=
  match ev with
  | EvDalle p => Some (Dalle, p)
  | EvReplicate p => Some (Replicate, p)
  | _ => None
  end.

Definition generation_requests (evs : list event) : list (provider * string) :=
  omap generation_request evs.


(** No event of this kind asks for an image. *)
Definition no_request (ev : event) : Prop := generation_request ev = None.

(** [prompt.split("CRITICAL:")[0].strip()[:1000]] *)
Definition clean_prompt (prompt : string) : string :=
  take 1000 (strip (split_head "CRITICAL:" prompt)).

Section World.

Variable w : env.

(** [client.chat.completions.create(...)] down to [.message.content]. *)
Definition chat (req : chat_request) : M (option string) :=
  n ← emit (EvChat req);
  match chat_completions_create w n req with
  | ChatRaises e => raise e
  | ChatReply c => mret c
  end.

(** [int(datetime.now().timestamp())] *)
Definition now_timestamp : M Z :=
  fun s => (Return (timestamp w (length (trace s))), s).

(** [if not os.path.exists("images"): os.makedirs("images")] *)
Definition ensure_images_dir : M unit :=
  fun s =>
    if images_dir s then (Return tt, s)
    else
      let s' := State (trace s ++ [EvMakedirs]) (files s) (images_dir s) in
      if makedirs_ok w (length (trace s))
      then (Return tt, State (trace s') (files s') true)
      else (Raise OSError, s').

(** Creating or overwriting the file at [path]. *)
Definition write_path (path : string) : M unit :=
  n ← emit (EvWrite path);
  match write_file w n path with
  | WriteOk => add_file path
  | OpenFails => raise OSError
  | WriteFails => add_file path;; raise OSError
  end.

(** [os.remove(path)] *)
Definition os_remove (path : string) : M unit :=
  n ← emit (EvRemove path);
  present ← path_exists path;
  if present && remove_ok w n path then drop_file path else raise OSError.

(** *** generate_posts *)

(** [json.loads]: [None] stands for [JSONDecodeError]. *)
Variable json_loads : string -> option json.

Definition generate_posts (topic : string) : M json :=
  if falsy topic || falsy (strip topic) then raise (ValueError "Topic cannot be empty")
  else
    let prompt := posts_prompt topic in
    try_except
      (reply ← chat (ChatRequest prompt true None);
       match reply with
       | None => raise AttributeError
       | Some text =>
           let content := strip text in
           if falsy content then raise (ValueError "Empty response from OpenAI")
           else
             match json_loads content with
             | None => raise JSONDecodeError
             | Some result =>
                 match invalid_posts_structure result with
                 | Raise e => raise e
                 | Return true => raise (ValueError "Invalid response structure from OpenAI")
                 | Return false => mret result
                 end
             end
       end)
      (fun e => raise e).

(** *** generate_image_prompts *)

(** The prompt written by the chat model, with the fallback of the
    [except] branch. *)
Definition smart_prompt (title caption : string) : M string :=
  try_except
    (reply ← chat (ChatRequest (ai_prompt title caption) false (Some 200%nat));
     match reply with
     | None => raise AttributeError
     | Some text => mret (strip text ++ smart_suffix)
     end)
    (fun _ => mret (fallback_prompt title caption)).

(** The loop over [posts["posts"]]; the answer is the list [prompts]. *)
Fixpoint image_prompts_loop (posts : list post) (custom_prompt_template : option string)
    : M (list string) :=
  match posts with
  | [] => mret []
  | p :: rest =>
      let title := get_or_empty (post_title p) in
      let caption := get_or_empty (post_caption p) in
      if falsy title then image_prompts_loop rest custom_prompt_template
      else
        final_prompt ←
          (if not_ custom_prompt_template
           then smart_prompt title caption
           else mret (template_prompt (get_or_empty custom_prompt_template) title caption));
        prompts ← image_prompts_loop rest custom_prompt_template;
        mret (final_prompt :: prompts)
  end.

(** [posts] is [None] when the argument is not truthy or has no key
    ["posts"]; the answer is the list under ["image_prompts"]. *)
Definition generate_image_prompts (posts : option (list post))
    (custom_prompt_template : option string) : M (list string) :=
  match posts with
  | None => mret []
  | Some l => image_prompts_loop l custom_prompt_template
  end.

(** *** Brand overlay, upload, image generation *)

(** Pillow's decoding, drawing and text layout stay outside the
    embedding: the world says whether they raise. *)
Definition add_brand_text (image_url brand_text website_text : string) (text_size : Z)
    : M string :=
  try_except
    (n ← emit (EvGet image_url);
     match requests_get w n image_url with
     | GetRaises e => raise e
     | GetOk _ =>
         k ← emit (EvRender brand_text website_text text_size);
         match render w k with
         | Some e => raise e
         | None =>
             ensure_images_dir;;
             ts ← now_timestamp;
             let output_path := branded_path_of ts in
             write_path output_path;;
             mret output_path
         end
     end)
    (fun e => raise e).

Definition upload_to_imgbb (image_path : string) : M (option string) :=
  if falsy (IMGBB_API_KEY w) then mret None
  else
    try_except
      (present ← path_exists image_path;
       if negb present then raise OSError
       else
         n ← emit (EvImgbbPost image_path);
         match requests_post_imgbb w n image_path with
         | PostRaises e => raise e
         | PostResponse status_code body =>
             if (status_code =? 200)%Z then
               match body with
               | BodyInvalid => raise (ValueError "response")
               | BodyFailure => mret None
               | BodySuccess url => mret (Some url)
               end
             else mret None
         end)
      (fun _ => mret None).

Definition generate_image_with_dalle (prompt : string) : M (option string) :=
  try_except
    (let clean := clean_prompt prompt in
     n ← emit (EvDalle clean);
     match images_generate w n clean with
     | DalleRaises e => raise e
     | DalleData [] => mret None
     | DalleData (None :: _) => raise TypeError
     | DalleData (Some url :: _) => mret (Some url)
     end)
    (fun _ => mret None).

Definition generate_image_with_replicate (prompt : string) : M (option string) :=
  try_except
    (let clean := clean_prompt prompt in
     n ← emit (EvReplicate clean);
     match replicate_run w n clean with
     | ReplicateRaises e => raise e
     | ReplicateOutput [] => mret None
     | ReplicateOutput (item :: _) => mret (if falsy item then None else Some item)
     end)
    (fun _ => mret None).

Definition upload_image_directly (image_url : string) : M (option string) :=
  try_except
    (n ← emit (EvGet image_url);
     match requests_get w n image_url with
     | GetRaises e => raise e
     | GetOk _ =>
         ts ← now_timestamp;
         let temp_path := temp_path_of ts in
         ensure_images_dir;;
         write_path temp_path;;
         imgbb_url ← upload_to_imgbb temp_path;
         try_except (os_remove temp_path) (fun _ => mret tt);;
         mret imgbb_url
     end)
    (fun _ => mret None).

(** Lines 546-551 of [generate_images]: DALL-E first, Replicate when
    DALL-E gave nothing usable. *)
Definition produce_clean_url (prompt : string) : M (option string) :=
  clean_url ← generate_image_with_dalle prompt;
  if not_ clean_url then generate_image_with_replicate prompt else mret clean_url.

(** The overlay branch of [generate_images], entered when [brand_text]
    and [imgbb_url] are truthy; the answer is what is appended to
    [image_urls]. *)
Definition branded_url (final_url brand_text website_text : string) (text_size : Z)
    : M string :=
  try_except
    (local_file ← add_brand_text final_url brand_text website_text text_size;
     uploaded_url ← upload_to_imgbb local_file;
     mret (if not_ uploaded_url then final_url else get_or_empty uploaded_url))
    (fun _ => mret final_url).

(** [prompts] is [None] when the argument is not truthy or has no key
    ["image_prompts"]; the answer is the list under ["image_urls"]. *)
Definition generate_images (prompts : option (list string)) (brand_text : option string)
    (website_text : string) (text_size : Z) : M (list string) :=
  match prompts with
  | None => mret []
  | Some [] => mret []
  | Some (prompt :: _) =>
      try_except
        (clean_url ← produce_clean_url prompt;
         if not_ clean_url then mret []
         else
           let clean_url := get_or_empty clean_url in
           imgbb_url ← upload_image_directly clean_url;
           let final_url := if not_ imgbb_url then clean_url else get_or_empty imgbb_url in
           image_urls ←
             (if negb (not_ brand_text) && negb (not_ imgbb_url)
              then
                url ← branded_url final_url (get_or_empty brand_text) website_text text_size;
                mret [url]
              else mret [if falsy final_url then clean_url else final_url]);
           emit (EvSleep 2);;
           mret image_urls)
        (fun _ => mret [])
  end.

(** What [generate_images] does after the generators, given [clean_url]. *)
Definition after_generation (clean_url : option string) (brand_text : option string)
    (website_text : string) (text_size : Z) : M (list string) :=
  if not_ clean_url then mret []
  else
    let clean_url := get_or_empty clean_url in
    imgbb_url ← upload_image_directly clean_url;
    let final_url := if not_ imgbb_url then clean_url else get_or_empty imgbb_url in
    image_urls ←
      (if negb (not_ brand_text) && negb (not_ imgbb_url)
       then
         url ← branded_url final_url (get_or_empty brand_text) website_text text_size;
         mret [url]
       else mret [if falsy final_url then clean_url else final_url]);
    emit (EvSleep 2);;
    mret image_urls.

End World.

End Tools.

(** ** The language of a regular expression, for reasoning about [re.match] *)

Module ReLang.

Import Re.

(** [lang r s]: the whole of [s] is matched by [r]. *)
Inductive lang : regex -> string -> Prop :=
| LEps : lang Eps EmptyString
| LCls (p : ascii -> bool) (c : ascii) : p c = true -> lang (Cls p) (String c EmptyString)
| LCat (r1 r2 : regex) (s1 s2 : string) :
    lang r1 s1 -> lang r2 s2 -> lang (Cat r1 r2) (s1 ++ s2)
| LAltL (r1 r2 : regex) (s : string) : lang r1 s -> lang (Alt r1 r2) s
| LAltR (r1 r2 : regex) (s : string) : lang r2 s -> lang (Alt r1 r2) s
| LStarNil (r : regex) : lang (Star r) EmptyString
| LStarApp (r : regex) (s1 s2 : string) :
    lang r s1 -> lang (Star r) s2 -> lang (Star r) (s1 ++ s2).

(** Every character of [s] satisfies [p]. *)
Fixpoint all_chars (p : ascii -> bool) (s : string) : bool :=
  match s with
  | EmptyString => true
  | String c s' => p c && all_chars p s'
  end.

(** The line feed that a final [$] lets through. *)
Definition nl : string := String (ascii_of_nat 10) EmptyString.

(** What a final [$] may be followed by: nothing, or one line feed. *)
Definition dollar_tail (t : string) : Prop := t = EmptyString \/ t = nl.

End ReLang.

(** ** Notions for stating properties of the user database *)

Module AuthSpec.

Import Auth.

(** The user name that an operation is about. *)
Definition target (op : mutation) : string :=
  match op with
  | Create u _ _ _ => u
  | Update u _ _ _ _ => u
  | Delete u => u
  | Authenticate u _ => u
  end.

(** Every stored account sits under a user name that [create_user]
    accepts and has an e-mail address that [_validate_email] accepts. *)
Definition well_formed (m : gmap string account) : Prop :=
  forall (u : string) (a : account),
    m !! u = Some a ->
    Re.re_match username_pattern u = true /\ _validate_email (email a) = true.

End AuthSpec.

(** ** auth.py: what the forms do when they are submitted

    The handlers run on the [UserDatabase] kept in the session (the state
    of [Auth.M]); what [st.error] and [st.success] put on the page is the
    handler's answer. *)

Module AuthUI.

Import Auth PyStr.

Inductive shown : Type :=
| ShowError (msg : string)
| ShowSuccess (msg : string).

(** The three login keys of [st.session_state] once [init_session_state]
    has set them. *)
Record login : Type := Login {
  logged_in : bool;
  login_username : option string;
  login_role : option string
}.

(** [f"{role}"] *)
Definition format_role (role : option string) : string :=
  match role with
  | Some r => r
  | None => "None"
  end.

Section Handlers.

Variable hash_password : string -> string.
Variable clock : nat -> Z.

(** The login form of [show_login_page]. *)
Definition login_submit (username password : string) (ss : login) : M (login * shown) :=
  if falsy username || falsy password
  then mret (ss, ShowError "Please enter both username and password")
  else
    r ← authenticate hash_password clock username password;
    match r with
    | (true, _, role) =>
        mret (Login true (Some username) role,
              ShowSuccess ("Welcome " ++ username ++ "! (" ++ format_role role ++ ")"))
    | (false, message, _) => mret (ss, ShowError message)
    end.

(** The sign-up form of [show_login_page]. Its account type comes from a
    select box whose one option is ["user"]. *)
Definition signup_submit (new_username new_email new_password confirm_password : string)
    (terms : bool) : M shown :=
  let user_role := "user" in
  if falsy new_username || falsy new_email || falsy new_password || falsy confirm_password
  then mret (ShowError "Please fill in all fields")
  else if (String.length new_username <? 3)%nat
  then mret (ShowError "Username must be at least 3 characters")
  else if (String.length new_password <? 6)%nat
  then mret (ShowError "Password must be at least 6 characters")
  else if negb (String.eqb new_password confirm_password)
  then mret (ShowError "Passwords do not match")
  else if negb terms
  then mret (ShowError "You must agree to the Terms & Conditions")
  else
    r ← create_user hash_password clock new_username new_password new_email user_role;
    match r with
    | (true, message) => mret (ShowSuccess (message ++ " You can now login as " ++ user_role ++ "."))
    | (false, message) => mret (ShowError message)
    end.

(** The checks of the admin's "Add New User" form, in order; the answer
    is the list [errors]. *)
Definition add_user_errors (new_username new_email new_password confirm_password : string)
    : list string :=
  ((if falsy new_username || (String.length new_username <? 3)%nat
    then ["Username must be at least 3 characters"]
    else if negb (Re.re_match username_pattern new_username)
    then ["Username can only contain letters, numbers, and underscores"]
    else [])
   ++ (if falsy new_email then ["Email is required"]
       else if negb (Re.re_match email_pattern new_email) then ["Invalid email format"]
       else [])
   ++ (if falsy new_password || (String.length new_password <? 6)%nat
       then ["Password must be at least 6 characters"]
       else if negb (String.eqb new_password confirm_password)
       then ["Passwords do not match"]
       else []))%list.

(** The "Add New User" form of [show_user_management]: the errors shown,
    or what [create_user] answered. After a success the page shows the
    new user's details, for which it reads the clock once more
    (["created": datetime.now().strftime(..)]). *)
Definition add_user_submit (new_username new_email new_password confirm_password new_role : string)
    : M (list string + bool * string) :=
  match add_user_errors new_username new_email new_password confirm_password with
  | [] =>
      r ← create_user hash_password clock new_username new_password new_email new_role;
      match r with
      | (true, _) => now clock;; mret (inr r)
      | (false, _) => mret (inr r)
      end
  | errors => mret (inl errors)
  end.

(** What [show_profile_page] does with a submitted "Change Password"
    form: the page stops with a [TypeError] before it reaches the form
    when the account's [last_login] is [None] ([last_login[:19]]). *)
Inductive profile : Type :=
| ProfileTypeError
| Profile (s : shown).

Definition check_password_form (u : string) (user_info : account)
    (current_pass new_pass confirm_pass : string) : M profile :=
  if falsy current_pass || falsy new_pass || falsy confirm_pass
  then mret (Profile (ShowError "Please fill in all fields"))
  else if (String.length new_pass <? 6)%nat
  then mret (Profile (ShowError "New password must be at least 6 characters"))
  else if negb (String.eqb new_pass confirm_pass)
  then mret (Profile (ShowError "New passwords do not match"))
  else if negb (String.eqb (hash_password current_pass) (password user_info))
  then mret (Profile (ShowError "Current password is incorrect"))
  else
    r ← update_user hash_password u None None None (Some new_pass);
    match r with
    | (true, _) => mret (Profile (ShowSuccess "Password updated successfully!"))
    | (false, message) => mret (Profile (ShowError message))
    end.

(** [username] is [st.session_state.username], [None] included. *)
Definition change_password_submit (username : option string)
    (current_pass new_pass confirm_pass : string) : M profile :=
  us ← get_users;
  match username with
  | None => mret (Profile (ShowError "User information not found"))
  | Some u =>
      match us !! u with
      | None => mret (Profile (ShowError "User information not found"))
      | Some user_info =>
          match last_login user_info with
          | None => mret ProfileTypeError
          | Some _ => check_password_form u user_info current_pass new_pass confirm_pass
          end
      end
  end.

(** The "Toggle Active" button of [show_user_management] for the user
    picked in the select box; [None] stands for the [KeyError] of
    [users[selected_user]]. *)
Definition toggle_active (selected_user : string) : M (option (bool * string)) :=
  us ← get_all_users;
  match us !! selected_user with
  | None => mret None
  | Some a =>
      let current_status := active a in
      r ← update_user hash_password selected_user None None (Some (negb current_status)) None;
      mret (Some r)
  end.

(** The edit form of [show_user_management] for the user picked in the
    select box, submitted with "Save Changes". Nothing is shown for an
    empty name ([if edit_user:]). The page stops with a
    [KeyError] at [users[edit_user]] for a name that is not there, and
    with a [TypeError] at [last_login[:19]], before it looks at the
    button, for an account that has never logged in; [st.stop()] ends the
    run after a password error. After a refusal of [update_user] the page
    goes on to [if delete_button and ..], where [delete_button] is unbound
    for the user ["admin"] (the button is made for the other users only):
    the refusal is shown and the page stops with an [UnboundLocalError]. *)
Inductive edit_page : Type :=
| EditSkipped
| EditKeyError
| EditTypeError
| EditStopped (msg : string)
| EditAnswer (r : bool * string)
| EditUnboundLocalError (msg : string).

Definition edit_form_save (edit_user new_email new_role account_status
                             new_password confirm_password : string) : M edit_page :=
  let update password_update :=
    r ← update_user hash_password edit_user (Some new_email) (Some new_role)
          (Some (String.eqb account_status "Active")) password_update;
    match r with
    | (true, _) => mret (EditAnswer r)
    | (false, message) =>
        if String.eqb edit_user "admin" then mret (EditUnboundLocalError message)
        else mret (EditAnswer r)
    end in
  us ← get_all_users;
  if falsy edit_user then mret EditSkipped else
  match us !! edit_user with
  | None => mret EditKeyError
  | Some user_info =>
      match last_login user_info with
      | None => mret EditTypeError
      | Some _ =>
          if negb (falsy new_password) then
            if (String.length new_password <? 6)%nat
            then mret (EditStopped "Password must be at least 6 characters")
            else if negb (String.eqb new_password confirm_password)
            then mret (EditStopped "Passwords do not match")
            else update (Some new_password)
          else update None
      end
  end.

(** [logout] *)
Definition logout (ss : login) : login := Login false None None.

(** What the wrapper of [require_auth(required_role)] does after
    [init_session_state]: show the login page, refuse, or call the page. *)
Inductive access : Type :=
| ShowLogin
| AccessDenied
| CallPage.

Definition truthy_role (required_role : option string) : bool :=
  match required_role with
  | Some r => negb (falsy r)
  | None => false
  end.

Definition same_role (a b : option string) : bool :=
  match a, b with
  | Some x, Some y => String.eqb x y
  | None, None => true
  | _, _ => false
  end.

Definition require_auth (required_role : option string) (ss : login) : access :=
  if negb (logged_in ss) then ShowLogin
  else if truthy_role required_role && negb (same_role (login_role ss) required_role)
  then AccessDenied
  else CallPage.

End Handlers.

(** [show_navigation]: the page ids behind the buttons of the side bar
    (the values of [menu_options]), and the page function called for
    [st.session_state.current_page]. *)
Inductive page : Type :=
| show_dashboard_page
| show_user_management
| show_campaigns_page
| show_analytics_page
| show_settings_page
| show_profile_page.

Definition is_admin (user_role : option string) : bool :=
  match user_role with
  | Some r => String.eqb r "admin"
  | None => false
  end.

Definition menu_options (user_role : option string) : list string :=
  if is_admin user_role
  then ["dashboard"; "user_management"; "campaigns"; "analytics"; "settings"]
  else ["dashboard"; "campaigns"; "profile"].

Definition show_navigation (current_page : string) (user_role : option string) : option page :=
  if String.eqb current_page "dashboard" then Some show_dashboard_page
  else if String.eqb current_page "user_management" && is_admin user_role
  then Some show_user_management
  else if String.eqb current_page "campaigns" then Some show_campaigns_page
  else if String.eqb current_page "analytics" && is_admin user_role
  then Some show_analytics_page
  else if String.eqb current_page "settings" && is_admin user_role
  then Some show_settings_page
  else if String.eqb current_page "profile" then Some show_profile_page
  else None.

Definition admin_page (p : page) : bool :=
  match p with
  | show_user_management | show_analytics_page | show_settings_page => true
  | _ => false
  end.

End AuthUI.

(** ** tools.py: what the properties of the pipeline speak about *)

Module ToolsSpec.

Import PyStr Tools.

(** The marker at which [generate_images] cuts a prompt. *)
Definition critical_marker : string := "CRITICAL:".

(** The chat request that [generate_image_prompts] makes for a post. *)
Definition prompt_request (p : post) : event :=
  EvChat (ChatRequest (ai_prompt (get_or_empty (post_title p)) (get_or_empty (post_caption p)))
            false (Some 200%nat)).

(** Neither the brand overlay nor a request to ImgBB. *)
Definition no_overlay_no_upload (ev : event) : Prop :=
  match ev with
  | EvRender _ _ _ => False
  | EvImgbbPost _ => False
  | _ => True
  end.

End ToolsSpec.

(** ** tools.py on replies that are not the expected shape

    [generate_posts] hands on whatever JSON the model replied, once it has
    a ["posts"] entry of length 3: an entry may be anything, and so may a
    title, a caption or the hashtags. The functions below are
    [generate_image_prompts] and [send_to_zapier] on arbitrary JSON
    values, with the errors that Python raises on them. *)

Module Dyn.

Import PyStr Tools.

(** The fallback prompt's text around the title and the context; the
    context is [caption[:100]] as the f-string renders it. *)
Definition fallback_with (title context : string) : string :=
  "
Professional commercial photograph.
Subject: " ++ title ++ "
Context: " ++ context ++ "
Style: high-quality product photography, studio lighting
Mood: professional, commercial, aspirational
CRITICAL: Absolutely NO text, NO words, NO letters, NO signs, NO labels anywhere in the image.
Clean photography without any visible text or writing.
Aspect ratio: 1:1 (square).
                ".

(** [prompts.append(prompt)] *)
Definition appended (prompts : list string) (prompt : string) : list string :=
  (prompts ++ [prompt])%list.

Section Values.

(** [float(literal) != 0.0], for a JSON number written with a fraction
    or an exponent. *)
Variable float_truthy : string -> bool.

(** [str(v)] for a value that is not a string: what an f-string puts in
    its place. *)
Variable py_repr : json -> string.

(** What [d[:n]] raises on a dict: [TypeError] (a slice is not hashable)
    before Python 3.12, [KeyError] from 3.12 on. *)
Variable dict_slice_error : exn.

(** [bool(v)] *)
Definition truthy (v : json) : bool :=
  match v with
  | JNull => false
  | JBool b => b
  | JInt n => negb (n =? 0)%Z
  | JFloat literal => float_truthy literal
  | JStr s => negb (falsy s)
  | JArr items => match items with [] => false | _ :: _ => true end
  | JObj members => match members with [] => false | _ :: _ => true end
  end.

(** [v.get(key, default)]: only a dict has the method. *)
Definition get (key : string) (default : json) (v : json) : outcome json :=
  match v with
  | JObj members =>
      match find (fun kv => String.eqb key (fst kv)) members with
      | Some kv => Return (snd kv)
      | None => Return default
      end
  | _ => Raise AttributeError
  end.

(** [v[:n]] *)
Definition slice (n : nat) (v : json) : outcome json :=
  match v with
  | JStr s => Return (JStr (take n s))
  | JArr items => Return (JArr (firstn n items))
  | JObj _ => Raise dict_slice_error
  | _ => Raise TypeError
  end.

(** [f"{v}"] *)
Definition format (v : json) : string :=
  match v with
  | JStr s => s
  | _ => py_repr v
  end.

(** A value where Python wants a [str] (the argument of [str.replace],
    an operand of [+] next to a string): [TypeError] otherwise. *)
Definition as_str (v : json) : outcome string :=
  match v with
  | JStr s => Return s
  | _ => Raise TypeError
  end.

(** [for p in v]: the items of a list, the keys of a dict, the characters
    of a string. *)
Definition iterate (v : json) : outcome (list json) :=
  match v with
  | JArr items => Return items
  | JObj members => Return (map (fun kv => JStr (fst kv)) members)
  | JStr s => Return (map (fun c => JStr (String c EmptyString)) (list_ascii_of_string s))
  | _ => Raise TypeError
  end.

(** [v[0]]; [None] where Python raises [IndexError] (an empty list or
    string), which no call site reaches: each tests [v] for truth first. *)
Definition first_item (v : json) : option (outcome json) :=
  match v with
  | JArr (x :: _) => Some (Return x)
  | JArr [] => None
  | JStr (String c _) => Some (Return (JStr (String c EmptyString)))
  | JStr EmptyString => None
  | JObj _ => Some (Raise KeyError)
  | _ => Some (Raise TypeError)
  end.

(** [a + " " + b] *)
Definition joined (a b : json) : outcome string :=
  match as_str a with
  | Raise e => Raise e
  | Return x =>
      match as_str b with
      | Raise e => Raise e
      | Return y => Return (x ++ " " ++ y)
      end
  end.

Section World.

Variable w : env.

(** The [except] branch of the chat path: the fallback prompt joins
    [prompts]. [caption[:100]] is evaluated inside the handler, so what it
    raises leaves the function. *)
Definition fallback (title caption : json) (prompts : list string) : M (list string) :=
  match slice 100 caption with
  | Raise e => raise e
  | Return context =>
      mret (appended prompts (strip (fallback_with (format title) (format context))))
  end.

(** The chat path. The prompt joins [prompts] inside the [try], before
    the [print] of [title[:50]]: when that raises, the handler adds the
    fallback prompt as well. *)
Definition smart (title caption : json) (prompts : list string) : M (list string) :=
  fun s =>
    match chat w (ChatRequest (ai_prompt (format title) (format caption)) false (Some 200%nat)) s
    with
    | (Return (Some text), s1) =>
        match slice 50 title with
        | Return _ => (Return (appended prompts (strip text ++ smart_suffix)), s1)
        | Raise _ => fallback title caption (appended prompts (strip text ++ smart_suffix)) s1
        end
    | (Return None, s1) => fallback title caption prompts s1
    | (Raise _, s1) => fallback title caption prompts s1
    end.

(** The template path: the [print] of [title[:50]], then the two
    [replace] calls, nothing of it inside a [try]. *)
Definition from_template (template : string) (title caption : json) (prompts : list string)
    : M (list string) :=
  match slice 50 title with
  | Raise e => raise e
  | Return _ =>
      match as_str title with
      | Raise e => raise e
      | Return t =>
          match slice 100 caption with
          | Raise e => raise e
          | Return context =>
              match as_str context with
              | Raise e => raise e
              | Return c =>
                  mret (appended prompts
                          (replace "[CAPTION]" c (replace "[TITLE]" t template)
                             ++ template_suffix))
              end
          end
      end
  end.

(** The loop over [posts["posts"]]; [prompts] is the list so far. *)
Fixpoint loop (items : list json) (custom_prompt_template : option string)
    (prompts : list string) : M (list string) :=
  match items with
  | [] => mret prompts
  | p :: rest =>
      match get "title" (JStr EmptyString) p with
      | Raise e => raise e
      | Return title =>
          match get "caption" (JStr EmptyString) p with
          | Raise e => raise e
          | Return caption =>
              if negb (truthy title) then loop rest custom_prompt_template prompts
              else
                prompts1 ←
                  (if not_ custom_prompt_template
                   then smart title caption prompts
                   else from_template (get_or_empty custom_prompt_template)
                          title caption prompts);
                loop rest custom_prompt_template prompts1
          end
      end
  end.

(** [generate_image_prompts(posts, custom_prompt_template)] for any
    [posts] ([None] is [JNull]); the answer is the list under
    ["image_prompts"]. *)
Definition generate_image_prompts (posts : json) (custom_prompt_template : option string)
    : M (list string) :=
  if negb (truthy posts) then mret []
  else
    match py_in "posts" posts with
    | Raise e => raise e
    | Return false => mret []
    | Return true =>
        match py_getitem "posts" posts with
        | Raise e => raise e
        | Return v =>
            match iterate v with
            | Raise e => raise e
            | Return items => loop items custom_prompt_template []
            end
        end
    end.

End World.

End Values.

(** A post of text fields as the JSON object it came from: a field that
    is [None] is a key that is absent. *)
Definition field (key : string) (o : option string) : list (string * json) :=
  match o with
  | Some s => [(key, JStr s)]
  | None => []
  end.

Definition post_json (p : post) : json :=
  JObj (field "title" (post_title p) ++ field "caption" (post_caption p)
          ++ field "hashtags" (post_hashtags p))%list.

End Dyn.

(** ** tools.py: the reel script generator and the webhook *)

Module Reels.

Import PyStr Tools.

Definition reels_prompt (topic : string) : string :=
  "
Create a TikTok/Reel Script about: " ++ topic ++ "

Return JSON ONLY:
{
  " ++ dq ++ "reel_script" ++ dq ++ ": {
    " ++ dq ++ "hook" ++ dq ++ ": " ++ dq ++ dq ++ ",
    " ++ dq ++ "scenes" ++ dq ++ ": [
      {" ++ dq ++ "scene" ++ dq ++ ": 1, " ++ dq ++ "description" ++ dq ++ ": " ++ dq ++ dq ++ ", " ++ dq ++ "camera_direction" ++ dq ++ ": " ++ dq ++ dq ++ ", " ++ dq ++ "narration" ++ dq ++ ": " ++ dq ++ dq ++ "},
      {" ++ dq ++ "scene" ++ dq ++ ": 2, " ++ dq ++ "description" ++ dq ++ ": " ++ dq ++ dq ++ ", " ++ dq ++ "camera_direction" ++ dq ++ ": " ++ dq ++ dq ++ ", " ++ dq ++ "narration" ++ dq ++ ": " ++ dq ++ dq ++ "},
      {" ++ dq ++ "scene" ++ dq ++ ": 3, " ++ dq ++ "description" ++ dq ++ ": " ++ dq ++ dq ++ ", " ++ dq ++ "camera_direction" ++ dq ++ ": " ++ dq ++ dq ++ ", " ++ dq ++ "narration" ++ dq ++ ": " ++ dq ++ dq ++ "}
    ],
    " ++ dq ++ "cta" ++ dq ++ ": " ++ dq ++ dq ++ "
  }
}
".

Section World.

Variable w : env.

(** [json.loads]: [None] stands for [JSONDecodeError]. *)
Variable json_loads : string -> option json.

Definition generate_reels_script (topic : string) : M json :=
  if falsy topic || falsy (strip topic) then raise (ValueError "Topic cannot be empty")
  else
    let prompt := reels_prompt topic in
    try_except
      (reply ← chat w (ChatRequest prompt true None);
       match reply with
       | None => raise AttributeError
       | Some text =>
           let content := strip text in
           if falsy content then raise (ValueError "Empty response from OpenAI")
           else
             match json_loads content with
             | None => raise JSONDecodeError
             | Some result =>
                 match py_in "reel_script" result with
                 | Raise e => raise e
                 | Return false => raise (ValueError "Invalid reel script response structure")
                 | Return true => mret result
                 end
             end
       end)
      (fun e => raise e).

End World.

End Reels.

Module Zapier.

Import PyStr Tools.

(** The pipeline result handed to [send_to_zapier], as far as the
    function reads it. [None] is a key that is absent; [image_urls] is
    [None] also when there is no ["images"] entry. *)
Record payload : Type := Payload {
  payload_topic : option string;
  payload_posts : option (list post);
  image_urls : option (list string)
}.

Record zapier_payload : Type := ZapierPayload {
  topic : string;
  caption : string;
  hashtags : string;
  full_text : string;
  image_url : option string;
  zapier_post_title : string;
  timestamp : string
}.

(** The dict that [send_to_zapier] returns; [status] is the status code
    or the text ["error"]. *)
Record report : Type := Report {
  status : Z + string;
  response : string;
  sent_payload : zapier_payload
}.

Inductive event : Type :=
| EvHead (url : string)
| EvPost (url : string) (body : zapier_payload).

Inductive head_outcome : Type :=
| HeadStatus (status_code : Z)
| HeadRaises (e : exn).

(** [requests.post]: a response, a [RequestException] with its text, or
    an exception of another class. *)
Inductive post_outcome : Type :=
| PostStatus (status_code : Z) (text : string)
| PostRequestException (text : string)
| PostRaises (e : exn).

(** The world: the webhook address of the configuration, and what the
    [n]-th event gets for an answer. *)
Record env : Type := Env {
  ZAPIER_WEBHOOK_URL : string;
  requests_head : nat -> string -> head_outcome;
  requests_post : nat -> string -> zapier_payload -> post_outcome;
  now_isoformat : nat -> string
}.

Section World.

Variable w : env.

(** Lines 636-658: the image URL that goes into the payload, and the
    [HEAD] request made on the way, whose outcome is only printed. *)
Definition pick_image_url (p : payload) (tr : list event) : option string * list event :=
  match image_urls p with
  | Some (first :: _) =>
      if negb (falsy first) && (startswith "http://" first || startswith "https://" first)
      then
        match requests_head w (length tr) first with
        | HeadStatus _ => (Some first, (tr ++ [EvHead first])%list)
        | HeadRaises _ => (Some first, (tr ++ [EvHead first])%list)
        end
      else (None, tr)
  | _ => (None, tr)
  end.

Definition send_to_zapier (p : payload) (tr : list event) : outcome report * list event :=
  let (image_url, tr1) := pick_image_url p tr in
  match payload_posts p with
  | None | Some [] => (Raise (ValueError "No posts available to send to Zapier"), tr1)
  | Some (first_post :: _) =>
      let zp :=
        ZapierPayload (get_or_empty (payload_topic p))
          (get_or_empty (post_caption first_post))
          (get_or_empty (post_hashtags first_post))
          (get_or_empty (post_caption first_post) ++ " "
             ++ get_or_empty (post_hashtags first_post))
          image_url
          (get_or_empty (post_title first_post))
          (now_isoformat w (length tr1)) in
      let tr2 := (tr1 ++ [EvPost (ZAPIER_WEBHOOK_URL w) zp])%list in
      match requests_post w (length tr1) (ZAPIER_WEBHOOK_URL w) zp with
      | PostStatus status_code text => (Return (Report (inl status_code) text zp), tr2)
      | PostRequestException text => (Return (Report (inr "error") text zp), tr2)
      | PostRaises e => (Raise e, tr2)
      end
  end.

End World.

End Zapier.

(** [send_to_zapier] on a payload of any JSON shape. *)

Module ZapierDyn.

Import PyStr Tools.

(** The dict that is posted: the topic, the caption, the hashtags and
    the title go out as the values they are. *)
Record zapier_payload : Type := ZapierPayload {
  topic : json;
  caption : json;
  hashtags : json;
  full_text : string;
  image_url : option string;
  post_title : json;
  timestamp : string
}.

Record report : Type := Report {
  status : Z + string;
  response : string;
  sent_payload : zapier_payload
}.

Inductive event : Type :=
| EvHead (url : string)
| EvPost (url : string) (body : zapier_payload).

Record env : Type := Env {
  ZAPIER_WEBHOOK_URL : string;
  requests_head : nat -> string -> Zapier.head_outcome;
  requests_post : nat -> string -> zapier_payload -> Zapier.post_outcome;
  now_isoformat : nat -> string
}.

Section World.

Variable float_truthy : string -> bool.

Variable w : env.

(** Lines 636-658: the image URL that goes into the payload. A list or
    string of length 0 cannot get past the test for truth, so [v[0]] has
    an item where it is reached. *)
Definition pick_image_url (payload : json) (tr : list event)
    : outcome (option string) * list event :=
  match Dyn.get "images" JNull payload with
  | Raise e => (Raise e, tr)
  | Return images =>
      if negb (Dyn.truthy float_truthy images) then (Return None, tr)
      else
        match Dyn.get "image_urls" JNull images with
        | Raise e => (Raise e, tr)
        | Return images_list =>
            if negb (Dyn.truthy float_truthy images_list) then (Return None, tr)
            else
              match py_len images_list with
              | Raise e => (Raise e, tr)
              | Return _ =>
                  match Dyn.first_item images_list with
                  | None => (Return None, tr)
                  | Some (Raise e) => (Raise e, tr)
                  | Some (Return first) =>
                      if negb (Dyn.truthy float_truthy first) then (Return None, tr)
                      else
                        match first with
                        | JStr url =>
                            if startswith "http://" url || startswith "https://" url
                            then
                              match requests_head w (length tr) url with
                              | Zapier.HeadStatus _ => (Return (Some url), (tr ++ [EvHead url])%list)
                              | Zapier.HeadRaises _ => (Return (Some url), (tr ++ [EvHead url])%list)
                              end
                            else (Return None, tr)
                        | _ => (Raise AttributeError, tr)
                        end
                  end
              end
        end
  end.

(** The dict literal, its values in the order in which they are
    evaluated. *)
Definition build_payload (payload first_post : json) (image_url : option string) (n : nat)
    : outcome zapier_payload :=
  match Dyn.get "topic" (JStr EmptyString) payload with
  | Raise e => Raise e
  | Return topic =>
      match Dyn.get "caption" (JStr EmptyString) first_post with
      | Raise e => Raise e
      | Return caption =>
          match Dyn.get "hashtags" (JStr EmptyString) first_post with
          | Raise e => Raise e
          | Return hashtags =>
              match Dyn.joined caption hashtags with
              | Raise e => Raise e
              | Return full_text =>
                  match Dyn.get "title" (JStr EmptyString) first_post with
                  | Raise e => Raise e
                  | Return post_title =>
                      Return (ZapierPayload topic caption hashtags full_text image_url
                                post_title (now_isoformat w n))
                  end
              end
          end
      end
  end.

Definition send_to_zapier (payload : json) (tr : list event) : outcome report * list event :=
  match pick_image_url payload tr with
  | (Raise e, tr1) => (Raise e, tr1)
  | (Return image_url, tr1) =>
      match Dyn.get "posts" JNull payload with
      | Raise e => (Raise e, tr1)
      | Return posts =>
          if negb (Dyn.truthy float_truthy posts)
          then (Raise (ValueError "No posts available to send to Zapier"), tr1)
          else
            match py_len posts with
            | Raise e => (Raise e, tr1)
            | Return _ =>
                match Dyn.first_item posts with
                | None => (Raise (ValueError "No posts available to send to Zapier"), tr1)
                | Some (Raise e) => (Raise e, tr1)
                | Some (Return first_post) =>
                    match build_payload payload first_post image_url (length tr1) with
                    | Raise e => (Raise e, tr1)
                    | Return zp =>
                        let tr2 := (tr1 ++ [EvPost (ZAPIER_WEBHOOK_URL w) zp])%list in
                        match requests_post w (length tr1) (ZAPIER_WEBHOOK_URL w) zp with
                        | Zapier.PostStatus status_code text =>
                            (Return (Report (inl status_code) text zp), tr2)
                        | Zapier.PostRequestException text =>
                            (Return (Report (inr "error") text zp), tr2)
                        | Zapier.PostRaises e => (Raise e, tr2)
                        end
                    end
                end
            end
      end
  end.

End World.

End ZapierDyn.

(** ** Concrete worlds and inputs, for the examples *)

Module Samples.

Import PyStr.

(** A stand-in for the digest: any function of the password will do for
    the examples. *)
Definition toy_hash (password : string) : string := "sha256:" ++ password.

(** A clock that advances by one second per reading. *)
Definition toy_clock (n : nat) : Z := 1700000000 + Z.of_nat n.

Definition fresh_store : Auth.state :=
  Auth.State ∅ (Auth.Storage None true) 0.

Definition corrupt_storage : Auth.storage := Auth.Storage (Some Auth.Corrupt) true.

(** The store right after [create_user("alice", "secret1", "alice@x.com")]. *)
Definition alice_store : Auth.state :=
  snd (Auth.create_user toy_hash toy_clock "alice" "secret1" "alice@x.com" "user" fresh_store).

Import Tools.

Definition empty_state : state := State [] [] false.

(** A reply with three posts, each with a single hashtag. *)
Definition one_tag_post (title : string) : json :=
  JObj [("title", JStr title); ("caption", JStr "A caption."); ("hashtags", JStr "#uae")].

Definition one_tag_result : json :=
  JObj [("posts", JArr [one_tag_post "One"; one_tag_post "Two"; one_tag_post "Three"])].

Definition one_tag_post_text (title : string) : string :=
  "{" ++ quoted "title" ++ ": " ++ quoted title ++ ", "
    ++ quoted "caption" ++ ": " ++ quoted "A caption." ++ ", "
    ++ quoted "hashtags" ++ ": " ++ quoted "#uae" ++ "}".

Definition one_tag_text : string :=
  "{" ++ quoted "posts" ++ ": [" ++ one_tag_post_text "One" ++ ", "
    ++ one_tag_post_text "Two" ++ ", " ++ one_tag_post_text "Three" ++ "]}".

(** [json.loads] on the one text used in the examples. *)
Definition loads_one_tag (text : string) : option json :=
  if String.eqb text one_tag_text then Some one_tag_result else None.

(** A world in which every service answers and the file system works. *)
Definition happy_world : env :=
  Env "imgbb-key"
    (fun _ req => if chat_json_mode req then ChatReply (Some one_tag_text)
                  else ChatReply (Some "A studio photograph of a perfume bottle on marble."))
    (fun _ _ => DalleData [Some "https://dalle.example/img.png"])
    (fun _ _ => ReplicateOutput ["https://replicate.example/out.png"])
    (fun _ _ => GetOk "bytes")
    (fun _ path => PostResponse 200
                     (BodySuccess (if startswith "images/branded_" path
                                   then "https://i.ibb.co/b/branded.jpg"
                                   else "https://i.ibb.co/a/clean.jpg")))
    (fun _ => None)
    (fun _ => true)
    (fun _ _ => WriteOk)
    (fun _ _ => true)
    (fun _ => 1700000000).

(** The same world with the chat service down. *)
Definition no_chat_world : env :=
  Env "imgbb-key"
    (fun _ _ => ChatRaises (ServiceError "chat"))
    (images_generate happy_world) (replicate_run happy_world)
    (requests_get happy_world) (requests_post_imgbb happy_world)
    (render happy_world) (makedirs_ok happy_world) (write_file happy_world)
    (remove_ok happy_world) (timestamp happy_world).

(** The same world with ImgBB refusing the second upload (the branded
    image) after taking the first. *)
Definition second_upload_fails_world : env :=
  Env "imgbb-key"
    (chat_completions_create happy_world)
    (images_generate happy_world) (replicate_run happy_world)
    (requests_get happy_world)
    (fun n path => if startswith "images/branded_" path then PostResponse 500 BodyInvalid
                   else PostResponse 200 (BodySuccess "https://i.ibb.co/a/clean.jpg"))
    (render happy_world) (makedirs_ok happy_world) (write_file happy_world)
    (remove_ok happy_world) (timestamp happy_world).

Definition sample_post : post :=
  Post (Some "Desert Bloom") (Some "A new fragrance for the season.") (Some "#uae #dubai").

(** The account that [alice_store] holds for alice. *)
Definition alice_account : Auth.account :=
  Auth.Account (toy_hash "secret1") "alice@x.com" "user" (toy_clock 0) None true.

Definition two_prompts : list string :=
  ["A perfume bottle on marble. CRITICAL: no text"; "A second prompt"].

(** A template of plain text around the two placeholders. *)
Definition photo_template : list piece :=
  [Lit "Photo of "; TitleSlot; Lit ": "; CaptionSlot].

(** The world of [happy_world] with DALL-E down. *)
Definition dalle_down_world : env :=
  Env "imgbb-key"
    (chat_completions_create happy_world)
    (fun _ _ => DalleRaises (ServiceError "images"))
    (replicate_run happy_world)
    (requests_get happy_world) (requests_post_imgbb happy_world)
    (render happy_world) (makedirs_ok happy_world) (write_file happy_world)
    (remove_ok happy_world) (timestamp happy_world).

(** The three prompts that the sample post gets: from a template, from
    the chat model, and from the fallback. *)
Definition template_sample : string :=
  template_prompt "Photo of [TITLE]: [CAPTION]" "Desert Bloom" "A new fragrance for the season.".
Definition smart_sample : string :=
  "A studio photograph of a perfume bottle on marble." ++ smart_suffix.
Definition fallback_sample : string :=
  fallback_prompt "Desert Bloom" "A new fragrance for the season.".

End Samples.

(** ** Further inputs for the examples *)

Module MoreSamples.

Import PyStr Samples.

(** A user name that ends with a line feed. *)
Definition line_feed_name : string := "abc" ++ ReLang.nl.

(** An update of alice that carries a new role and a password that is
    too short, and the store after it has failed. *)
Definition short_password_update : Auth.mutation :=
  Auth.Update "alice" None (Some "admin") None (Some "abc").

Definition alice_after_failed_update : Auth.state :=
  snd (Auth.run_mutation toy_hash toy_clock short_password_update alice_store).

(** The store after alice has logged in. *)
Definition alice_logged_in : Auth.state :=
  snd (Auth.authenticate toy_hash toy_clock "alice" "secret1" alice_store).

Definition logged_out : AuthUI.login := AuthUI.Login false None None.

Definition alice_session : AuthUI.login := AuthUI.Login true (Some "alice") (Some "user").

(** The store after carol has signed up next to alice. *)
Definition carol_signed_up : Auth.state :=
  snd (AuthUI.signup_submit toy_hash toy_clock "carol" "carol@x.com" "secret9" "secret9" true
         alice_store).

(** The store after alice has changed her password on the profile page. *)
Definition alice_new_password : Auth.state :=
  snd (AuthUI.change_password_submit toy_hash (Some "alice") "secret1" "secret2" "secret2"
         alice_logged_in).

(** The store after the edit form has made alice an inactive admin. *)
Definition alice_edited : Auth.state :=
  snd (AuthUI.edit_form_save toy_hash "alice" "new@x.com" "admin" "Inactive"
         EmptyString EmptyString alice_logged_in).

(** The world of [happy_world] without an ImgBB API key. *)
Definition no_key_world : Tools.env :=
  Tools.Env EmptyString
    (Tools.chat_completions_create happy_world)
    (Tools.images_generate happy_world) (Tools.replicate_run happy_world)
    (Tools.requests_get happy_world) (Tools.requests_post_imgbb happy_world)
    (Tools.render happy_world) (Tools.makedirs_ok happy_world) (Tools.write_file happy_world)
    (Tools.remove_ok happy_world) (Tools.timestamp happy_world).

(** A webhook that takes every request, and an image host that is down. *)
Definition hook_world : Zapier.env :=
  Zapier.Env "https://hooks.zapier.com/hooks/catch/1/abc/"
    (fun _ _ => Zapier.HeadStatus 404)
    (fun _ _ _ => Zapier.PostStatus 200 "ok")
    (fun _ => "2024-01-01T00:00:00").

(** Stand-ins for what Python does with values that are not strings:
    every number counts as not zero, and [str] is left schematic. *)
Definition toy_float_truthy (literal : string) : bool := true.

Definition toy_repr (v : Tools.json) : string :=
  match v with
  | Tools.JNull => "None"
  | Tools.JBool true => "True"
  | Tools.JBool false => "False"
  | _ => "<value>"
  end.


(** A reply whose second entry is a string. *)
Definition reply_with_a_string : list (string * Tools.json) :=
  [("posts", Tools.JArr [Dyn.post_json sample_post; Tools.JStr "Desert Bloom"])].

(** A post whose caption is null, and one whose title is a number. *)
Definition null_caption_post : Tools.json :=
  Tools.JObj [("title", Tools.JStr "Desert Bloom"); ("caption", Tools.JNull)].

Definition number_title_post : Tools.json :=
  Tools.JObj [("title", Tools.JInt 5); ("caption", Tools.JStr "A caption.")].

(** A payload whose first post has its hashtags as a list. *)
Definition tag_list_post : Tools.json :=
  Tools.JObj [("title", Tools.JStr "Desert Bloom");
              ("caption", Tools.JStr "A new fragrance for the season.");
              ("hashtags", Tools.JArr [Tools.JStr "#uae"; Tools.JStr "#dubai"])].

Definition tag_list_payload : Tools.json :=
  Tools.JObj [("topic", Tools.JStr "perfume");
              ("posts", Tools.JArr [tag_list_post]);
              ("images", Tools.JObj [("image_urls",
                                      Tools.JArr [Tools.JStr "https://i.ibb.co/a/clean.jpg"])])].

(** A payload whose posts are a string of three characters, which the
    length check of [generate_posts] lets through. *)
Definition string_posts_payload : Tools.json :=
  Tools.JObj [("topic", Tools.JStr "perfume"); ("posts", Tools.JStr "abc")].

Definition any_hook_world : ZapierDyn.env :=
  ZapierDyn.Env "https://hooks.zapier.com/hooks/catch/1/abc/"
    (fun _ _ => Zapier.HeadStatus 404)
    (fun _ _ _ => Zapier.PostStatus 200 "ok")
    (fun _ => "2024-01-01T00:00:00").

(** The store of alice on a disk that cannot be written. *)
Definition read_only (s : Auth.state) : Auth.state :=
  Auth.State (Auth.users s) (Auth.Storage (Auth.content (Auth.store s)) false) (Auth.ticks s).

Definition payload_without_posts : Zapier.payload :=
  Zapier.Payload (Some "perfume") None (Some ["https://i.ibb.co/a/clean.jpg"]).

End MoreSamples.

(** * Properties of the string operations *)

Section StringLemmas.

Import PyStr.

Lemma append_assoc (a b c : string) : (a ++ b) ++ c = a ++ b ++ c.
Proof. induction a as [|x a IH]; [reflexivity|]. simpl. rewrite IH. reflexivity. Qed.

Lemma append_empty_r (a : string) : a ++ EmptyString = a.
Proof. induction a as [|x a IH]; [reflexivity|]. simpl. rewrite IH. reflexivity. Qed.

Lemma startswith_app (p r : string) : startswith p (p ++ r) = true.
Proof.
  induction p as [|c p IH]; [destruct r; reflexivity|].
  simpl. rewrite Ascii.eqb_refl. exact IH.
Qed.

Lemma startswith_split (p s : string) :
  startswith p s = true -> exists r, s = p ++ r.
Proof.
  revert s. induction p as [|c p IH]; intros s H.
  - exists s. reflexivity.
  - destruct s as [|d s]; [discriminate|]. simpl in H.
    apply andb_true_iff in H. destruct H as [Hc Hp].
    apply Ascii.eqb_eq in Hc. subst d.
    destruct (IH s Hp) as [r ->]. exists r. reflexivity.
Qed.

Lemma contains_here (t r : string) : contains t (t ++ r) = true.
Proof.
  destruct (t ++ r) eqn:E; simpl; rewrite <- E, startswith_app; reflexivity.
Qed.

Lemma contains_cons (t : string) (c : ascii) (s : string) :
  contains t s = true -> contains t (String c s) = true.
Proof. intros H. simpl. rewrite H. apply orb_true_r. Qed.

Lemma contains_app_r (t a s : string) :
  contains t s = true -> contains t (a ++ s) = true.
Proof.
  intros H. induction a as [|c a IH]; [exact H|].
  simpl append. apply contains_cons. exact IH.
Qed.

Lemma contains_app_l (t s b : string) :
  contains t s = true -> contains t (s ++ b) = true.
Proof.
  induction s as [|c s IH]; intros H.
  - simpl in H. rewrite orb_false_r in H.
    destruct t; [|discriminate]. destruct b; reflexivity.
  - simpl in H. apply orb_true_iff in H. destruct H as [H|H].
    + destruct (startswith_split _ _ H) as [r E]. rewrite E.
      rewrite append_assoc. apply contains_here.
    + simpl append. apply contains_cons. apply IH. exact H.
Qed.

Lemma contains_split (t s : string) :
  contains t s = true -> exists a b, s = a ++ t ++ b.
Proof.
  induction s as [|c s IH]; intros H.
  - simpl in H. rewrite orb_false_r in H.
    destruct t; [|discriminate]. exists EmptyString, EmptyString. reflexivity.
  - simpl in H. apply orb_true_iff in H. destruct H as [H|H].
    + destruct (startswith_split _ _ H) as [r E]. exists EmptyString, r. exact E.
    + destruct (IH H) as (a & b & ->). exists (String c a), b. reflexivity.
Qed.

Lemma endswith_app (a p : string) : endswith p (a ++ p) = true.
Proof.
  induction a as [|c a IH].
  - destruct p; [reflexivity|]. cbn [append endswith]. rewrite String.eqb_refl. reflexivity.
  - cbn [append endswith]. rewrite IH. apply orb_true_r.
Qed.

(** *** [replace] *)

Lemma replace_from_skip (old new a r : string) :
  replace_from old new (a ++ r) (String.length a) = replace_from old new r 0.
Proof. induction a as [|c a IH]; [reflexivity|]. simpl. exact IH. Qed.

Lemma replace_match (old new r : string) :
  old <> EmptyString ->
  replace old new (old ++ r) = new ++ replace old new r.
Proof.
  intros Hne. unfold replace.
  destruct old as [|o old']; [contradiction|].
  change (String o old' ++ r) with (String o (old' ++ r)).
  cbn [replace_from].
  change (String o (old' ++ r)) with (String o old' ++ r).
  rewrite startswith_app.
  replace (String.length (String o old') - 1)%nat with (String.length old')
    by (simpl; lia).
  rewrite replace_from_skip. reflexivity.
Qed.

Lemma replace_step (old new : string) (c : ascii) (s : string) :
  startswith old (String c s) = false ->
  replace old new (String c s) = String c (replace old new s).
Proof. intros H. unfold replace. cbn [replace_from]. rewrite H. reflexivity. Qed.

Lemma mismatch_startswith (old u r : string) :
  mismatch old u = true -> startswith old (u ++ r) = false.
Proof.
  revert u. induction old as [|a old IH]; intros u H; [destruct u; discriminate|].
  destruct u as [|b u]; [discriminate|].
  simpl in H. simpl. destruct (Ascii.eqb a b); simpl in *; [apply IH; exact H|reflexivity].
Qed.

(** Text in which no occurrence can start is copied as it is. *)
Lemma replace_copy (old new u r : string) :
  never_starts old u = true ->
  replace old new (u ++ r) = u ++ replace old new r.
Proof.
  induction u as [|c u IH]; intros H; [reflexivity|].
  cbn [never_starts] in H. apply andb_true_iff in H. destruct H as [Hm Hn].
  change (String c u ++ r) with (String c (u ++ r)).
  rewrite replace_step.
  - rewrite IH by exact Hn. reflexivity.
  - change (String c (u ++ r)) with (String c u ++ r).
    apply mismatch_startswith. exact Hm.
Qed.

Lemma char_free_never_starts (o : ascii) (old' u : string) :
  char_free o u = true -> never_starts (String o old') u = true.
Proof.
  induction u as [|c u IH]; intros H; [reflexivity|].
  cbn [char_free] in H. apply andb_true_iff in H. destruct H as [Hc Hu].
  cbn [never_starts mismatch]. rewrite Hc. simpl. apply IH. exact Hu.
Qed.

(** If [x] ends before the character [c0] can occur in it, a match of
    [x] against [p ++ c0 ...] lies within [p]. *)
Lemma startswith_within (x p : string) (c0 : ascii) (rest : string) :
  startswith x (p ++ String c0 rest) = true ->
  char_free c0 x = true ->
  exists p2, p = x ++ p2.
Proof.
  revert p. induction x as [|a x IH]; intros p H Hf.
  - exists p. reflexivity.
  - cbn [char_free] in Hf. apply andb_true_iff in Hf. destruct Hf as [Ha Hx].
    destruct p as [|b p].
    + simpl in H. apply andb_true_iff in H. destruct H as [H _].
      apply Ascii.eqb_eq in H. subst a. rewrite Ascii.eqb_refl in Ha. discriminate.
    + simpl in H. apply andb_true_iff in H. destruct H as [Hab H].
      apply Ascii.eqb_eq in Hab. subst b.
      destruct (IH p H Hx) as [p2 ->]. exists p2. reflexivity.
Qed.

(** A piece of text [t] that no occurrence of [old] can overlap survives
    the replacement of [old]. *)
Lemma replace_keeps (old new : string) (o c0 : ascii) (old' t' : string) (p q : string) :
  old = String o old' ->
  never_starts old (String c0 t') = true ->
  char_free c0 old' = true ->
  exists p', replace old new (p ++ String c0 t' ++ q)
             = p' ++ String c0 t' ++ replace old new q.
Proof.
  intros Hold Hns Hf.
  remember (String.length p) as n eqn:Hn.
  revert p Hn. induction n as [n IH] using lt_wf_ind. intros p Hn.
  destruct p as [|c p1].
  - exists EmptyString. exact (replace_copy old new (String c0 t') q Hns).
  - destruct (startswith old (String c p1 ++ String c0 t' ++ q)) eqn:Es.
    + assert (Hin : exists p2, p1 = old' ++ p2 /\ c = o).
      { subst old. change (String c p1 ++ String c0 t' ++ q)
          with (String c (p1 ++ String c0 (t' ++ q))) in Es.
        cbn [startswith] in Es. apply andb_true_iff in Es. destruct Es as [Hoc Es].
        apply Ascii.eqb_eq in Hoc.
        destruct (startswith_within old' p1 c0 (t' ++ q) Es Hf) as [p2 ->].
        exists p2. split; [reflexivity|symmetry; exact Hoc]. }
      destruct Hin as (p2 & -> & ->).
      assert (Hlt : (String.length p2 < n)%nat).
      { subst n. clear. cbn [String.length]. induction old' as [|x l IHl]; simpl; lia. }
      destruct (IH _ Hlt p2 eq_refl) as [p' Hp'].
      exists (new ++ p').
      change (String o (old' ++ p2)) with (String o old' ++ p2).
      rewrite <- Hold. rewrite append_assoc.
      rewrite replace_match by (subst old; discriminate).
      rewrite Hp'. rewrite append_assoc. reflexivity.
    + assert (Hlt : (String.length p1 < n)%nat) by (subst n; simpl; lia).
      destruct (IH _ Hlt p1 eq_refl) as [p' Hp'].
      exists (String c p').
      change (String c p1 ++ String c0 t' ++ q) with (String c (p1 ++ String c0 t' ++ q)) in *.
      rewrite replace_step by exact Es. rewrite Hp'. reflexivity.
Qed.

Lemma contains_replace_keeps (old new t T : string) (o c0 : ascii) (old' t' : string) :
  old = String o old' -> t = String c0 t' ->
  never_starts old t = true ->
  char_free c0 old' = true ->
  contains t T = true ->
  contains t (replace old new T) = true.
Proof.
  intros Hold Ht Hns Hf Hc.
  destruct (contains_split _ _ Hc) as (p & q & ->). subst t.
  destruct (replace_keeps old new o c0 old' t' p q Hold Hns Hf) as [p' ->].
  apply contains_app_r. apply contains_here.
Qed.

(** Where [old] occurs, [new] occurs after the replacement. *)
Lemma contains_replaced (old new s : string) :
  old <> EmptyString ->
  contains old s = true ->
  contains new (replace old new s) = true.
Proof.
  intros Hne. induction s as [|c s IH]; intros H.
  - destruct old; [contradiction|discriminate].
  - cbn [contains] in H. destruct (startswith old (String c s)) eqn:Es.
    + destruct (startswith_split _ _ Es) as [r ->].
      rewrite replace_match by exact Hne. apply contains_here.
    + simpl in H. rewrite replace_step by exact Es.
      apply contains_cons. apply IH. exact H.
Qed.

(** *** [strip] *)

Lemma rstrip_app (a b : string) :
  rstrip b <> EmptyString ->
  rstrip (a ++ b) = a ++ rstrip b /\ rstrip (a ++ b) <> EmptyString.
Proof.
  intros Hb. induction a as [|c a [IH IHne]]; [split; [reflexivity|exact Hb]|].
  change (String c a ++ b) with (String c (a ++ b)). cbn [rstrip].
  destruct (rstrip (a ++ b)) as [|d r] eqn:E; [contradiction|].
  split; [|discriminate].
  change (String c a ++ rstrip b) with (String c (a ++ rstrip b)).
  rewrite <- IH. reflexivity.
Qed.

End StringLemmas.

(** * Properties of the prompt synthesizer *)

Section PromptLemmas.

Import PyStr Tools.

Lemma template_prompt_ends (template title caption : string) :
  endswith template_suffix (template_prompt template title caption) = true.
Proof. unfold template_prompt. apply endswith_app. Qed.

Lemma template_prompt_has_caption (template title caption : string) :
  contains "[CAPTION]" template = true ->
  contains (take 100 caption) (template_prompt template title caption) = true.
Proof.
  intros H. unfold template_prompt. apply contains_app_l.
  apply contains_replaced; [discriminate|].
  eapply contains_replace_keeps; [reflexivity|reflexivity|reflexivity|reflexivity|exact H].
Qed.

(** The first pass fills the title slots and leaves the rest alone. *)
Lemma replace_title_fills (title : string) (pieces : list piece) :
  plain_text_ok pieces = true ->
  replace "[TITLE]" title (template_text pieces) = fill title "[CAPTION]" pieces.
Proof.
  unfold template_text.
  induction pieces as [|[text| |] rest IH]; intros H; [reflexivity| | |];
    cbn [plain_text_ok] in H; cbn [fill].
  - apply andb_true_iff in H. destruct H as [Ht Hr].
    rewrite replace_copy by (apply char_free_never_starts; exact Ht).
    rewrite IH by exact Hr. reflexivity.
  - rewrite replace_match by discriminate. rewrite IH by exact H. reflexivity.
  - rewrite replace_copy by reflexivity. rewrite IH by exact H. reflexivity.
Qed.

(** The second pass fills the caption slots; the titles already put in
    are plain text for it when they have no opening bracket. *)
Lemma replace_caption_fills (title cap : string) (pieces : list piece) :
  plain_text_ok pieces = true ->
  char_free "["%char title = true ->
  replace "[CAPTION]" cap (fill title "[CAPTION]" pieces) = fill title cap pieces.
Proof.
  intros H Ht. revert H.
  induction pieces as [|[text| |] rest IH]; intros H; [reflexivity| | |];
    cbn [plain_text_ok] in H; cbn [fill].
  - apply andb_true_iff in H. destruct H as [Hx Hr].
    rewrite replace_copy by (apply char_free_never_starts; exact Hx).
    rewrite IH by exact Hr. reflexivity.
  - rewrite replace_copy by (apply char_free_never_starts; exact Ht).
    rewrite IH by exact H. reflexivity.
  - rewrite replace_match by discriminate. rewrite IH by exact H. reflexivity.
Qed.

Lemma fill_has_title (t c : string) (pieces : list piece) :
  In TitleSlot pieces -> contains t (fill t c pieces) = true.
Proof.
  induction pieces as [|p rest IH]; intros H; [destruct H|].
  destruct H as [->|H]; [apply contains_here|].
  destruct p; cbn [fill]; apply contains_app_r; apply IH; exact H.
Qed.

Lemma fill_has_caption (t c : string) (pieces : list piece) :
  In CaptionSlot pieces -> contains c (fill t c pieces) = true.
Proof.
  induction pieces as [|p rest IH]; intros H; [destruct H|].
  destruct H as [->|H]; [apply contains_here|].
  destruct p; cbn [fill]; apply contains_app_r; apply IH; exact H.
Qed.

Lemma template_prompt_fills (pieces : list piece) (title caption : string) :
  plain_text_ok pieces = true ->
  char_free "["%char title = true ->
  template_prompt (template_text pieces) title caption
    = fill title (take 100 caption) pieces ++ template_suffix.
Proof.
  intros Hp Ht. unfold template_prompt.
  rewrite replace_title_fills by exact Hp.
  rewrite replace_caption_fills by assumption. reflexivity.
Qed.

(** The fallback prompt, written out. *)
Lemma fallback_prompt_ends (title caption : string) :
  endswith fallback_suffix (fallback_prompt title caption) = true.
Proof.
  unfold fallback_prompt, fallback_text, strip.
  match goal with |- context [lstrip (?a ++ ?rest)] =>
    let a1 := eval vm_compute in (lstrip a) in
    replace (lstrip (a ++ rest)) with (a1 ++ rest) by reflexivity
  end.
  match goal with |- context [rstrip (?a ++ title ++ ?b ++ take 100 caption ++ ?c)] =>
    replace (a ++ title ++ b ++ take 100 caption ++ c)
      with ((a ++ title ++ b ++ take 100 caption) ++ c)
      by (rewrite !append_assoc; reflexivity);
    destruct (rstrip_app (a ++ title ++ b ++ take 100 caption) c) as [-> _];
      [vm_compute; discriminate|]
  end.
  match goal with |- context [rstrip ?c] =>
    let r := eval vm_compute in (rstrip c) in change (rstrip c) with r end.
  match goal with |- endswith _ (?x ++ ?y) = true =>
    replace y with ("
Style: high-quality product photography, studio lighting
Mood: professional, commercial, aspirational
" ++ fallback_suffix) by reflexivity
  end.
  rewrite <- append_assoc. apply endswith_app.
Qed.

End PromptLemmas.
(** * Properties of the user database *)

Section AuthProperties.

Import Auth.

Variable hash_password : string -> string.
Variable clock : nat -> Z.

Ltac unfold_store :=
  unfold Auth.create_user, Auth.update_user, Auth.delete_user, Auth.authenticate,
    Auth.update_email, Auth.update_role, Auth.update_active, Auth.update_password,
    Auth.modify_user, Auth._save_users, Auth.now, Auth.get_users, Auth.set_users,
    mbind, M_bind, mret, M_ret in *; simpl in *.

Lemma create_user_fresh (s : state) (u p e r : string) :
  users s !! u = None ->
  _validate_email e = true ->
  Re.re_match username_pattern u = true ->
  writable (store s) = true ->
  create_user hash_password clock u p e r s =
    (Return (true, "User created successfully"),
     State (<[u := Account (hash_password p) e r (clock (ticks s)) None true]> (users s))
       (Storage (Some (Valid (<[u := Account (hash_password p) e r (clock (ticks s)) None true]> (users s)))) true)
       (S (ticks s))).
Proof.
  intros Hu He Hn Hw. unfold_store.
  destruct (decide (is_Some (users s !! u))) as [[a Ha]|_]; [congruence|].
  rewrite He, Hn. simpl. rewrite Hw. reflexivity.
Qed.

Lemma create_user_success (s s1 : state) (u p e r msg : string) :
  create_user hash_password clock u p e r s = (Return (true, msg), s1) ->
  users s !! u = None /\ _validate_email e = true /\
  Re.re_match username_pattern u = true /\ writable (store s) = true.
Proof.
  intros H. unfold_store.
  destruct (decide (is_Some (users s !! u))) as [Hs|Hn]; [discriminate|].
  destruct (_validate_email e); simpl in H; [|discriminate].
  destruct (Re.re_match username_pattern u); simpl in H; [|discriminate].
  destruct (writable (store s)); simpl in H; [|discriminate].
  repeat split. apply eq_None_not_Some. exact Hn.
Qed.

Lemma default_admin_valid :
  _validate_email "admin@example.com" = true /\
  Re.re_match username_pattern "admin" = true.
Proof. split; vm_compute; reflexivity. Qed.

Lemma default_user_valid :
  _validate_email "user@example.com" = true /\
  Re.re_match username_pattern "user" = true.
Proof. split; vm_compute; reflexivity. Qed.

(** C7. When [create_user] succeeds with the default role ["user"], an
    [authenticate] that follows at once with the same user name and
    password succeeds, returns the role ["user"] and sets [last_login] to
    an instant that is not before [created_at]; the clock is taken not to
    run backwards. *)
Theorem create_then_authenticate (s s1 : state) (u p e msg : string) :
  (forall n m : nat, (n <= m)%nat -> clock n <= clock m) ->
  create_user hash_password clock u p e "user" s = (Return (true, msg), s1) ->
  exists (s2 : state) (a : account) (t : Z),
    authenticate hash_password clock u p s1
      = (Return (true, "Login successful", Some "user"), s2) /\
    users s2 !! u = Some a /\
    last_login a = Some t /\
    created_at a <= t /\
    content (store s2) = Some (Valid (users s2)).
Proof.
  intros Hclock Hcreate.
  destruct (create_user_success _ _ _ _ _ _ _ Hcreate) as (Hu & He & Hn & Hw).
  rewrite (create_user_fresh s u p e "user" Hu He Hn Hw) in Hcreate.
  injection Hcreate as _ <-.
  set (a0 := Account (hash_password p) e "user" (clock (ticks s)) None true).
  exists (State (alter (set_last_login (clock (S (ticks s)))) u (<[u := a0]> (users s)))
            (Storage (Some (Valid (alter (set_last_login (clock (S (ticks s)))) u
                                     (<[u := a0]> (users s))))) true)
            (S (S (ticks s)))),
    (set_last_login (clock (S (ticks s))) a0), (clock (S (ticks s))).
  split; [|split; [|split; [|split]]].
  - unfold_store. rewrite lookup_insert_eq. simpl.
    rewrite String.eqb_refl. reflexivity.
  - simpl. rewrite lookup_alter_eq, lookup_insert_eq. reflexivity.
  - reflexivity.
  - simpl. apply Hclock. lia.
  - reflexivity.
Qed.

(** C10. [update_user] is not atomic on the in-memory dict: for an
    existing user, with an e-mail that is valid or not given and a
    [new_password] of fewer than 6 characters, it returns the
    password-length error and leaves the storage as it was, while the
    e-mail, role and active flag of the same call are already in the
    account record (the password hash is not touched, nor is any other
    account). *)
Theorem update_user_partial_on_short_password (s : state) (u : string) (a : account)
    (email role : option string) (active : option bool) (p : string) :
  users s !! u = Some a ->
  email_passes email = true ->
  (String.length p < 6)%nat ->
  exists s' : state,
    update_user hash_password u email role active (Some p) s
      = (Return (false, "Password must be at least 6 characters"), s') /\
    store s' = store s /\
    users s' !! u
      = Some (apply_opt set_active active (apply_opt set_role role (apply_opt set_email email a))) /\
    (forall v : string, v <> u -> users s' !! v = users s !! v).
Proof.
  intros Hu He Hp.
  assert (Hlen : (String.length p <? 6)%nat = true) by (apply Nat.ltb_lt; exact Hp).
  unfold_store.
  destruct (decide (is_Some (users s !! u))) as [_|Hn]; [|exfalso; apply Hn; eauto].
  destruct email as [e|]; simpl in He; [rewrite He|];
    destruct role as [r|]; destruct active as [ac|]; simpl; rewrite Hlen; simpl;
    eexists; (split; [reflexivity|]); simpl;
    (split; [reflexivity|]);
    (split; [repeat rewrite lookup_alter_eq; rewrite Hu; reflexivity
            | intros v Hv; repeat (rewrite lookup_alter_ne; [|congruence]); reflexivity]).
Qed.

Lemma update_user_short_password (s : state) (u : string)
    (email role : option string) (active : option bool) (p : string) :
  is_Some (users s !! u) ->
  email_passes email = true ->
  (String.length p < 6)%nat ->
  fst (update_user hash_password u email role active (Some p) s)
    = Return (false, "Password must be at least 6 characters").
Proof.
  intros [a Ha] He Hp.
  assert (Hlen : (String.length p <? 6)%nat = true) by (apply Nat.ltb_lt; exact Hp).
  unfold_store.
  destruct (decide (is_Some (users s !! u))) as [_|Hn]; [|exfalso; apply Hn; eauto].
  destruct email as [e|]; simpl in He; [rewrite He|];
    destruct role as [r|]; destruct active as [ac|]; simpl; rewrite Hlen; reflexivity.
Qed.

(** C9. [create_user] puts no condition on the password: when the user
    name is free and well formed and the e-mail is valid (and the store
    can be written), it succeeds for every password, the empty one
    included, and stores that password's hash. The six-character minimum
    belongs to [update_user]: on the account just created, every new
    password shorter than 6 characters is refused. *)
Theorem create_user_ignores_password_length (s : state) (u p e r : string) :
  users s !! u = None ->
  _validate_email e = true ->
  Re.re_match username_pattern u = true ->
  writable (store s) = true ->
  exists s1 s0 : state,
    create_user hash_password clock u p e r s
      = (Return (true, "User created successfully"), s1) /\
    (password <$> users s1 !! u) = Some (hash_password p) /\
    create_user hash_password clock u "" e r s
      = (Return (true, "User created successfully"), s0) /\
    (password <$> users s0 !! u) = Some (hash_password "") /\
    (forall (q : string) (email role' : option string) (active : option bool),
        (String.length q < 6)%nat ->
        email_passes email = true ->
        fst (update_user hash_password u email role' active (Some q) s1)
          = Return (false, "Password must be at least 6 characters")).
Proof.
  intros Hu He Hn Hw.
  do 2 eexists.
  split; [apply create_user_fresh; assumption|].
  split; [simpl; rewrite lookup_insert_eq; reflexivity|].
  split; [apply create_user_fresh; assumption|].
  split; [simpl; rewrite lookup_insert_eq; reflexivity|].
  intros q email role' active Hq Hem.
  apply update_user_short_password; [|assumption|assumption].
  simpl. rewrite lookup_insert_eq. eauto.
Qed.

Lemma run_mutation_success (op : mutation) (s s' : state) :
  run_mutation hash_password clock op s = (Return true, s') ->
  writable (store s) = true /\ content (store s') = Some (Valid (users s')).
Proof.
  destruct op as [u p e r|u e r a p|u|u p]; unfold run_mutation; unfold_store; intros H.
  - destruct (decide (is_Some (users s !! u))); [discriminate|].
    destruct (_validate_email e); simpl in H; [|discriminate].
    destruct (Re.re_match username_pattern u); simpl in H; [|discriminate].
    destruct (writable (store s)); simpl in H; [|discriminate].
    injection H as <-. split; reflexivity.
  - destruct (decide (is_Some (users s !! u))); [|discriminate].
    destruct e as [e|]; simpl in H;
      [destruct (_validate_email e); simpl in H; [|discriminate]|];
      destruct r as [r|]; destruct a as [a|]; destruct p as [p|]; simpl in H;
      try (destruct (String.length p <? 6)%nat; simpl in H; [discriminate|]);
      (destruct (writable (store s)); simpl in H; [|discriminate]);
      injection H as <-; split; reflexivity.
  - destruct (decide (is_Some (users s !! u))); [|discriminate].
    simpl in H. destruct (writable (store s)); simpl in H; [|discriminate].
    injection H as <-. split; reflexivity.
  - destruct (users s !! u) as [a|]; [|discriminate].
    destruct (active a); simpl in H; [|discriminate].
    destruct (Auth.password a =? hash_password p)%string; simpl in H; [|discriminate].
    destruct (writable (store s)); simpl in H; [|discriminate].
    injection H as <-. split; reflexivity.
Qed.

Lemma run_mutation_unwritable (op : mutation) (s : state) :
  writable (store s) = false ->
  fst (run_mutation hash_password clock op s) = Raise OSError \/
  fst (run_mutation hash_password clock op s) = Return false.
Proof.
  intros Hw.
  destruct op as [u p e r|u e r a p|u|u p]; unfold run_mutation; unfold_store.
  - destruct (decide (is_Some (users s !! u))); [right; reflexivity|].
    destruct (_validate_email e); simpl; [|right; reflexivity].
    destruct (Re.re_match username_pattern u); simpl; [|right; reflexivity].
    rewrite Hw. left; reflexivity.
  - destruct (decide (is_Some (users s !! u))); [|right; reflexivity].
    destruct e as [e|]; simpl;
      [destruct (_validate_email e); simpl; [|right; reflexivity]|];
      destruct r as [r|]; destruct a as [a|]; destruct p as [p|]; simpl;
      try (destruct (String.length p <? 6)%nat; simpl; [right; reflexivity|]);
      rewrite Hw; left; reflexivity.
  - destruct (decide (is_Some (users s !! u))); [|right; reflexivity].
    simpl. rewrite Hw. left; reflexivity.
  - destruct (users s !! u) as [a|]; [|right; reflexivity].
    destruct (active a); simpl; [|right; reflexivity].
    destruct (Auth.password a =? hash_password p)%string; simpl; [|right; reflexivity].
    rewrite Hw. left; reflexivity.
Qed.

(** C4 (amended). Whatever a mutating operation (create, update, delete,
    authenticate) does: when it returns success the whole in-memory store
    has been written to storage, and the storage was writable; when the
    storage is not writable the operation either raises the error of the
    failed save or returns a failure of its own checks, never success. A
    failure to read the store is not propagated: [_load_users] always
    returns a dict, the empty one when the file is absent or unreadable. *)
Theorem mutations_persist_before_success (op : mutation) (s s' : state) (r : outcome bool) :
  run_mutation hash_password clock op s = (r, s') ->
  (r = Return true ->
     writable (store s) = true /\ content (store s') = Some (Valid (users s'))) /\
  (writable (store s) = false -> r = Raise OSError \/ r = Return false) /\
  _load_users (store s) = Return (loaded (store s)) /\
  (content (store s) = Some Corrupt -> _load_users (store s) = Return ∅).
Proof.
  intros Hrun. split; [|split; [|split]].
  - intros ->. exact (run_mutation_success op s s' Hrun).
  - intros Hw. pose proof (run_mutation_unwritable op s Hw) as H.
    rewrite Hrun in H. exact H.
  - unfold _load_users, loaded. destruct (content (store s)) as [[m|]|]; reflexivity.
  - intros Hc. unfold _load_users. rewrite Hc. reflexivity.
Qed.

Lemma create_default_users_run (s : state) :
  writable (store s) = true ->
  exists s' : state,
    create_default_users hash_password clock s = (Return tt, s') /\
    (forall a, loaded (store s) !! "admin" = Some a -> users s' !! "admin" = Some a) /\
    (loaded (store s) !! "admin" = None ->
       exists t, users s' !! "admin"
         = Some (Account (hash_password "admin123") "admin@example.com" "admin" t None true)) /\
    (forall a, loaded (store s) !! "user" = Some a -> users s' !! "user" = Some a) /\
    (loaded (store s) !! "user" = None ->
       exists t, users s' !! "user"
         = Some (Account (hash_password "user123") "user@example.com" "user" t None true)) /\
    (forall v : string, v <> "admin" -> v <> "user" -> users s' !! v = loaded (store s) !! v) /\
    (loaded (store s) !! "admin" = None \/ loaded (store s) !! "user" = None ->
       content (store s') = Some (Valid (users s'))).
Proof.
  intros Hw.
  destruct default_admin_valid as [Hae Han]. destruct default_user_valid as [Hue Hun].
  assert (Hload : _load_users (store s) = Return (loaded (store s))).
  { unfold _load_users, loaded. destruct (content (store s)) as [[m|]|]; reflexivity. }
  unfold Auth.create_default_users, UserDatabase_init, mbind, M_bind, mret, M_ret, get_users.
  rewrite Hload. set (m0 := loaded (store s)). cbn [users store ticks].
  destruct (m0 !! "admin") as [aa|] eqn:Hadm.
  - destruct (decide (is_Some (Some aa))) as [_|Hn]; [|exfalso; apply Hn; eauto].
    cbn [users store ticks].
    destruct (m0 !! "user") as [ua|] eqn:Husr.
    + destruct (decide (is_Some (Some ua))) as [_|Hn]; [|exfalso; apply Hn; eauto].
      eexists. split; [reflexivity|]. cbn [users store ticks].
      repeat split; try congruence; try (intros [?|?]; congruence).
    + destruct (decide (is_Some (@None account))) as [[? ?]|_]; [discriminate|].
      rewrite (create_user_fresh (State m0 (store s) (ticks s)) "user" "user123"
                 "user@example.com" "user" Husr Hue Hun Hw).
      eexists. split; [reflexivity|]. cbn [users store ticks content].
      split; [intros a Ha; rewrite lookup_insert_ne by discriminate; congruence|].
      split; [congruence|].
      split; [congruence|].
      split; [intros _; eexists; apply lookup_insert_eq|].
      split; [intros v _ Hv; apply lookup_insert_ne; congruence|].
      reflexivity.
  - destruct (decide (is_Some (@None account))) as [[? ?]|_]; [discriminate|].
    rewrite (create_user_fresh (State m0 (store s) (ticks s)) "admin" "admin123"
               "admin@example.com" "admin" Hadm Hae Han Hw).
    cbn [users store ticks].
    rewrite lookup_insert_ne by discriminate.
    destruct (m0 !! "user") as [ua|] eqn:Husr.
    + destruct (decide (is_Some (Some ua))) as [_|Hn]; [|exfalso; apply Hn; eauto].
      eexists. split; [reflexivity|]. cbn [users store ticks content].
      split; [congruence|].
      split; [intros _; eexists; apply lookup_insert_eq|].
      split; [intros a Ha; rewrite lookup_insert_ne by discriminate; congruence|].
      split; [congruence|].
      split; [intros v Hv _; apply lookup_insert_ne; congruence|].
      reflexivity.
    + destruct (decide (is_Some (@None account))) as [[? ?]|_]; [discriminate|].
      match goal with |- context [Auth.create_user _ _ _ _ _ _ ?st] =>
        rewrite (create_user_fresh st "user" "user123" "user@example.com" "user")
      end; [| cbn [users]; rewrite lookup_insert_ne by discriminate; exact Husr
            | exact Hue | exact Hun | reflexivity].
      eexists. split; [reflexivity|]. cbn [users store ticks content].
      split; [congruence|].
      split; [intros _; eexists; rewrite lookup_insert_ne by discriminate; apply lookup_insert_eq|].
      split; [congruence|].
      split; [intros _; eexists; apply lookup_insert_eq|].
      split; [intros v Hv1 Hv2; rewrite !lookup_insert_ne by congruence; reflexivity|].
      reflexivity.
Qed.

(** C8. On a writable storage, initialisation ([init_session_state] with
    no [user_db] yet, through [create_default_users]) leaves a database in
    which ["admin"] and ["user"] exist: where the stored accounts lack the
    name it is created with the well-known password (hashed), e-mail and
    role, no login yet and active; where the name is already there its
    account is kept as it was; in particular both are created when there
    is no store file. A session that already has its [user_db] keeps it. *)
Theorem default_accounts_on_init (st : storage) (n : nat) :
  writable st = true ->
  exists s' : state,
    create_default_users hash_password clock (State ∅ st n) = (Return tt, s') /\
    (forall a u r,
        init_session_state hash_password clock (Session a u r None) st n
          = (Return (Session (setdefault false a) (setdefault None u) (setdefault None r)
                       (Some (users s'))), store s', ticks s')) /\
    (forall a u r db,
        init_session_state hash_password clock (Session a u r (Some db)) st n
          = (Return (Session (setdefault false a) (setdefault None u) (setdefault None r)
                       (Some db)), st, n)) /\
    (loaded st !! "admin" = None ->
       exists t, users s' !! "admin"
         = Some (Account (hash_password "admin123") "admin@example.com" "admin" t None true)) /\
    (loaded st !! "user" = None ->
       exists t, users s' !! "user"
         = Some (Account (hash_password "user123") "user@example.com" "user" t None true)) /\
    (forall acc, loaded st !! "admin" = Some acc -> users s' !! "admin" = Some acc) /\
    (forall acc, loaded st !! "user" = Some acc -> users s' !! "user" = Some acc) /\
    (content st = None ->
       exists t1 t2,
         users s' !! "admin"
           = Some (Account (hash_password "admin123") "admin@example.com" "admin" t1 None true) /\
         users s' !! "user"
           = Some (Account (hash_password "user123") "user@example.com" "user" t2 None true) /\
         content (store s') = Some (Valid (users s'))).
Proof.
  intros Hw.
  destruct (create_default_users_run (State ∅ st n) Hw)
    as (s' & Hrun & Hadm & Hnoadm & Husr & Hnousr & _ & Hsaved).
  cbn [store] in *.
  exists s'. split; [exact Hrun|].
  split; [intros a u r; unfold init_session_state; cbn [user_db authenticated username user_role];
          rewrite Hrun; reflexivity|].
  split; [intros a u r db; reflexivity|].
  split; [exact Hnoadm|]. split; [exact Hnousr|].
  split; [exact Hadm|]. split; [exact Husr|].
  intros Hc.
  assert (Hl : loaded st = ∅) by (unfold loaded; rewrite Hc; reflexivity).
  destruct (Hnoadm ltac:(rewrite Hl; apply lookup_empty)) as [t1 H1].
  destruct (Hnousr ltac:(rewrite Hl; apply lookup_empty)) as [t2 H2].
  exists t1, t2. split; [exact H1|]. split; [exact H2|].
  apply Hsaved. left. rewrite Hl. apply lookup_empty.
Qed.

End AuthProperties.

(** * Properties of the content pipeline *)

Section TraceLemmas.

Import PyStr Tools.

Variable w : env.

Lemma only_mret {A : Type} (P : event -> Prop) (a : A) : only P (mret a).
Proof. intros s. exists []. simpl. rewrite app_nil_r. split; [reflexivity|constructor]. Qed.

Lemma only_raise {A : Type} (P : event -> Prop) (e : exn) : only P (@raise A e).
Proof. intros s. exists []. simpl. rewrite app_nil_r. split; [reflexivity|constructor]. Qed.

Lemma only_bind {A B : Type} (P : event -> Prop) (m : M A) (k : A -> M B) :
  only P m -> (forall a, only P (k a)) -> only P (m ≫= k).
Proof.
  intros Hm Hk s. unfold mbind, M_bind.
  destruct (Hm s) as (n1 & E1 & F1).
  destruct (m s) as [[a|e] s1]; simpl in E1.
  - destruct (Hk a s1) as (n2 & E2 & F2).
    exists (n1 ++ n2)%list. rewrite E2, E1, app_assoc. split; [reflexivity|].
    apply Forall_app; split; assumption.
  - exists n1. simpl. split; assumption.
Qed.

Lemma only_try_except {A : Type} (P : event -> Prop) (m : M A) (h : exn -> M A) :
  only P m -> (forall e, only P (h e)) -> only P (try_except m h).
Proof.
  intros Hm Hh s. unfold try_except.
  destruct (Hm s) as (n1 & E1 & F1).
  destruct (m s) as [[a|e] s1]; simpl in E1.
  - exists n1. simpl. split; assumption.
  - destruct (Hh e s1) as (n2 & E2 & F2).
    exists (n1 ++ n2)%list. rewrite E2, E1, app_assoc. split; [reflexivity|].
    apply Forall_app; split; assumption.
Qed.

Lemma only_emit (P : event -> Prop) (ev : event) : P ev -> only P (emit ev).
Proof. intros H s. exists [ev]. simpl. split; [reflexivity|]. repeat constructor. exact H. Qed.

Lemma only_silent {A : Type} (P : event -> Prop) (m : M A) :
  (forall s, trace (snd (m s)) = trace s) -> only P m.
Proof. intros H s. exists []. rewrite H, app_nil_r. split; [reflexivity|constructor]. Qed.

Lemma returns_mret {A : Type} (Q : A -> Prop) (a : A) : Q a -> returns Q (mret a).
Proof. intros H s. exists a. split; [reflexivity|exact H]. Qed.

Lemma returns_bind {A B : Type} (Q1 : A -> Prop) (Q2 : B -> Prop) (m : M A) (k : A -> M B) :
  returns Q1 m -> (forall a, Q1 a -> returns Q2 (k a)) -> returns Q2 (m ≫= k).
Proof.
  intros Hm Hk s. unfold mbind, M_bind.
  destruct (Hm s) as (a & E & HQ). destruct (m s) as [[a'|e] s1]; simpl in E; [|discriminate].
  injection E as ->. apply Hk. exact HQ.
Qed.

Lemma returns_try_except {A : Type} (Q : A -> Prop) (m : M A) (h : exn -> M A) :
  (forall s a, fst (m s) = Return a -> Q a) ->
  (forall e, returns Q (h e)) -> returns Q (try_except m h).
Proof.
  intros Hm Hh s. unfold try_except.
  destruct (m s) as [[a|e] s1] eqn:E.
  - exists a. split; [reflexivity|]. apply (Hm s). rewrite E. reflexivity.
  - apply Hh.
Qed.

Lemma returns_emit (ev : event) : returns (fun _ => True) (emit ev).
Proof. intros s. eexists. split; [reflexivity|exact I]. Qed.

Lemma only_now_timestamp (P : event -> Prop) : only P (now_timestamp w).
Proof. apply only_silent. reflexivity. Qed.

Lemma only_path_exists (P : event -> Prop) (p : string) : only P (path_exists p).
Proof. apply only_silent. reflexivity. Qed.

Lemma only_add_file (P : event -> Prop) (p : string) : only P (add_file p).
Proof. apply only_silent. reflexivity. Qed.

Lemma only_drop_file (P : event -> Prop) (p : string) : only P (drop_file p).
Proof. apply only_silent. reflexivity. Qed.

Lemma only_ensure_images_dir (P : event -> Prop) :
  P EvMakedirs -> only P (ensure_images_dir w).
Proof.
  intros H s. unfold ensure_images_dir.
  destruct (images_dir s).
  - exists []. simpl. rewrite app_nil_r. split; [reflexivity|constructor].
  - exists [EvMakedirs].
    destruct (makedirs_ok w (length (trace s))); simpl;
      (split; [reflexivity|repeat constructor; exact H]).
Qed.

Lemma only_write_path (P : event -> Prop) (p : string) :
  P (EvWrite p) -> only P (write_path w p).
Proof.
  intros H. unfold write_path.
  apply only_bind; [apply only_emit; exact H|].
  intros n. destruct (write_file w n p).
  - apply only_add_file.
  - apply only_raise.
  - apply only_bind; [apply only_add_file|intros; apply only_raise].
Qed.

Lemma only_os_remove (P : event -> Prop) (p : string) :
  P (EvRemove p) -> only P (os_remove w p).
Proof.
  intros H. unfold os_remove.
  apply only_bind; [apply only_emit; exact H|].
  intros n. apply only_bind; [apply only_path_exists|].
  intros b. destruct (b && remove_ok w n p); [apply only_drop_file|apply only_raise].
Qed.

Lemma only_upload_to_imgbb (P : event -> Prop) (p : string) :
  P (EvImgbbPost p) -> only P (upload_to_imgbb w p).
Proof.
  intros H. unfold upload_to_imgbb.
  destruct (falsy (IMGBB_API_KEY w)); [apply only_mret|].
  apply only_try_except; [|intros; apply only_mret].
  apply only_bind; [apply only_path_exists|].
  intros b. destruct (negb b); [apply only_raise|].
  apply only_bind; [apply only_emit; exact H|].
  intros n. destruct (requests_post_imgbb w n p) as [e|code body]; [apply only_raise|].
  destruct (code =? 200)%Z; [|apply only_mret].
  destruct body; [apply only_raise|apply only_mret|apply only_mret].
Qed.

Lemma only_upload_image_directly (P : event -> Prop) (url : string) :
  P (EvGet url) -> P EvMakedirs ->
  (forall ts, P (EvWrite (temp_path_of ts)) /\ P (EvImgbbPost (temp_path_of ts))
              /\ P (EvRemove (temp_path_of ts))) ->
  only P (upload_image_directly w url).
Proof.
  intros Hg Hm Ht. unfold upload_image_directly.
  apply only_try_except; [|intros; apply only_mret].
  apply only_bind; [apply only_emit; exact Hg|].
  intros n. destruct (requests_get w n url) as [e|body]; [apply only_raise|].
  apply only_bind; [apply only_now_timestamp|].
  intros ts. destruct (Ht ts) as (Hw & Hp & Hr).
  apply only_bind; [apply only_ensure_images_dir; exact Hm|]. intros _.
  apply only_bind; [apply only_write_path; exact Hw|]. intros _.
  apply only_bind; [apply only_upload_to_imgbb; exact Hp|]. intros r.
  apply only_bind; [|intros; apply only_mret].
  apply only_try_except; [apply only_os_remove; exact Hr|intros; apply only_mret].
Qed.

Lemma only_add_brand_text (P : event -> Prop) (url brand web : string) (size : Z) :
  P (EvGet url) -> P (EvRender brand web size) -> P EvMakedirs ->
  (forall ts, P (EvWrite (branded_path_of ts))) ->
  only P (add_brand_text w url brand web size).
Proof.
  intros Hg Hr Hm Hw. unfold add_brand_text.
  apply only_try_except; [|intros; apply only_raise].
  apply only_bind; [apply only_emit; exact Hg|].
  intros n. destruct (requests_get w n url) as [e|body]; [apply only_raise|].
  apply only_bind; [apply only_emit; exact Hr|].
  intros k. destruct (render w k); [apply only_raise|].
  apply only_bind; [apply only_ensure_images_dir; exact Hm|]. intros _.
  apply only_bind; [apply only_now_timestamp|]. intros ts.
  apply only_bind; [apply only_write_path; apply Hw|]. intros _.
  apply only_mret.
Qed.

Lemma only_branded_url (P : event -> Prop) (url brand web : string) (size : Z) :
  P (EvGet url) -> P (EvRender brand web size) -> P EvMakedirs ->
  (forall ts, P (EvWrite (branded_path_of ts))) ->
  (forall p, P (EvImgbbPost p)) ->
  only P (branded_url w url brand web size).
Proof.
  intros Hg Hr Hm Hw Hp. unfold branded_url.
  apply only_try_except; [|intros; apply only_mret].
  apply only_bind; [apply only_add_brand_text; assumption|]. intros p.
  apply only_bind; [apply only_upload_to_imgbb; apply Hp|]. intros r.
  apply only_mret.
Qed.

Lemma returns_upload_image_directly (url : string) :
  returns (fun _ => True) (upload_image_directly w url).
Proof.
  unfold upload_image_directly. apply returns_try_except; [intros; exact I|].
  intros e. apply returns_mret. exact I.
Qed.

Lemma returns_branded_url (url brand web : string) (size : Z) :
  returns (fun _ => True) (branded_url w url brand web size).
Proof.
  unfold branded_url. apply returns_try_except; [intros; exact I|].
  intros e. apply returns_mret. exact I.
Qed.

(** *** The two generators *)

Lemma generate_image_with_dalle_run (prompt : string) (s : state) :
  exists r : option string,
    generate_image_with_dalle w prompt s
      = (Return r, State (trace s ++ [EvDalle (clean_prompt prompt)]) (files s) (images_dir s)).
Proof.
  unfold generate_image_with_dalle, try_except, mbind, M_bind, emit. simpl.
  destruct (images_generate w (length (trace s)) (clean_prompt prompt)) as [e|[|[u|] l]];
    simpl; eexists; reflexivity.
Qed.

Lemma generate_image_with_replicate_run (prompt : string) (s : state) :
  exists r : option string,
    generate_image_with_replicate w prompt s
      = (Return r, State (trace s ++ [EvReplicate (clean_prompt prompt)]) (files s) (images_dir s)).
Proof.
  unfold generate_image_with_replicate, try_except, mbind, M_bind, emit. simpl.
  destruct (replicate_run w (length (trace s)) (clean_prompt prompt)) as [e|[|u l]];
    simpl; eexists; reflexivity.
Qed.

Lemma no_requests (evs : list event) :
  Forall no_request evs -> generation_requests evs = [].
Proof.
  induction 1 as [|ev l H _ IH]; [reflexivity|].
  unfold generation_requests in *. simpl. rewrite H. exact IH.
Qed.

Lemma generate_images_unfold (prompt : string) (rest : list string)
    (brand_text : option string) (website_text : string) (text_size : Z) :
  generate_images w (Some (prompt :: rest)) brand_text website_text text_size
  = try_except
      (clean_url ← produce_clean_url w prompt;
       after_generation w clean_url brand_text website_text text_size)
      (fun _ => mret []).
Proof. reflexivity. Qed.

Lemma only_after_generation (P : event -> Prop) (cu brand : option string) (web : string) (size : Z) :
  (forall ev, no_request ev -> (forall p, ev <> EvRemove p) -> P ev) ->
  (forall ts, P (EvRemove (temp_path_of ts))) ->
  only P (after_generation w cu brand web size).
Proof.
  intros HP Hrm. unfold after_generation.
  destruct (not_ cu); [apply only_mret|].
  apply only_bind.
  { apply only_upload_image_directly; [apply HP; [reflexivity|discriminate]..|].
    intros ts. repeat split; [apply HP; [reflexivity|discriminate]..|apply Hrm]. }
  intros r. apply only_bind.
  - destruct (negb (not_ brand) && negb (not_ r)); [|apply only_mret].
    apply only_bind; [|intros; apply only_mret].
    apply only_branded_url; intros; apply HP; (reflexivity || discriminate).
  - intros l. apply only_bind; [apply only_emit; apply HP; [reflexivity|discriminate]|].
    intros; apply only_mret.
Qed.

Lemma returns_after_generation (cu brand : option string) (web : string) (size : Z) :
  returns (fun urls => if not_ cu then urls = [] else exists u, urls = [u])
    (after_generation w cu brand web size).
Proof.
  unfold after_generation. destruct (not_ cu); [apply returns_mret; reflexivity|].
  eapply returns_bind; [apply returns_upload_image_directly|]. intros r _.
  eapply returns_bind with (Q1 := fun urls => exists u, urls = [u]).
  - destruct (negb (not_ brand) && negb (not_ r)).
    + eapply returns_bind; [apply returns_branded_url|].
      intros u _. apply returns_mret. eauto.
    + apply returns_mret. eauto.
  - intros urls Hu. eapply returns_bind; [apply returns_emit|].
    intros _ _. apply returns_mret. exact Hu.
Qed.

Lemma produce_clean_url_run (prompt : string) (s : state) :
  exists (primary secondary : option string) (s1 s2 : state),
    generate_image_with_dalle w prompt s = (Return primary, s1) /\
    generate_image_with_replicate w prompt s1 = (Return secondary, s2) /\
    produce_clean_url w prompt s
      = (Return (if not_ primary then secondary else primary),
         if not_ primary then s2 else s1) /\
    trace (if not_ primary then s2 else s1)
      = (trace s ++ EvDalle (clean_prompt prompt)
           :: (if not_ primary then [EvReplicate (clean_prompt prompt)] else []))%list.
Proof.
  destruct (generate_image_with_dalle_run prompt s) as [primary E1].
  set (s1 := State (trace s ++ [EvDalle (clean_prompt prompt)]) (files s) (images_dir s)) in *.
  destruct (generate_image_with_replicate_run prompt s1) as [secondary E2].
  exists primary, secondary, s1.
  eexists. split; [exact E1|]. split; [exact E2|].
  split.
  - unfold produce_clean_url, mbind, M_bind. rewrite E1.
    destruct (not_ primary); [exact E2|reflexivity].
  - destruct (not_ primary); simpl; [rewrite <- app_assoc|]; reflexivity.
Qed.

(** The whole run of [generate_images] on a non-empty list of prompts:
    the two generator calls, then events that all satisfy [P]. *)
Lemma generate_images_run (P : event -> Prop) (prompt : string) (rest : list string)
    (brand_text : option string) (website_text : string) (text_size : Z) (s : state) :
  (forall ev, no_request ev -> (forall p, ev <> EvRemove p) -> P ev) ->
  (forall ts, P (EvRemove (temp_path_of ts))) ->
  exists (primary secondary : option string) (s1 s2 s' : state)
         (urls : list string) (new : list event),
    generate_image_with_dalle w prompt s = (Return primary, s1) /\
    generate_image_with_replicate w prompt s1 = (Return secondary, s2) /\
    produce_clean_url w prompt s
      = (Return (if not_ primary then secondary else primary),
         if not_ primary then s2 else s1) /\
    generate_images w (Some (prompt :: rest)) brand_text website_text text_size s
      = (Return urls, s') /\
    trace s'
      = (trace s ++ (EvDalle (clean_prompt prompt)
           :: (if not_ primary then [EvReplicate (clean_prompt prompt)] else [])) ++ new)%list /\
    Forall P new /\
    (if not_ (if not_ primary then secondary else primary)
     then urls = [] else exists u, urls = [u]).
Proof.
  intros HP Hrm.
  destruct (produce_clean_url_run prompt s) as (primary & secondary & s1 & s2 & E1 & E2 & Ep & Et).
  set (cu := if not_ primary then secondary else primary) in *.
  set (sp := if not_ primary then s2 else s1) in *.
  destruct (returns_after_generation cu brand_text website_text text_size sp) as (urls & Er & Hu).
  destruct (only_after_generation P cu brand_text website_text text_size HP Hrm sp)
    as (new & En & Hnew).
  destruct (after_generation w cu brand_text website_text text_size sp) as [o s'] eqn:Ea.
  simpl in Er, En. subst o.
  exists primary, secondary, s1, s2, s', urls, new.
  split; [exact E1|]. split; [exact E2|]. split; [exact Ep|].
  split.
  - rewrite generate_images_unfold. unfold try_except, mbind, M_bind.
    rewrite Ep, Ea. reflexivity.
  - split; [rewrite En, Et, <- app_assoc; reflexivity|].
    split; [exact Hnew|exact Hu].
Qed.

Lemma generate_image_with_dalle_answer (prompt : string) (s : state) :
  generate_image_with_dalle w prompt s
    = (Return match images_generate w (length (trace s)) (clean_prompt prompt) with
              | DalleData (Some url :: _) => Some url
              | _ => None
              end,
       State (trace s ++ [EvDalle (clean_prompt prompt)]) (files s) (images_dir s)).
Proof.
  unfold generate_image_with_dalle, try_except, mbind, M_bind, emit. simpl.
  destruct (images_generate w (length (trace s)) (clean_prompt prompt)) as [e|[|[u|] l]];
    reflexivity.
Qed.

Lemma generate_image_with_replicate_answer (prompt : string) (s : state) :
  generate_image_with_replicate w prompt s
    = (Return match replicate_run w (length (trace s)) (clean_prompt prompt) with
              | ReplicateOutput (item :: _) => if falsy item then None else Some item
              | _ => None
              end,
       State (trace s ++ [EvReplicate (clean_prompt prompt)]) (files s) (images_dir s)).
Proof.
  unfold generate_image_with_replicate, try_except, mbind, M_bind, emit. simpl.
  destruct (replicate_run w (length (trace s)) (clean_prompt prompt)) as [e|[|u l]];
    reflexivity.
Qed.

(** C2. In a run of [generate_images] on a non-empty prompt list, DALL-E
    is always asked first, with the cleaned prompt, and what the DALL-E
    step hands on is the URL of the first image of the service's answer,
    or [None] when the service raised, answered without an image, or gave
    an image without a URL. The Replicate generator is asked if and only
    if that is not usable ([None] or empty), and what it hands on is the
    first item of its service's output when that is truthy, [None]
    otherwise (an error or an empty output included). The producing step
    hands on DALL-E's URL when that is usable and Replicate's otherwise; and
    the run returns no URL if and only if both generators returned nothing
    usable (it returns exactly one URL otherwise). *)
Theorem secondary_generator_iff_primary_fails (prompt : string) (rest : list string)
    (brand_text : option string) (website_text : string) (text_size : Z) (s : state) :
  exists (primary secondary : option string) (s1 s2 s' : state)
         (urls : list string) (new : list event),
    generate_image_with_dalle w prompt s = (Return primary, s1) /\
    generate_image_with_replicate w prompt s1 = (Return secondary, s2) /\
    generate_images w (Some (prompt :: rest)) brand_text website_text text_size s
      = (Return urls, s') /\
    trace s' = (trace s ++ new)%list /\
    (In (Replicate, clean_prompt prompt) (generation_requests new) <-> not_ primary = true) /\
    (forall p, In (Replicate, p) (generation_requests new) -> not_ primary = true) /\
    fst (produce_clean_url w prompt s)
      = Return (if not_ primary then secondary else primary) /\
    (urls = [] <-> not_ primary = true /\ not_ secondary = true) /\
    (urls <> [] -> exists u, urls = [u]) /\
    primary = match images_generate w (length (trace s)) (clean_prompt prompt) with
              | DalleData (Some url :: _) => Some url
              | _ => None
              end /\
    (not_ primary = false <->
       exists (url : string) (more : list (option string)),
         images_generate w (length (trace s)) (clean_prompt prompt)
           = DalleData (Some url :: more) /\ url <> EmptyString) /\
    trace s1 = (trace s ++ [EvDalle (clean_prompt prompt)])%list /\
    secondary = match replicate_run w (length (trace s1)) (clean_prompt prompt) with
                | ReplicateOutput (item :: _) => if falsy item then None else Some item
                | _ => None
                end /\
    (exists later : list event,
        new = EvDalle (clean_prompt prompt)
                :: ((if not_ primary then [EvReplicate (clean_prompt prompt)] else [])
                    ++ later)%list /\
        generation_requests later = []).
Proof.
  destruct (generate_images_run no_request prompt rest brand_text website_text text_size s)
    as (primary & secondary & s1 & s2 & s' & urls & new & E1 & E2 & Ep & Eg & Et & Hnew & Hu).
  { intros ev H _. exact H. }
  { intros ts. reflexivity. }
  exists primary, secondary, s1, s2, s', urls.
  eexists. split; [exact E1|]. split; [exact E2|]. split; [exact Eg|].
  split; [exact Et|].
  assert (Hreq : generation_requests
            ((EvDalle (clean_prompt prompt)
               :: (if not_ primary then [EvReplicate (clean_prompt prompt)] else [])) ++ new)
          = (Dalle, clean_prompt prompt)
              :: (if not_ primary then [(Replicate, clean_prompt prompt)] else [])).
  { unfold generation_requests. rewrite omap_app.
    fold (generation_requests new). rewrite (no_requests new Hnew), app_nil_r.
    destruct (not_ primary); reflexivity. }
  rewrite Hreq.
  split.
  { destruct (not_ primary); simpl; split; intros H; try reflexivity.
    - right; left; reflexivity.
    - destruct H as [H|[]]; discriminate.
    - discriminate. }
  split.
  { intros p. destruct (not_ primary); simpl; [reflexivity|].
    intros [H|[]]; discriminate. }
  split; [rewrite Ep; reflexivity|].
  split.
  { destruct (not_ primary) eqn:Hp.
    + destruct (not_ secondary) eqn:Hs.
      * split; [intros _; split; reflexivity|intros _; exact Hu].
      * destruct Hu as [u ->]. split; [discriminate|intros [_ H]; discriminate].
    + rewrite Hp in Hu. destruct Hu as [u ->].
      split; [discriminate|intros [H _]; discriminate]. }
  split.
  { intros Hne. destruct (not_ (if not_ primary then secondary else primary));
      [contradiction|exact Hu]. }
  rewrite generate_image_with_dalle_answer in E1. injection E1 as Hprimary Hs1.
  assert (Ht1 : trace s1 = (trace s ++ [EvDalle (clean_prompt prompt)])%list)
    by (rewrite <- Hs1; reflexivity).
  rewrite generate_image_with_replicate_answer in E2. injection E2 as Hsecondary _.
  split; [symmetry; exact Hprimary|].
  split.
  { rewrite <- Hprimary.
    destruct (images_generate w (length (trace s)) (clean_prompt prompt)) as [e|[|[u|] l]];
      cbn [not_]; try (split; [discriminate|intros (url & more & H & _); discriminate]).
    destruct u as [|c u]; cbn [falsy].
    - split; [discriminate|]. intros (url & more & H & Hne). injection H as <- _. contradiction.
    - split; [|reflexivity]. intros _. eexists _, _. split; [reflexivity|discriminate]. }
  split; [exact Ht1|].
  split; [symmetry; exact Hsecondary|].
  exists new. split; [reflexivity|]. apply no_requests. exact Hnew.
Qed.

(** C6. Whatever the number of prompts, [generate_images] works from the
    first one only: the run is the same as on the one-element list, every
    request to an image generator carries the first prompt (in the cleaned
    form that the generators send), DALL-E is asked once and Replicate at
    most once, and at most one URL comes back. Without any prompt nothing
    is asked and nothing comes back. *)
Theorem one_prompt_one_image (prompt : string) (rest : list string)
    (brand_text : option string) (website_text : string) (text_size : Z) (s : state) :
  generate_images w (Some (prompt :: rest)) brand_text website_text text_size s
    = generate_images w (Some [prompt]) brand_text website_text text_size s /\
  (exists (s' : state) (urls : list string) (new : list event),
      generate_images w (Some (prompt :: rest)) brand_text website_text text_size s
        = (Return urls, s') /\
      trace s' = (trace s ++ new)%list /\
      (forall pr p, In (pr, p) (generation_requests new) -> p = clean_prompt prompt) /\
      (exists more, generation_requests new = (Dalle, clean_prompt prompt) :: more /\
                    (more = [] \/ more = [(Replicate, clean_prompt prompt)])) /\
      (length urls <= 1)%nat) /\
  generate_images w (Some []) brand_text website_text text_size s = (Return [], s) /\
  generate_images w None brand_text website_text text_size s = (Return [], s).
Proof.
  split; [reflexivity|]. split; [|split; reflexivity].
  destruct (generate_images_run no_request prompt rest brand_text website_text text_size s)
    as (primary & secondary & s1 & s2 & s' & urls & new & E1 & E2 & Ep & Eg & Et & Hnew & Hu).
  { intros ev H _. exact H. }
  { intros ts. reflexivity. }
  exists s', urls. eexists. split; [exact Eg|]. split; [exact Et|].
  assert (Hreq : generation_requests
            ((EvDalle (clean_prompt prompt)
               :: (if not_ primary then [EvReplicate (clean_prompt prompt)] else [])) ++ new)
          = (Dalle, clean_prompt prompt)
              :: (if not_ primary then [(Replicate, clean_prompt prompt)] else [])).
  { unfold generation_requests. rewrite omap_app.
    fold (generation_requests new). rewrite (no_requests new Hnew), app_nil_r.
    destruct (not_ primary); reflexivity. }
  rewrite Hreq. split; [|split].
  - intros pr p. destruct (not_ primary); simpl; intros H;
      repeat (destruct H as [H|H]; [injection H as _ <-; reflexivity|]); destruct H.
  - eexists. split; [reflexivity|]. destruct (not_ primary); [right|left]; reflexivity.
  - destruct (not_ (if not_ primary then secondary else primary));
      [subst urls; simpl; lia|destruct Hu as [u ->]; simpl; lia].
Qed.

(** *** Local files *)

Lemma upload_to_imgbb_run (p : string) (s : state) :
  exists (r : option string) (new : list event),
    upload_to_imgbb w p s
      = (Return r, State (trace s ++ new) (files s) (images_dir s)) /\
    (new = [] \/ new = [EvImgbbPost p]).
Proof.
  unfold upload_to_imgbb.
  destruct (falsy (IMGBB_API_KEY w)).
  { exists None, []. rewrite app_nil_r. destruct s; split; [reflexivity|left; reflexivity]. }
  unfold try_except, mbind, M_bind, path_exists, emit, raise, mret, M_ret. simpl.
  destruct (file_present p s); simpl.
  - destruct (requests_post_imgbb w (length (trace s)) p) as [e|code body]; simpl.
    + eexists _, [EvImgbbPost p]. split; [reflexivity|right; reflexivity].
    + destruct (code =? 200)%Z; [destruct body|]; simpl;
        eexists _, [EvImgbbPost p]; (split; [reflexivity|right; reflexivity]).
  - exists None, []. rewrite app_nil_r. destruct s; split; [reflexivity|left; reflexivity].
Qed.

Lemma existsb_eqb_filter_out (p : string) (l : list string) :
  existsb (String.eqb p) (List.filter (fun q => negb (String.eqb p q)) l) = false.
Proof.
  induction l as [|q l IH]; [reflexivity|].
  simpl. destruct (String.eqb p q) eqn:E; simpl; [exact IH|].
  rewrite E. exact IH.
Qed.

Lemma file_present_add_file (p : string) (s : state) :
  file_present p (snd (add_file p s)) = true.
Proof.
  unfold add_file. simpl.
  destruct (file_present p s) eqn:E; unfold file_present in *; simpl; [exact E|].
  rewrite String.eqb_refl. reflexivity.
Qed.

Lemma write_path_ok (p : string) (s : state) :
  write_file w (length (trace s)) p = WriteOk ->
  write_path w p s
    = (Return tt, State (trace s ++ [EvWrite p])
                    (if file_present p s then files s else p :: files s) (images_dir s)).
Proof.
  intros H. unfold write_path, mbind, M_bind, emit. simpl. rewrite H. reflexivity.
Qed.

Lemma ensure_images_dir_ok (s : state) :
  (forall n, makedirs_ok w n = true) ->
  exists new : list event,
    ensure_images_dir w s = (Return tt, State (trace s ++ new) (files s) true) /\
    (new = [] \/ new = [EvMakedirs]).
Proof.
  intros H. unfold ensure_images_dir.
  destruct (images_dir s) eqn:E.
  - exists []. rewrite app_nil_r. destruct s; simpl in *; subst. split; [reflexivity|left; reflexivity].
  - exists [EvMakedirs]. rewrite H. simpl. split; [reflexivity|right; reflexivity].
Qed.

Lemma remove_swallowed (p : string) (s : state) :
  exists fs : list string,
    try_except (os_remove w p) (fun _ => mret tt) s
      = (Return tt, State (trace s ++ [EvRemove p]) fs (images_dir s)) /\
    (file_present p s = true -> remove_ok w (length (trace s)) p = true ->
       existsb (String.eqb p) fs = false) /\
    (remove_ok w (length (trace s)) p = false -> fs = files s).
Proof.
  unfold try_except, os_remove, mbind, M_bind, emit, path_exists, drop_file, raise. simpl.
  unfold file_present at 1. simpl.
  destruct (existsb (String.eqb p) (files s)) eqn:Ep; simpl.
  - destruct (remove_ok w (length (trace s)) p) eqn:Er; simpl.
    + eexists. split; [reflexivity|]. split; [|discriminate].
      intros _ _. apply existsb_eqb_filter_out.
    + eexists. split; [reflexivity|]. split; [discriminate|reflexivity].
  - eexists. split; [reflexivity|]. split; [|reflexivity].
    unfold file_present. rewrite Ep. discriminate.
Qed.

(** The rehost step when the download and the local write succeed. *)
Lemma rehost_removes_temp_file (url body : string) (s : state) :
  requests_get w (length (trace s)) url = GetOk body ->
  (forall n, makedirs_ok w n = true) ->
  (forall n, write_file w n (temp_path_of (timestamp w (S (length (trace s))))) = WriteOk) ->
  exists (r : option string) (s' : state) (mid : list event),
    upload_image_directly w url s = (Return r, s') /\
    trace s' = (trace s ++ EvGet url :: mid
                  ++ [EvRemove (temp_path_of (timestamp w (S (length (trace s)))))])%list /\
    In (EvWrite (temp_path_of (timestamp w (S (length (trace s)))))) mid /\
    (forall p, ~ In (EvRemove p) mid) /\
    ((forall n, remove_ok w n (temp_path_of (timestamp w (S (length (trace s))))) = true) ->
       file_present (temp_path_of (timestamp w (S (length (trace s))))) s' = false).
Proof.
  intros Hget Hmk Hwr.
  set (temp := temp_path_of (timestamp w (S (length (trace s))))) in *.
  unfold upload_image_directly.
  unfold try_except at 1. unfold mbind at 1, M_bind at 1. unfold emit at 1.
  cbn [fst snd]. rewrite Hget.
  unfold mbind at 1, M_bind at 1. unfold now_timestamp at 1. cbn [trace].
  replace (length (trace s ++ [EvGet url])) with (S (length (trace s)))
    by (rewrite length_app; simpl; lia).
  fold temp.
  set (s1 := State (trace s ++ [EvGet url]) (files s) (images_dir s)).
  unfold mbind at 1, M_bind at 1.
  destruct (ensure_images_dir_ok s1 Hmk) as (nd & Ed & Hnd). rewrite Ed.
  set (s2 := State (trace s1 ++ nd) (files s1) true).
  unfold mbind at 1, M_bind at 1.
  rewrite (write_path_ok temp s2 (Hwr _)).
  set (s3 := State (trace s2 ++ [EvWrite temp])
               (if file_present temp s2 then files s2 else temp :: files s2) (images_dir s2)).
  assert (Hpresent : file_present temp s3 = true).
  { exact (file_present_add_file temp s2). }
  unfold mbind at 1, M_bind at 1.
  destruct (upload_to_imgbb_run temp s3) as (r & nu & Eu & Hnu). rewrite Eu.
  set (s4 := State (trace s3 ++ nu) (files s3) (images_dir s3)).
  unfold mbind at 1, M_bind at 1.
  destruct (remove_swallowed temp s4) as (fs & Er & Hgone & _). rewrite Er.
  exists r. eexists. exists (nd ++ EvWrite temp :: nu)%list.
  split; [reflexivity|].
  split.
  { cbn [trace]. unfold s4, s3, s2, s1. cbn [trace].
    repeat rewrite <- app_assoc. reflexivity. }
  split.
  { apply in_or_app. right. left. reflexivity. }
  split.
  { intros p Hin. apply in_app_or in Hin. destruct Hin as [Hin|[Hin|Hin]].
    - destruct Hnd as [->| ->]; [destruct Hin|destruct Hin as [H|[]]; discriminate].
    - discriminate.
    - destruct Hnu as [->| ->]; [destruct Hin|destruct Hin as [H|[]]; discriminate]. }
  intros Hrm. unfold file_present. cbn [files]. apply Hgone; [exact Hpresent|apply Hrm].
Qed.

Lemma add_brand_text_returns (url brand web : string) (size : Z) (s s1 : state) (path : string) :
  add_brand_text w url brand web size s = (Return path, s1) ->
  file_present path s1 = true /\ exists ts, path = branded_path_of ts.
Proof.
  unfold add_brand_text.
  unfold try_except, mbind at 1, M_bind at 1, emit at 1. cbn [fst snd].
  destruct (requests_get w (length (trace s)) url) as [e|body]; [discriminate|].
  unfold mbind at 1, M_bind at 1, emit at 1.
  set (s0 := State (trace s ++ [EvGet url]) (files s) (images_dir s)).
  cbn [trace]. fold s0.
  destruct (render w (length (trace s0))) as [e|]; [discriminate|].
  set (sr := State (trace s0 ++ [EvRender brand web size]) (files s0) (images_dir s0)).
  unfold mbind at 1, M_bind at 1.
  destruct (ensure_images_dir w sr) as [[[]|e] sd]; [|discriminate].
  unfold mbind at 1, M_bind at 1, now_timestamp at 1.
  set (path0 := branded_path_of (timestamp w (length (trace sd)))).
  unfold mbind at 1, M_bind at 1, write_path.
  unfold mbind at 1, M_bind at 1, emit at 1.
  set (sw := State (trace sd ++ [EvWrite path0]) (files sd) (images_dir sd)).
  cbn [fst snd]. fold sw.
  destruct (write_file w (length (trace sd)) path0).
  - pose proof (file_present_add_file path0 sw) as Hp.
    destruct (add_file path0 sw) as [[[]|e] sa] eqn:Ea; [|discriminate].
    intros H. injection H as <- <-. split; [exact Hp|]. eexists. reflexivity.
  - discriminate.
  - unfold mbind, M_bind, add_file, raise. discriminate.
Qed.

(** The overlay branch once [add_brand_text] has written its file. *)
Lemma branded_file_is_kept (url brand web : string) (size : Z) (s s1 : state) (path : string) :
  add_brand_text w url brand web size s = (Return path, s1) ->
  exists (u : string) (s2 : state) (new : list event),
    branded_url w url brand web size s = (Return u, s2) /\
    trace s2 = (trace s1 ++ new)%list /\
    (new = [] \/ new = [EvImgbbPost path]) /\
    files s2 = files s1 /\
    file_present path s2 = true.
Proof.
  intros Ha. destruct (add_brand_text_returns _ _ _ _ _ _ _ Ha) as [Hp _].
  destruct (upload_to_imgbb_run path s1) as (r & new & Eu & Hnew).
  unfold branded_url, try_except, mbind, M_bind. rewrite Ha, Eu.
  eexists _, _, new. split; [reflexivity|].
  split; [reflexivity|]. split; [exact Hnew|]. split; [reflexivity|exact Hp].
Qed.

Lemma temp_path_is_not_branded (ts ts' : Z) : temp_path_of ts <> branded_path_of ts'.
Proof. unfold temp_path_of, branded_path_of. simpl. discriminate. Qed.

(** Every removal in a run of [generate_images] is that of a rehost
    temporary file. *)
Lemma generate_images_removals (prompt : string) (rest : list string)
    (brand_text : option string) (website_text : string) (text_size : Z) (s : state) :
  exists new : list event,
    trace (snd (generate_images w (Some (prompt :: rest)) brand_text website_text text_size s))
      = (trace s ++ new)%list /\
    (forall p, In (EvRemove p) new -> exists ts, p = temp_path_of ts).
Proof.
  destruct (generate_images_run (fun ev => forall p, ev = EvRemove p -> exists ts, p = temp_path_of ts)
              prompt rest brand_text website_text text_size s)
    as (primary & secondary & s1 & s2 & s' & urls & new & _ & _ & _ & Eg & Et & Hnew & _).
  { intros ev _ Hne p Hp. exfalso. exact (Hne p Hp). }
  { intros ts p Hp. injection Hp as <-. eexists. reflexivity. }
  rewrite Eg. eexists. split; [exact Et|].
  intros p Hin. apply in_app_or in Hin. destruct Hin as [Hin|Hin].
  - destruct Hin as [H|Hin]; [discriminate|].
    destruct (not_ primary); [destruct Hin as [H|[]]; discriminate|destruct Hin].
  - rewrite Forall_forall in Hnew. apply (Hnew (EvRemove p)); [|reflexivity].
    apply list_elem_of_In. exact Hin.
Qed.

(** C5 (amended). The rehost step removes its download file after the
    upload attempt whatever the upload did: once the download is there and
    written, the last thing [upload_image_directly] does is the removal of
    that file, and the file is gone when the removal works. The overlay's
    output file is not removed: after [add_brand_text] has written it, the
    overlay branch only uploads it and leaves it in place, whatever the
    upload did; and the only files that [generate_images] ever removes
    are rehost download files, never an overlay output. *)
Theorem rehost_file_removed_overlay_file_kept :
  (forall (url body : string) (s : state),
      requests_get w (length (trace s)) url = GetOk body ->
      (forall n, makedirs_ok w n = true) ->
      (forall n, write_file w n (temp_path_of (timestamp w (S (length (trace s))))) = WriteOk) ->
      exists (r : option string) (s' : state) (mid : list event),
        upload_image_directly w url s = (Return r, s') /\
        trace s' = (trace s ++ EvGet url :: mid
                      ++ [EvRemove (temp_path_of (timestamp w (S (length (trace s)))))])%list /\
        In (EvWrite (temp_path_of (timestamp w (S (length (trace s)))))) mid /\
        (forall p, ~ In (EvRemove p) mid) /\
        ((forall n, remove_ok w n (temp_path_of (timestamp w (S (length (trace s))))) = true) ->
           file_present (temp_path_of (timestamp w (S (length (trace s))))) s' = false)) /\
  (forall (url brand web : string) (size : Z) (s s1 : state) (path : string),
      add_brand_text w url brand web size s = (Return path, s1) ->
      exists (u : string) (s2 : state) (new : list event),
        branded_url w url brand web size s = (Return u, s2) /\
        trace s2 = (trace s1 ++ new)%list /\
        (new = [] \/ new = [EvImgbbPost path]) /\
        files s2 = files s1 /\
        file_present path s2 = true) /\
  (forall (prompt : string) (rest : list string) (brand_text : option string)
          (website_text : string) (text_size : Z) (s : state),
      exists new : list event,
        trace (snd (generate_images w (Some (prompt :: rest)) brand_text website_text text_size s))
          = (trace s ++ new)%list /\
        (forall p, In (EvRemove p) new ->
           (exists ts, p = temp_path_of ts) /\ (forall ts, p <> branded_path_of ts))).
Proof.
  split; [exact rehost_removes_temp_file|].
  split; [exact branded_file_is_kept|].
  intros prompt rest brand_text website_text text_size s.
  destruct (generate_images_removals prompt rest brand_text website_text text_size s)
    as (new & Et & Hrm).
  exists new. split; [exact Et|].
  intros p Hin. destruct (Hrm p Hin) as [ts ->].
  split; [eexists; reflexivity|]. intros ts'. apply temp_path_is_not_branded.
Qed.

(** *** generate_posts *)

Lemma invalid_posts_structure_false (result : json) :
  invalid_posts_structure result = Return false ->
  py_in "posts" result = Return true /\
  exists v, py_getitem "posts" result = Return v /\ py_len v = Return 3%nat.
Proof.
  unfold invalid_posts_structure.
  destruct (py_in "posts" result) as [[|]|e]; [|discriminate..].
  destruct (py_getitem "posts" result) as [v|e]; [|discriminate].
  destruct (py_len v) as [n|e] eqn:El; [|discriminate].
  intros H. injection H as H. apply negb_false_iff, Nat.eqb_eq in H. subst n.
  split; [reflexivity|]. exists v. split; [reflexivity|exact El].
Qed.

(** C1 (amended). For a blank topic [generate_posts] raises
    [ValueError("Topic cannot be empty")] and asks nothing. Otherwise it
    sends one chat request and either returns the decoded reply, which
    then has a ["posts"] entry of length 3 (nothing more is checked: not
    the entries, not their hashtags), or raises: the exception of the
    service, [AttributeError] for a reply without content, [ValueError]
    for an empty reply or a failed structure check, [JSONDecodeError] for a
    reply that is not JSON, or the error of the structure check itself. *)
Theorem generate_posts_outcome (json_loads : string -> option json) (topic : string) (s : state) :
  (falsy topic || falsy (strip topic) = true ->
     generate_posts w json_loads topic s = (Raise (ValueError "Topic cannot be empty"), s)) /\
  (falsy topic || falsy (strip topic) = false ->
     exists o : outcome json,
       generate_posts w json_loads topic s
         = (o, State (trace s ++ [EvChat (ChatRequest (posts_prompt topic) true None)])
                 (files s) (images_dir s)) /\
       match o with
       | Return result =>
           exists text,
             chat_completions_create w (length (trace s)) (ChatRequest (posts_prompt topic) true None)
               = ChatReply (Some text) /\
             json_loads (strip text) = Some result /\
             py_in "posts" result = Return true /\
             exists v, py_getitem "posts" result = Return v /\ py_len v = Return 3%nat
       | Raise e =>
           chat_completions_create w (length (trace s)) (ChatRequest (posts_prompt topic) true None)
             = ChatRaises e \/
           (chat_completions_create w (length (trace s)) (ChatRequest (posts_prompt topic) true None)
              = ChatReply None /\ e = AttributeError) \/
           exists text,
             chat_completions_create w (length (trace s)) (ChatRequest (posts_prompt topic) true None)
               = ChatReply (Some text) /\
             ((falsy (strip text) = true /\ e = ValueError "Empty response from OpenAI") \/
              (json_loads (strip text) = None /\ e = JSONDecodeError) \/
              exists r, json_loads (strip text) = Some r /\
                ((invalid_posts_structure r = Return true
                  /\ e = ValueError "Invalid response structure from OpenAI") \/
                 invalid_posts_structure r = Raise e))
       end).
Proof.
  split; intros Hb; unfold generate_posts; rewrite Hb; [reflexivity|].
  set (req := ChatRequest (posts_prompt topic) true None).
  unfold try_except, chat, mbind, M_bind, mret, M_ret, emit, raise.
  cbn [fst snd trace files images_dir].
  destruct (chat_completions_create w (length (trace s)) req) as [e|[text|]] eqn:Er;
    cbn [fst snd].
  - eexists. split; [reflexivity|]. left. first [exact Er|reflexivity].
  - destruct (falsy (strip text)) eqn:Ef; cbn [fst snd].
    { eexists. split; [reflexivity|]. right; right. exists text.
      split; [first [exact Er|reflexivity]|]. left.
      split; [first [exact Ef|reflexivity]|reflexivity]. }
    destruct (json_loads (strip text)) as [r|] eqn:El; cbn [fst snd].
    2:{ eexists. split; [reflexivity|]. right; right. exists text.
        split; [first [exact Er|reflexivity]|]. right; left.
        split; [first [exact El|reflexivity]|reflexivity]. }
    destruct (invalid_posts_structure r) as [[|]|e] eqn:Ei; cbn [fst snd].
    + eexists. split; [reflexivity|]. right; right. exists text.
      split; [first [exact Er|reflexivity]|]. right; right. exists r.
      split; [first [exact El|reflexivity]|].
      left. split; [first [exact Ei|reflexivity]|reflexivity].
    + eexists. split; [reflexivity|]. exists text.
      split; [first [exact Er|reflexivity]|]. split; [first [exact El|reflexivity]|].
      exact (invalid_posts_structure_false r Ei).
    + eexists. split; [reflexivity|]. right; right. exists text.
      split; [first [exact Er|reflexivity]|]. right; right. exists r.
      split; [first [exact El|reflexivity]|].
      right. first [exact Ei|reflexivity].
  - eexists. split; [reflexivity|]. right; left.
    split; [first [exact Er|reflexivity]|reflexivity].
Qed.

(** *** generate_image_prompts *)

Lemma smart_prompt_run (title caption : string) (s : state) :
  exists (prompt : string) (s' : state),
    smart_prompt w title caption s = (Return prompt, s') /\
    (endswith smart_suffix prompt = true \/ prompt = fallback_prompt title caption).
Proof.
  unfold smart_prompt, try_except, chat, mbind, M_bind, mret, M_ret, emit, raise.
  cbn [fst snd trace].
  destruct (chat_completions_create w (length (trace s))
              (ChatRequest (ai_prompt title caption) false (Some 200%nat))) as [e|[text|]];
    cbn [fst snd]; eexists _, _; (split; [reflexivity|]);
    [right; reflexivity|left; apply endswith_app|right; reflexivity].
Qed.

Lemma image_prompts_loop_run (template : option string) (posts : list post) (s : state) :
  exists (prompts : list string) (s' : state),
    image_prompts_loop w posts template s = (Return prompts, s') /\
    Forall2 (prompt_of template) (List.filter titled posts) prompts.
Proof.
  revert s. induction posts as [|p rest IH]; intros s.
  - exists [], s. split; [reflexivity|constructor].
  - cbn [image_prompts_loop List.filter]. unfold titled at 1.
    destruct (falsy (get_or_empty (post_title p))) eqn:Ef; cbn [negb].
    + apply IH.
    + unfold mbind at 1, M_bind at 1.
      destruct (not_ template) eqn:Et.
      * destruct (smart_prompt_run (get_or_empty (post_title p))
                    (get_or_empty (post_caption p)) s) as (prompt & s1 & E1 & H1).
        rewrite E1. unfold mbind at 1, M_bind at 1.
        destruct (IH s1) as (prompts & s' & E2 & H2). rewrite E2.
        eexists _, _. split; [reflexivity|].
        constructor; [|exact H2]. unfold prompt_of. rewrite Et.
        destruct H1 as [H1|H1]; [left; exact H1|right].
        split; [exact H1|]. rewrite H1. apply fallback_prompt_ends.
      * unfold mret at 1, M_ret at 1. unfold mbind at 1, M_bind at 1.
        destruct (IH s) as (prompts & s' & E2 & H2). rewrite E2.
        eexists _, _. split; [reflexivity|].
        constructor; [|exact H2]. unfold prompt_of. rewrite Et.
        split; [reflexivity|]. split; [apply template_prompt_ends|].
        apply template_prompt_has_caption.
Qed.

(** C3 (amended). [generate_image_prompts] never raises and gives one
    prompt per post with a non-empty title, in order. With a template the
    prompt is the template with [TITLE] and then [CAPTION] replaced,
    followed by the template ending; it contains the caption cut to 100
    characters whenever the template contains [CAPTION]. Without a template
    the prompt ends with the chat ending, or is the fallback prompt, which
    ends with the fallback ending. For a template made of bracket-free text
    around the placeholders and a title without an opening bracket, the
    prompt is the template with both kinds of slot filled in, so it
    contains the title and the cut caption wherever the template has their
    slots. The three endings are different texts; each contains the
    CRITICAL no-text clause and the square aspect-ratio clause. *)
Theorem image_prompt_endings_and_substitution :
  (forall (posts : option (list post)) (template : option string) (s : state),
      exists (prompts : list string) (s' : state),
        generate_image_prompts w posts template s = (Return prompts, s') /\
        Forall2 (prompt_of template) (List.filter titled (default [] posts)) prompts) /\
  (forall (pieces : list piece) (title caption : string),
      plain_text_ok pieces = true ->
      char_free "["%char title = true ->
      template_prompt (template_text pieces) title caption
        = fill title (take 100 caption) pieces ++ template_suffix /\
      (In TitleSlot pieces ->
         contains title (template_prompt (template_text pieces) title caption) = true) /\
      (In CaptionSlot pieces ->
         contains (take 100 caption)
           (template_prompt (template_text pieces) title caption) = true)) /\
  (template_suffix <> smart_suffix /\ template_suffix <> fallback_suffix /\
   smart_suffix <> fallback_suffix) /\
  Forall (fun ending => contains critical_clause ending = true /\
                        contains aspect_clause ending = true)
    [template_suffix; smart_suffix; fallback_suffix].
Proof.
  split; [|split; [|split]].
  - intros [posts|] template s.
    + apply image_prompts_loop_run.
    + exists [], s. split; [reflexivity|constructor].
  - intros pieces title caption Hp Ht.
    rewrite (template_prompt_fills pieces title caption Hp Ht).
    split; [reflexivity|]. split; intros Hin; apply contains_app_l.
    + apply fill_has_title. exact Hin.
    + apply fill_has_caption. exact Hin.
  - repeat split; intros H; apply (f_equal String.length) in H; vm_compute in H; discriminate.
  - repeat constructor; vm_compute; reflexivity.
Qed.

End TraceLemmas.

(** * The properties at concrete inputs *)

Section Examples.

Import PyStr Samples.

(** C7 at alice: created on a fresh store, then logged in. *)
Lemma create_then_authenticate_alice :
  exists (s2 : Auth.state) (a : Auth.account) (t : Z),
    Auth.authenticate toy_hash toy_clock "alice" "secret1" alice_store
      = (Auth.Return (true, "Login successful", Some "user"), s2) /\
    Auth.users s2 !! "alice" = Some a /\
    Auth.last_login a = Some t /\
    Auth.created_at a <= t /\
    Auth.content (Auth.store s2) = Some (Auth.Valid (Auth.users s2)).
Proof.
  apply (create_then_authenticate toy_hash toy_clock fresh_store alice_store
           "alice" "secret1" "alice@x.com" "User created successfully").
  - intros n m H. unfold toy_clock. lia.
  - vm_compute. reflexivity.
Defined.

(** C10 at alice: a new e-mail, role and flag with a three-letter password. *)
Lemma update_user_partial_alice :
  exists s' : Auth.state,
    Auth.update_user toy_hash "alice" (Some "new@x.com") (Some "admin") (Some false)
      (Some "abc") alice_store
      = (Auth.Return (false, "Password must be at least 6 characters"), s') /\
    Auth.store s' = Auth.store alice_store /\
    Auth.users s' !! "alice"
      = Some (Auth.apply_opt Auth.set_active (Some false)
                (Auth.apply_opt Auth.set_role (Some "admin")
                   (Auth.apply_opt Auth.set_email (Some "new@x.com") alice_account))) /\
    (forall v : string, v <> "alice" -> Auth.users s' !! v = Auth.users alice_store !! v).
Proof.
  apply (update_user_partial_on_short_password toy_hash alice_store "alice" alice_account
           (Some "new@x.com") (Some "admin") (Some false) "abc").
  - vm_compute. reflexivity.
  - vm_compute. reflexivity.
  - simpl. lia.
Defined.

(** C9 at bob with the empty password. *)
Lemma create_user_empty_password_bob :
  exists s1 s0 : Auth.state,
    Auth.create_user toy_hash toy_clock "bob" EmptyString "bob@example.com" "user" fresh_store
      = (Auth.Return (true, "User created successfully"), s1) /\
    (Auth.password <$> Auth.users s1 !! "bob") = Some (toy_hash EmptyString) /\
    Auth.create_user toy_hash toy_clock "bob" EmptyString "bob@example.com" "user" fresh_store
      = (Auth.Return (true, "User created successfully"), s0) /\
    (Auth.password <$> Auth.users s0 !! "bob") = Some (toy_hash EmptyString) /\
    (forall (q : string) (email role' : option string) (active : option bool),
        (String.length q < 6)%nat ->
        Auth.email_passes email = true ->
        fst (Auth.update_user toy_hash "bob" email role' active (Some q) s1)
          = Auth.Return (false, "Password must be at least 6 characters")).
Proof.
  apply (create_user_ignores_password_length toy_hash toy_clock fresh_store
           "bob" EmptyString "bob@example.com" "user").
  - vm_compute. reflexivity.
  - vm_compute. reflexivity.
  - vm_compute. reflexivity.
  - reflexivity.
Defined.

(** C4 at the creation of alice on a fresh store. *)
Lemma create_alice_is_persisted :
  (Auth.Return true = Auth.Return true ->
     Auth.writable (Auth.store fresh_store) = true /\
     Auth.content (Auth.store alice_store) = Some (Auth.Valid (Auth.users alice_store))) /\
  (Auth.writable (Auth.store fresh_store) = false ->
     Auth.Return true = Auth.Raise Auth.OSError \/ Auth.Return true = Auth.Return false) /\
  Auth._load_users (Auth.store fresh_store) = Auth.Return (Auth.loaded (Auth.store fresh_store)) /\
  (Auth.content (Auth.store fresh_store) = Some Auth.Corrupt ->
     Auth._load_users (Auth.store fresh_store) = Auth.Return ∅).
Proof.
  apply (mutations_persist_before_success toy_hash toy_clock
           (Auth.Create "alice" "secret1" "alice@x.com" "user") fresh_store alice_store
           (Auth.Return true)).
  vm_compute. reflexivity.
Defined.

(** C4, the part of the claim that fails: a store file that cannot be
    read gives the empty dict and no error, in [_load_users] and in the
    constructor that calls it. *)
Lemma load_failure_gives_empty_store :
  Auth._load_users corrupt_storage = Auth.Return ∅ /\
  Auth.UserDatabase_init (Auth.State ∅ corrupt_storage 0)
    = (Auth.Return tt, Auth.State ∅ corrupt_storage 0).
Proof. split; reflexivity. Qed.

(** C8 on a machine without a store file. *)
Lemma default_accounts_without_store :
  exists s' : Auth.state,
    Auth.create_default_users toy_hash toy_clock (Auth.State ∅ (Auth.Storage None true) 0)
      = (Auth.Return tt, s') /\
    (forall a u r,
        Auth.init_session_state toy_hash toy_clock (Auth.Session a u r None)
          (Auth.Storage None true) 0
          = (Auth.Return (Auth.Session (Auth.setdefault false a) (Auth.setdefault None u)
                            (Auth.setdefault None r) (Some (Auth.users s'))),
             Auth.store s', Auth.ticks s')) /\
    (forall a u r db,
        Auth.init_session_state toy_hash toy_clock (Auth.Session a u r (Some db))
          (Auth.Storage None true) 0
          = (Auth.Return (Auth.Session (Auth.setdefault false a) (Auth.setdefault None u)
                            (Auth.setdefault None r) (Some db)),
             Auth.Storage None true, 0%nat)) /\
    (Auth.loaded (Auth.Storage None true) !! "admin" = None ->
       exists t, Auth.users s' !! "admin"
         = Some (Auth.Account (toy_hash "admin123") "admin@example.com" "admin" t None true)) /\
    (Auth.loaded (Auth.Storage None true) !! "user" = None ->
       exists t, Auth.users s' !! "user"
         = Some (Auth.Account (toy_hash "user123") "user@example.com" "user" t None true)) /\
    (forall acc, Auth.loaded (Auth.Storage None true) !! "admin" = Some acc ->
                 Auth.users s' !! "admin" = Some acc) /\
    (forall acc, Auth.loaded (Auth.Storage None true) !! "user" = Some acc ->
                 Auth.users s' !! "user" = Some acc) /\
    (Auth.content (Auth.Storage None true) = None ->
       exists t1 t2,
         Auth.users s' !! "admin"
           = Some (Auth.Account (toy_hash "admin123") "admin@example.com" "admin" t1 None true) /\
         Auth.users s' !! "user"
           = Some (Auth.Account (toy_hash "user123") "user@example.com" "user" t2 None true) /\
         Auth.content (Auth.store s') = Some (Auth.Valid (Auth.users s'))).
Proof.
  apply (default_accounts_on_init toy_hash toy_clock (Auth.Storage None true) 0).
  reflexivity.
Defined.

Import Tools.

(** C1, where the claim fails: a reply with three posts of one hashtag
    each passes the structure check and is returned as it is. *)
Lemma generate_posts_returns_one_tag_posts :
  fst (generate_posts happy_world loads_one_tag "Dubai real estate" empty_state)
    = Return one_tag_result /\
  invalid_posts_structure one_tag_result = Return false /\
  spec_three_post_drafts one_tag_result = false.
Proof. repeat (apply conj); vm_compute; reflexivity. Qed.

(** C1 on a topic of blanks. *)
Lemma generate_posts_blank_topic :
  generate_posts happy_world loads_one_tag "   " empty_state
    = (Raise (ValueError "Topic cannot be empty"), empty_state).
Proof.
  apply (proj1 (generate_posts_outcome happy_world loads_one_tag "   " empty_state)).
  reflexivity.
Defined.

(** C3, where the claim fails. The three paths end differently: the
    template prompt and the chat prompt share no more than the final full
    stop, and what the template prompt and the fallback prompt share does
    not hold the CRITICAL clause (the fallback never mentions numbers).
    And a title can vanish from a template prompt: when it is itself the
    caption placeholder, or when it completes one with the text around its
    slot. *)
Lemma prompt_endings_differ_and_title_can_vanish :
  fst (generate_image_prompts happy_world (Some [sample_post])
         (Some "Photo of [TITLE]: [CAPTION]") empty_state) = Return [template_sample] /\
  fst (generate_image_prompts happy_world (Some [sample_post]) None empty_state)
    = Return [smart_sample] /\
  fst (generate_image_prompts no_chat_world (Some [sample_post]) None empty_state)
    = Return [fallback_sample] /\
  common_suffix template_sample smart_sample = "." /\
  contains "CRITICAL" (common_suffix template_sample fallback_sample) = false /\
  endswith template_suffix smart_sample = false /\
  endswith template_suffix fallback_sample = false /\
  contains "numbers" fallback_sample = false /\
  contains "[CAPTION]" (template_prompt "[TITLE] - [CAPTION]" "[CAPTION]" "short") = false /\
  contains "TIO" (template_prompt "x[CAP[TITLE]N] [CAPTION]" "TIO" "short") = false.
Proof. repeat (apply conj); vm_compute; reflexivity. Qed.

(** C3 on a template of plain text around the two placeholders. *)
Lemma photo_template_filled :
  template_prompt (template_text photo_template) "Desert Bloom" "A new fragrance for the season."
    = fill "Desert Bloom" (take 100 "A new fragrance for the season.") photo_template
        ++ template_suffix /\
  (In TitleSlot photo_template ->
     contains "Desert Bloom"
       (template_prompt (template_text photo_template) "Desert Bloom"
          "A new fragrance for the season.") = true) /\
  (In CaptionSlot photo_template ->
     contains (take 100 "A new fragrance for the season.")
       (template_prompt (template_text photo_template) "Desert Bloom"
          "A new fragrance for the season.") = true).
Proof.
  apply (proj1 (proj2 (image_prompt_endings_and_substitution happy_world))
           photo_template "Desert Bloom" "A new fragrance for the season.").
  - reflexivity.
  - reflexivity.
Defined.

(** C5, where the claim fails: after a run with a brand text, the
    overlay's output file is still in the images directory, both when its
    upload worked and when it did not; only the rehost download was
    removed. *)
Lemma branded_file_left_behind :
  generate_images happy_world (Some two_prompts) (Some "Experts Group FZE") EmptyString 80
    empty_state
    = (Return ["https://i.ibb.co/b/branded.jpg"],
       State [EvDalle "A perfume bottle on marble.";
              EvGet "https://dalle.example/img.png"; EvMakedirs;
              EvWrite "images/temp_1700000000.jpg";
              EvImgbbPost "images/temp_1700000000.jpg";
              EvRemove "images/temp_1700000000.jpg";
              EvGet "https://i.ibb.co/a/clean.jpg";
              EvRender "Experts Group FZE" EmptyString 80;
              EvWrite "images/branded_1700000000.jpg";
              EvImgbbPost "images/branded_1700000000.jpg";
              EvSleep 2]
         ["images/branded_1700000000.jpg"] true) /\
  generate_images second_upload_fails_world (Some two_prompts) (Some "Experts Group FZE")
    EmptyString 80 empty_state
    = (Return ["https://i.ibb.co/a/clean.jpg"],
       State [EvDalle "A perfume bottle on marble.";
              EvGet "https://dalle.example/img.png"; EvMakedirs;
              EvWrite "images/temp_1700000000.jpg";
              EvImgbbPost "images/temp_1700000000.jpg";
              EvRemove "images/temp_1700000000.jpg";
              EvGet "https://i.ibb.co/a/clean.jpg";
              EvRender "Experts Group FZE" EmptyString 80;
              EvWrite "images/branded_1700000000.jpg";
              EvImgbbPost "images/branded_1700000000.jpg";
              EvSleep 2]
         ["images/branded_1700000000.jpg"] true).
Proof. split; vm_compute; reflexivity. Qed.

(** C5 on the rehost of a generated image in the world where all works. *)
Lemma rehost_in_happy_world :
  exists (r : option string) (s' : state) (mid : list event),
    upload_image_directly happy_world "https://dalle.example/img.png" empty_state
      = (Return r, s') /\
    trace s' = (trace empty_state ++ EvGet "https://dalle.example/img.png" :: mid
                  ++ [EvRemove (temp_path_of (timestamp happy_world
                                                (S (length (trace empty_state)))))])%list /\
    In (EvWrite (temp_path_of (timestamp happy_world (S (length (trace empty_state)))))) mid /\
    (forall p, ~ In (EvRemove p) mid) /\
    ((forall n, remove_ok happy_world n
                  (temp_path_of (timestamp happy_world (S (length (trace empty_state))))) = true) ->
       file_present (temp_path_of (timestamp happy_world (S (length (trace empty_state))))) s'
         = false).
Proof.
  apply (proj1 (rehost_file_removed_overlay_file_kept happy_world)
           "https://dalle.example/img.png" "bytes" empty_state).
  - reflexivity.
  - intros n. reflexivity.
  - intros n. reflexivity.
Defined.

(** With DALL-E down the run asks Replicate, with the same cleaned
    first prompt, and uses its image. *)
Example replicate_used_when_dalle_down :
  generate_images dalle_down_world (Some two_prompts) None EmptyString 80 empty_state
    = (Return ["https://i.ibb.co/a/clean.jpg"],
       State [EvDalle "A perfume bottle on marble.";
              EvReplicate "A perfume bottle on marble.";
              EvGet "https://replicate.example/out.png"; EvMakedirs;
              EvWrite "images/temp_1700000000.jpg";
              EvImgbbPost "images/temp_1700000000.jpg";
              EvRemove "images/temp_1700000000.jpg";
              EvSleep 2]
         [] true).
Proof. vm_compute. reflexivity. Qed.

End Examples.

(** * Further properties: regular expressions *)

Section RegexLemmas.

Import Re ReLang.

Lemma cat_inv (r1 r2 : regex) (s : string) :
  lang (Cat r1 r2) s -> exists s1 s2, s = s1 ++ s2 /\ lang r1 s1 /\ lang r2 s2.
Proof. intros H. inversion H; subst. eauto. Qed.

Lemma alt_inv (r1 r2 : regex) (s : string) :
  lang (Alt r1 r2) s -> lang r1 s \/ lang r2 s.
Proof. intros H. inversion H; subst; auto. Qed.

Lemma cls_inv (p : ascii -> bool) (s : string) :
  lang (Cls p) s -> exists c, s = String c EmptyString /\ p c = true.
Proof. intros H. inversion H; subst. eauto. Qed.

Lemma eps_inv (s : string) : lang Eps s -> s = EmptyString.
Proof. intros H. inversion H. reflexivity. Qed.

Lemma void_inv (s : string) : lang Void s -> False.
Proof. intros H. inversion H. Qed.

Lemma append_empty_inv (a b : string) :
  a ++ b = EmptyString -> a = EmptyString /\ b = EmptyString.
Proof. destruct a; [simpl; auto|discriminate]. Qed.

Lemma nullable_lang (r : regex) : nullable r = true <-> lang r EmptyString.
Proof.
  induction r as [| |p|r1 IH1 r2 IH2|r1 IH1 r2 IH2|r IH]; simpl.
  - split; [discriminate|]. intros H. destruct (void_inv _ H).
  - split; [intros _; constructor|reflexivity].
  - split; [discriminate|]. intros H. destruct (cls_inv _ _ H) as (c & E & _). discriminate.
  - rewrite andb_true_iff, IH1, IH2. split.
    + intros [H1 H2]. exact (LCat r1 r2 EmptyString EmptyString H1 H2).
    + intros H. destruct (cat_inv _ _ _ H) as (s1 & s2 & E & H1 & H2).
      symmetry in E. apply append_empty_inv in E. destruct E as [-> ->]. split; assumption.
  - rewrite orb_true_iff, IH1, IH2. split.
    + intros [H|H]; [apply LAltL|apply LAltR]; exact H.
    + apply alt_inv.
  - split; [intros _; constructor|reflexivity].
Qed.

Lemma star_cons (r : regex) (c : ascii) (s : string) :
  lang (Star r) (String c s) ->
  exists s1 s2, s = s1 ++ s2 /\ lang r (String c s1) /\ lang (Star r) s2.
Proof.
  intros H. remember (Star r) as r0 eqn:Er. remember (String c s) as s0 eqn:Es.
  revert c s Es.
  induction H as [|p0 c0 Hp|r1 r2 s1 s2 H1 _ H2 _|r1 r2 s0 H0 _|r1 r2 s0 H0 _|r'
                 |r' s1 s2 H1 _ H2 IH2];
    intros c s Es; try discriminate.
  injection Er as ->.
  destruct s1 as [|d s1].
  - simpl in Es. exact (IH2 eq_refl c s Es).
  - simpl in Es. injection Es as -> <-. exists s1, s2. repeat split; assumption.
Qed.

Lemma cat_cons (r1 r2 : regex) (c : ascii) (s : string) :
  lang (Cat r1 r2) (String c s) ->
  (exists s1 s2, s = s1 ++ s2 /\ lang r1 (String c s1) /\ lang r2 s2) \/
  (lang r1 EmptyString /\ lang r2 (String c s)).
Proof.
  intros H. destruct (cat_inv _ _ _ H) as (s1 & s2 & E & H1 & H2).
  destruct s1 as [|d s1].
  - right. simpl in E. subst s2. split; assumption.
  - left. simpl in E. injection E as <- ->. exists s1, s2. repeat split; assumption.
Qed.

Lemma deriv_lang (r : regex) (c : ascii) (s : string) :
  lang (deriv c r) s <-> lang r (String c s).
Proof.
  revert s. induction r as [| |p|r1 IH1 r2 IH2|r1 IH1 r2 IH2|r IH]; intros s; simpl.
  - split; intros H; destruct (void_inv _ H).
  - split; intros H; [destruct (void_inv _ H)|apply eps_inv in H; discriminate].
  - destruct (p c) eqn:Ep; split; intros H.
    + apply eps_inv in H. subst s. constructor. exact Ep.
    + destruct (cls_inv _ _ H) as (d & E & _). injection E as _ ->. constructor.
    + destruct (void_inv _ H).
    + destruct (cls_inv _ _ H) as (d & E & Hd). injection E as -> _. congruence.
  - assert (Hcat : lang (Cat (deriv c r1) r2) s -> lang (Cat r1 r2) (String c s)).
    { intros H. destruct (cat_inv _ _ _ H) as (s1 & s2 & -> & H1 & H2).
      apply IH1 in H1. exact (LCat r1 r2 (String c s1) s2 H1 H2). }
    destruct (nullable r1) eqn:En; split; intros H.
    + destruct (alt_inv _ _ _ H) as [H'|H']; [apply Hcat; exact H'|].
      apply IH2 in H'. apply nullable_lang in En.
      exact (LCat r1 r2 EmptyString (String c s) En H').
    + destruct (cat_cons _ _ _ _ H) as [(s1 & s2 & -> & H1 & H2)|[_ H2]].
      * apply LAltL. apply IH1 in H1. constructor; assumption.
      * apply LAltR. apply IH2. exact H2.
    + apply Hcat. exact H.
    + destruct (cat_cons _ _ _ _ H) as [(s1 & s2 & -> & H1 & H2)|[H1 _]].
      * apply IH1 in H1. constructor; assumption.
      * apply nullable_lang in H1. congruence.
  - split; intros H; destruct (alt_inv _ _ _ H) as [H'|H'].
    + apply LAltL. apply IH1. assumption.
    + apply LAltR. apply IH2. assumption.
    + apply LAltL. apply IH1. assumption.
    + apply LAltR. apply IH2. assumption.
  - split; intros H.
    + destruct (cat_inv _ _ _ H) as (s1 & s2 & -> & H1 & H2).
      apply IH in H1. exact (LStarApp r (String c s1) s2 H1 H2).
    + destruct (star_cons r c s H) as (s1 & s2 & -> & H1 & H2).
      apply IH in H1. constructor; assumption.
Qed.

(** The matcher decides the language. *)
Lemma re_match_lang (r : regex) (s : string) : re_match r s = true <-> lang r s.
Proof.
  revert r. induction s as [|c s IH]; intros r; simpl.
  - apply nullable_lang.
  - rewrite IH. apply deriv_lang.
Qed.

End RegexLemmas.

(** * Further properties: user names and e-mail addresses *)

Section PatternShapes.

Import Re ReLang Auth.

Lemma star_cls_lang (p : ascii -> bool) (s : string) :
  lang (Star (Cls p)) s <-> all_chars p s = true.
Proof.
  split.
  - revert s. induction s as [|c s IH]; intros H; [reflexivity|].
    destruct (star_cons _ _ _ H) as (s1 & s2 & -> & H1 & H2).
    destruct (cls_inv _ _ H1) as (d & E & Hd). injection E as -> ->.
    simpl. rewrite Hd. apply IH. exact H2.
  - induction s as [|c s IH]; intros H; [constructor|].
    simpl in H. apply andb_true_iff in H. destruct H as [Hc Hs].
    change (String c s) with (String c EmptyString ++ s).
    apply LStarApp; [constructor; exact Hc|apply IH; exact Hs].
Qed.

Lemma plus_cls_lang (p : ascii -> bool) (s : string) :
  lang (Plus (Cls p)) s <-> s <> EmptyString /\ all_chars p s = true.
Proof.
  unfold Plus. split.
  - intros H. destruct (cat_inv _ _ _ H) as (s1 & s2 & -> & H1 & H2).
    destruct (cls_inv _ _ H1) as (c & -> & Hc).
    apply star_cls_lang in H2. split; [discriminate|]. simpl. rewrite Hc. exact H2.
  - intros [Hne H]. destruct s as [|c s]; [contradiction|].
    simpl in H. apply andb_true_iff in H. destruct H as [Hc Hs].
    change (String c s) with (String c EmptyString ++ s).
    apply LCat; [constructor; exact Hc|apply star_cls_lang; exact Hs].
Qed.

Lemma atleast2_cls_lang (p : ascii -> bool) (s : string) :
  lang (AtLeast2 (Cls p)) s <-> (2 <= String.length s)%nat /\ all_chars p s = true.
Proof.
  unfold AtLeast2. split.
  - intros H. destruct (cat_inv _ _ _ H) as (s1 & s2 & -> & H1 & H2).
    destruct (cat_inv _ _ _ H2) as (s3 & s4 & -> & H3 & H4).
    destruct (cls_inv _ _ H1) as (c & -> & Hc). destruct (cls_inv _ _ H3) as (d & -> & Hd).
    apply star_cls_lang in H4. simpl. rewrite Hc, Hd. split; [lia|exact H4].
  - intros [Hlen H]. destruct s as [|c [|d s]]; simpl in Hlen; try lia.
    simpl in H. apply andb_true_iff in H. destruct H as [Hc H].
    apply andb_true_iff in H. destruct H as [Hd Hs].
    change (String c (String d s)) with (String c EmptyString ++ String d EmptyString ++ s).
    apply LCat; [constructor; exact Hc|].
    apply LCat; [constructor; exact Hd|apply star_cls_lang; exact Hs].
Qed.

Lemma dollar_lang (t : string) : lang Dollar t <-> dollar_tail t.
Proof.
  unfold Dollar, dollar_tail. split.
  - intros H. destruct (alt_inv _ _ _ H) as [H'|H'].
    + left. apply eps_inv. exact H'.
    + right. destruct (cls_inv _ _ H') as (c & -> & Hc).
      unfold PyStr.is_char, PyStr.code in Hc. apply Nat.eqb_eq in Hc.
      unfold nl. rewrite <- Hc, ascii_nat_embedding. reflexivity.
  - intros [->| ->]; [apply LAltL; constructor|apply LAltR; constructor; reflexivity].
Qed.

Lemma char_lang (n : nat) (s : string) :
  (n < 256)%nat ->
  lang (Cls (PyStr.is_char n)) s <-> s = String (ascii_of_nat n) EmptyString.
Proof.
  intros Hn. split.
  - intros H. destruct (cls_inv _ _ H) as (c & -> & Hc).
    unfold PyStr.is_char, PyStr.code in Hc. apply Nat.eqb_eq in Hc.
    rewrite <- Hc, ascii_nat_embedding. reflexivity.
  - intros ->. constructor. unfold PyStr.is_char, PyStr.code.
    rewrite nat_ascii_embedding by exact Hn. apply Nat.eqb_refl.
Qed.

(** The strings that the user-name pattern takes. *)
Lemma username_pattern_shape (u : string) :
  re_match username_pattern u = true <->
  exists body t : string,
    u = body ++ t /\ body <> EmptyString /\
    all_chars username_char body = true /\ dollar_tail t.
Proof.
  rewrite re_match_lang. unfold username_pattern. split.
  - intros H. destruct (cat_inv _ _ _ H) as (body & t & -> & H1 & H2).
    apply plus_cls_lang in H1. apply dollar_lang in H2. destruct H1 as [Hne Hall].
    exists body, t. repeat split; assumption.
  - intros (body & t & -> & Hne & Hall & Ht).
    apply LCat; [apply plus_cls_lang; split; assumption|apply dollar_lang; exact Ht].
Qed.

(** X2. The e-mail addresses that [_validate_email] takes are exactly
    the strings [local@domain.tld] where the local part is a non-empty
    run of letters, digits and [._%+-], the domain a non-empty run of
    letters, digits, dots and hyphens, and the last label at least two
    letters; one line feed may follow. *)
Theorem validate_email_shape (e : string) :
  _validate_email e = true <->
  exists local domain tld t : string,
    e = local ++ "@" ++ domain ++ "." ++ tld ++ t /\
    local <> EmptyString /\ all_chars local_char local = true /\
    domain <> EmptyString /\ all_chars domain_char domain = true /\
    (2 <= String.length tld)%nat /\ all_chars PyStr.is_letter tld = true /\
    dollar_tail t.
Proof.
  unfold _validate_email. rewrite re_match_lang. unfold email_pattern. split.
  - intros H.
    destruct (cat_inv _ _ _ H) as (l & r1 & -> & Hl & H1).
    destruct (cat_inv _ _ _ H1) as (at_ & r2 & -> & Hat & H2).
    destruct (cat_inv _ _ _ H2) as (d & r3 & -> & Hd & H3).
    destruct (cat_inv _ _ _ H3) as (dot & r4 & -> & Hdot & H4).
    destruct (cat_inv _ _ _ H4) as (tld & t & -> & Htld & Ht).
    apply plus_cls_lang in Hl. apply plus_cls_lang in Hd.
    apply atleast2_cls_lang in Htld. apply dollar_lang in Ht.
    apply (char_lang 64) in Hat; [|lia]. apply (char_lang 46) in Hdot; [|lia].
    subst at_ dot. destruct Hl as [Hl1 Hl2]. destruct Hd as [Hd1 Hd2].
    destruct Htld as [Ht1 Ht2].
    exists l, d, tld, t. repeat split; assumption.
  - intros (l & d & tld & t & -> & Hl1 & Hl2 & Hd1 & Hd2 & Ht1 & Ht2 & Ht).
    apply LCat; [apply plus_cls_lang; split; assumption|].
    apply (LCat _ _ "@"); [apply (char_lang 64); [lia|reflexivity]|].
    apply LCat; [apply plus_cls_lang; split; assumption|].
    apply (LCat _ _ "."); [apply (char_lang 46); [lia|reflexivity]|].
    apply LCat; [apply atleast2_cls_lang; split; assumption|apply dollar_lang; exact Ht].
Qed.

End PatternShapes.

(** * Further properties: the user database *)

Section StoreProperties.

Import Auth AuthSpec ReLang.

Variable hash_password : string -> string.
Variable clock : nat -> Z.

Ltac run_store :=
  unfold Auth.run_mutation, Auth.create_user, Auth.update_user, Auth.delete_user,
    Auth.authenticate, Auth.update_email, Auth.update_role, Auth.update_active,
    Auth.update_password, Auth.modify_user, Auth._save_users, Auth.now, Auth.get_users,
    Auth.set_users, mbind, M_bind, mret, M_ret in *; cbn [fst snd users store ticks] in *.

(** X1. With a free name, a valid e-mail address and a writable store,
    [create_user] succeeds exactly for the user names made of a non-empty
    run of letters, digits and underscores, alone or followed by one line
    feed (which the pattern's final [$] lets through). *)
Theorem create_user_username_shape (s : state) (u p e r : string) :
  users s !! u = None ->
  _validate_email e = true ->
  writable (store s) = true ->
  (fst (create_user hash_password clock u p e r s)
     = Return (true, "User created successfully") <->
   exists body t : string,
     u = body ++ t /\ body <> EmptyString /\
     all_chars username_char body = true /\ dollar_tail t).
Proof.
  intros Hu He Hw. rewrite <- username_pattern_shape. split.
  - intros H. destruct (create_user hash_password clock u p e r s) as [o s1] eqn:E.
    simpl in H. subst o.
    destruct (create_user_success _ _ _ _ _ _ _ _ _ E) as (_ & _ & Hn & _). exact Hn.
  - intros Hn. rewrite (create_user_fresh hash_password clock s u p e r Hu He Hn Hw).
    reflexivity.
Qed.

(** X3. Once [update_user] has set [active] to false, [authenticate]
    refuses the account with "Account is deactivated" for every password,
    the right one included, and changes nothing. *)
Theorem deactivated_account_cannot_login (s : state) (u : string) (a : account) :
  users s !! u = Some a ->
  writable (store s) = true ->
  exists s1 : state,
    update_user hash_password u None None (Some false) None s
      = (Return (true, "User updated successfully"), s1) /\
    content (store s1) = Some (Valid (users s1)) /\
    users s1 !! u = Some (set_active false a) /\
    forall q : string,
      authenticate hash_password clock u q s1
        = (Return (false, "Account is deactivated", None), s1).
Proof.
  intros Hu Hw. run_store.
  destruct (decide (is_Some (users s !! u))) as [_|Hn]; [|exfalso; apply Hn; eauto].
  cbn [fst snd users store ticks]. rewrite Hw.
  eexists. split; [reflexivity|]. cbn [fst snd users store ticks content].
  split; [reflexivity|].
  assert (Hl : alter (set_active false) u (users s) !! u = Some (set_active false a))
    by (rewrite lookup_alter_eq, Hu; reflexivity).
  split; [exact Hl|]. intros q. rewrite Hl. reflexivity.
Qed.

(** X4. [delete_user] on an existing name removes that account and no
    other, saves the store, and leaves the name unknown: a login under it
    answers "User not found" and a second delete fails, both without any
    change. *)
Theorem deleted_user_is_gone (s : state) (u : string) (a : account) :
  users s !! u = Some a ->
  writable (store s) = true ->
  exists s1 : state,
    delete_user u s = (Return (true, "User '" ++ u ++ "' deleted"), s1) /\
    users s1 !! u = None /\
    (forall v : string, v <> u -> users s1 !! v = users s !! v) /\
    content (store s1) = Some (Valid (users s1)) /\
    (forall q : string,
        authenticate hash_password clock u q s1 = (Return (false, "User not found", None), s1)) /\
    delete_user u s1 = (Return (false, "User not found"), s1).
Proof.
  intros Hu Hw. run_store.
  destruct (decide (is_Some (users s !! u))) as [_|Hn]; [|exfalso; apply Hn; eauto].
  cbn [fst snd users store ticks]. rewrite Hw.
  eexists. split; [reflexivity|]. cbn [fst snd users store ticks content].
  assert (Hl : delete u (users s) !! u = None) by apply lookup_delete_eq.
  split; [exact Hl|].
  split; [intros v Hv; apply lookup_delete_ne; congruence|].
  split; [reflexivity|].
  split; [intros q; rewrite Hl; reflexivity|].
  destruct (decide (is_Some (delete u (users s) !! u))) as [[x Hx]|_]; [congruence|reflexivity].
Qed.

(** X5. A mutating operation that reports failure has changed nothing,
    with one exception: [update_user] failing on the length of the new
    password, which touches neither storage nor clock. *)
Theorem failed_operations_change_nothing (op : mutation) (s s' : state) :
  run_mutation hash_password clock op s = (Return false, s') ->
  s' = s \/
  exists (u : string) (e r : option string) (a : option bool) (p : string),
    op = Update u e r a (Some p) /\ (String.length p < 6)%nat /\
    email_passes e = true /\ is_Some (users s !! u) /\
    store s' = store s /\ ticks s' = ticks s.
Proof.
  destruct op as [u p e r|u e r a p|u|u p]; run_store; intros H.
  - destruct (decide (is_Some (users s !! u))); [injection H as <-; left; reflexivity|].
    destruct (_validate_email e); cbn [negb fst snd] in H; [|injection H as <-; left; reflexivity].
    destruct (Re.re_match username_pattern u); cbn [negb fst snd] in H;
      [|injection H as <-; left; reflexivity].
    destruct (writable (store s)); cbn [fst snd] in H; discriminate.
  - destruct (decide (is_Some (users s !! u))) as [Hs|]; [|injection H as <-; left; reflexivity].
    destruct e as [e|]; cbn [fst snd] in H.
    + destruct (_validate_email e) eqn:Ee; cbn [negb fst snd users store ticks] in H;
        [|injection H as <-; left; reflexivity].
      destruct r as [r|]; destruct a as [a|]; destruct p as [p|];
        cbn [fst snd users store ticks] in H;
        try (destruct (writable (store s)); cbn [fst snd] in H; discriminate);
        (destruct (String.length p <? 6)%nat eqn:El; cbn [fst snd users store ticks] in H;
         [|destruct (writable (store s)); cbn [fst snd] in H; discriminate]);
        injection H as <-; right; eexists _, _, _, _, _;
        (split; [reflexivity|]); (split; [apply Nat.ltb_lt; exact El|]);
        (split; [exact Ee|]); (split; [exact Hs|]); split; reflexivity.
    + destruct r as [r|]; destruct a as [a|]; destruct p as [p|];
        cbn [fst snd users store ticks] in H;
        try (destruct (writable (store s)); cbn [fst snd] in H; discriminate);
        (destruct (String.length p <? 6)%nat eqn:El; cbn [fst snd users store ticks] in H;
         [|destruct (writable (store s)); cbn [fst snd] in H; discriminate]);
        injection H as <-; right; eexists _, _, _, _, _;
        (split; [reflexivity|]); (split; [apply Nat.ltb_lt; exact El|]);
        (split; [reflexivity|]); (split; [exact Hs|]); split; reflexivity.
  - destruct (decide (is_Some (users s !! u))); [|injection H as <-; left; reflexivity].
    cbn [fst snd users store ticks] in H.
    destruct (writable (store s)); cbn [fst snd] in H; discriminate.
  - destruct (users s !! u) as [a|]; [|injection H as <-; left; reflexivity].
    destruct (active a); cbn [negb fst snd] in H; [|injection H as <-; left; reflexivity].
    destruct (Auth.password a =? hash_password p)%string; cbn [fst snd users store ticks] in H;
      [|injection H as <-; left; reflexivity].
    destruct (writable (store s)); cbn [fst snd] in H; discriminate.
Qed.

(** X6. After [update_user] has set a new password of at least 6
    characters on an active account, [authenticate] takes the new
    password, answers the account's role and stamps the login, and it
    answers "Invalid password" to every password with another digest. *)
Theorem new_password_takes_effect (s : state) (u : string) (a : account) (p : string) :
  users s !! u = Some a ->
  active a = true ->
  writable (store s) = true ->
  (6 <= String.length p)%nat ->
  exists s1 s2 : state,
    update_user hash_password u None None None (Some p) s
      = (Return (true, "User updated successfully"), s1) /\
    users s1 !! u = Some (set_password (hash_password p) a) /\
    authenticate hash_password clock u p s1
      = (Return (true, "Login successful", Some (role a)), s2) /\
    (last_login <$> users s2 !! u) = Some (Some (clock (ticks s))) /\
    forall old : string,
      hash_password old <> hash_password p ->
      authenticate hash_password clock u old s1
        = (Return (false, "Invalid password", None), s1).
Proof.
  intros Hu Ha Hw Hp.
  assert (Hlen : (String.length p <? 6)%nat = false) by (apply Nat.ltb_ge; exact Hp).
  run_store.
  destruct (decide (is_Some (users s !! u))) as [_|Hn]; [|exfalso; apply Hn; eauto].
  cbn [fst snd users store ticks]. rewrite Hlen. cbn [fst snd users store ticks]. rewrite Hw.
  eexists _, _. split; [reflexivity|]. cbn [fst snd users store ticks].
  assert (Hl : alter (set_password (hash_password p)) u (users s) !! u
               = Some (set_password (hash_password p) a))
    by (rewrite lookup_alter_eq, Hu; reflexivity).
  split; [exact Hl|]. rewrite Hl. cbn [active password set_password]. rewrite Ha.
  cbn [negb]. rewrite String.eqb_refl. cbn [fst snd users store ticks writable].
  split; [reflexivity|].
  split; [cbn [users]; rewrite lookup_alter_eq, Hl; reflexivity|].
  intros old Hold.
  destruct (String.eqb_spec (hash_password p) (hash_password old)) as [E|_];
    [congruence|reflexivity].
Qed.

(** X7. After a mutating operation has returned success, reading the
    store file gives back exactly the accounts held in memory: a
    [UserDatabase] built then holds the same accounts. *)
Theorem saved_store_reloads (op : mutation) (s s' : state) :
  run_mutation hash_password clock op s = (Return true, s') ->
  _load_users (store s') = Return (users s') /\
  UserDatabase_init s' = (Return tt, s').
Proof.
  intros H. destruct (run_mutation_success hash_password clock op s s' H) as [_ Hc].
  assert (Hl : _load_users (store s') = Return (users s'))
    by (unfold _load_users; rewrite Hc; reflexivity).
  split; [exact Hl|]. unfold UserDatabase_init. rewrite Hl. destruct s'; reflexivity.
Qed.

(** X8. What a failed [update_user] left in memory is written by the
    next save: after an update that fails on the password length but
    carries a new role, a login with the right password succeeds, answers
    the new role and stores it. *)
Theorem failed_update_saved_by_next_login (s : state) (u : string) (a : account)
    (p newrole q : string) :
  users s !! u = Some a ->
  active a = true ->
  password a = hash_password p ->
  writable (store s) = true ->
  (String.length q < 6)%nat ->
  exists (s1 s2 : state) (a2 : account),
    update_user hash_password u None (Some newrole) None (Some q) s
      = (Return (false, "Password must be at least 6 characters"), s1) /\
    store s1 = store s /\
    authenticate hash_password clock u p s1
      = (Return (true, "Login successful", Some newrole), s2) /\
    content (store s2) = Some (Valid (users s2)) /\
    users s2 !! u = Some a2 /\ role a2 = newrole.
Proof.
  intros Hu Ha Hpw Hw Hq.
  assert (Hlen : (String.length q <? 6)%nat = true) by (apply Nat.ltb_lt; exact Hq).
  run_store.
  destruct (decide (is_Some (users s !! u))) as [_|Hn]; [|exfalso; apply Hn; eauto].
  cbn [fst snd users store ticks]. rewrite Hlen. cbn [fst snd users store ticks].
  assert (Hl : alter (set_role newrole) u (users s) !! u = Some (set_role newrole a))
    by (rewrite lookup_alter_eq, Hu; reflexivity).
  eexists _, _, _. split; [reflexivity|]. cbn [fst snd users store ticks].
  split; [reflexivity|]. rewrite Hl. cbn [active password set_role role]. rewrite Ha, Hpw.
  cbn [negb]. rewrite String.eqb_refl. cbn [fst snd users store ticks]. rewrite Hw.
  split; [reflexivity|]. cbn [fst snd users store ticks content].
  split; [reflexivity|].
  split; [cbn [users]; rewrite lookup_alter_eq, Hl; reflexivity|reflexivity].
Qed.

Lemma run_mutation_frame (op : mutation) (s : state) (v : string) :
  v <> target op ->
  users (snd (run_mutation hash_password clock op s)) !! v = users s !! v.
Proof.
  intros Hv. destruct op as [u p e r|u e r a p|u|u p]; cbn [target] in Hv; run_store.
  - destruct (decide (is_Some (users s !! u))); [reflexivity|].
    destruct (_validate_email e); cbn [negb fst snd]; [|reflexivity].
    destruct (Re.re_match username_pattern u); cbn [negb fst snd]; [|reflexivity].
    destruct (writable (store s)); cbn [fst snd users];
      rewrite lookup_insert_ne by congruence; reflexivity.
  - destruct (decide (is_Some (users s !! u))); [|reflexivity].
    destruct e as [e|]; cbn [fst snd];
      [destruct (_validate_email e); cbn [negb fst snd users store ticks]; [|reflexivity]|];
      destruct r as [r|]; destruct a as [a|]; destruct p as [p|];
      cbn [fst snd users store ticks];
      try (destruct (String.length p <? 6)%nat; cbn [fst snd users store ticks]);
      try (destruct (writable (store s)); cbn [fst snd users]);
      repeat (rewrite lookup_alter_ne by congruence); reflexivity.
  - destruct (decide (is_Some (users s !! u))); [|reflexivity].
    cbn [fst snd users store ticks].
    destruct (writable (store s)); cbn [fst snd users];
      rewrite lookup_delete_ne by congruence; reflexivity.
  - destruct (users s !! u) as [a|]; [|reflexivity].
    destruct (active a); cbn [negb fst snd]; [|reflexivity].
    destruct (Auth.password a =? hash_password p)%string; cbn [fst snd users store ticks];
      [|reflexivity].
    destruct (writable (store s)); cbn [fst snd users];
      rewrite lookup_alter_ne by congruence; reflexivity.
Qed.

Lemma run_mutation_keeps_names (op : mutation) (s : state) :
  (forall u p e r, op <> Create u p e r) ->
  (forall u, op <> Delete u) ->
  is_Some (users (snd (run_mutation hash_password clock op s)) !! target op)
  <-> is_Some (users s !! target op).
Proof.
  intros Hc Hd. destruct op as [u p e r|u e r a p|u|u p]; cbn [target];
    [exfalso; exact (Hc _ _ _ _ eq_refl)| |exfalso; exact (Hd _ eq_refl)|]; run_store.
  - destruct (decide (is_Some (users s !! u))); [|reflexivity].
    destruct e as [e|]; cbn [fst snd];
      [destruct (_validate_email e); cbn [negb fst snd users store ticks]; [|reflexivity]|];
      destruct r as [r|]; destruct a as [a|]; destruct p as [p|];
      cbn [fst snd users store ticks];
      try (destruct (String.length p <? 6)%nat; cbn [fst snd users store ticks]);
      try (destruct (writable (store s)); cbn [fst snd users]);
      repeat rewrite lookup_alter_eq; repeat rewrite fmap_is_Some; reflexivity.
  - destruct (users s !! u) as [a|] eqn:Hu;
      [|cbn [fst snd users store ticks]; rewrite ?Hu; reflexivity].
    destruct (active a); cbn [negb fst snd users store ticks]; [|rewrite ?Hu; reflexivity].
    destruct (Auth.password a =? hash_password p)%string; cbn [fst snd users store ticks];
      [|rewrite ?Hu; reflexivity].
    destruct (writable (store s)); cbn [fst snd users];
      rewrite ?lookup_alter_eq, ?Hu; split; intros _; eauto.
Qed.

(** X9. Whatever its outcome (success, failure or a raised error), a
    mutating operation leaves every account other than the one it names
    as it was; and [update_user] and [authenticate] neither add nor remove
    an account. *)
Theorem mutations_touch_only_their_user (op : mutation) (s : state) :
  (forall v : string,
      v <> target op ->
      users (snd (run_mutation hash_password clock op s)) !! v = users s !! v) /\
  (forall (u : string) (e r : option string) (a : option bool) (p : option string) (v : string),
      op = Update u e r a p ->
      (is_Some (users (snd (run_mutation hash_password clock op s)) !! v)
       <-> is_Some (users s !! v))) /\
  (forall (u p v : string),
      op = Authenticate u p ->
      (is_Some (users (snd (run_mutation hash_password clock op s)) !! v)
       <-> is_Some (users s !! v))).
Proof.
  split; [intros v Hv; apply run_mutation_frame; exact Hv|].
  split.
  - intros u e r a p v ->. destruct (decide (v = u)) as [->|Hv].
    + apply (run_mutation_keeps_names (Update u e r a p) s); intros; discriminate.
    + rewrite run_mutation_frame by exact Hv. reflexivity.
  - intros u p v ->. destruct (decide (v = u)) as [->|Hv].
    + apply (run_mutation_keeps_names (Authenticate u p) s); intros; discriminate.
    + rewrite run_mutation_frame by exact Hv. reflexivity.
Qed.

Lemma run_mutation_target_account (op : mutation) (s : state) (a' : account) :
  users (snd (run_mutation hash_password clock op s)) !! target op = Some a' ->
  (exists a, users s !! target op = Some a /\
             (email a' = email a \/ _validate_email (email a') = true)) \/
  (Re.re_match username_pattern (target op) = true /\ _validate_email (email a') = true).
Proof.
  assert (Hsame' : forall u, users s !! u = Some a' ->
            exists a, users s !! u = Some a /\
                      (email a' = email a \/ _validate_email (email a') = true)).
  { intros u H. exists a'. split; [exact H|left; reflexivity]. }
  destruct op as [u p e r|u e r a p|u|u p]; cbn [target]; run_store.
  - destruct (decide (is_Some (users s !! u))) as [[a0 H0]|];
      [cbn [fst snd users store ticks]; intros Hsame; left; exact (Hsame' _ Hsame)|].
    destruct (_validate_email e) eqn:Ee; cbn [negb fst snd users store ticks];
      [|intros Hsame; left; exact (Hsame' _ Hsame)].
    destruct (Re.re_match username_pattern u) eqn:En; cbn [negb fst snd users store ticks];
      [|intros Hsame; left; exact (Hsame' _ Hsame)].
    destruct (writable (store s)); cbn [fst snd users]; rewrite lookup_insert_eq;
      intros H; injection H as <-; right;
      (split; [first [reflexivity|exact En]|cbn [email]; exact Ee]).
  - destruct (decide (is_Some (users s !! u))) as [[a0 H0]|];
      [|cbn [fst snd users store ticks]; intros Hsame; left; exact (Hsame' _ Hsame)].
    destruct e as [e|]; cbn [fst snd];
      [destruct (_validate_email e) eqn:Ee; cbn [negb fst snd users store ticks];
       [|intros Hsame; left; exact (Hsame' _ Hsame)]|];
      destruct r as [r|]; destruct a as [a|]; destruct p as [p|];
      cbn [fst snd users store ticks];
      try (destruct (String.length p <? 6)%nat; cbn [fst snd users store ticks]);
      try (destruct (writable (store s)); cbn [fst snd users]);
      repeat rewrite lookup_alter_eq; rewrite ?H0; cbn [fmap option_fmap option_map];
      intros H; injection H as <-; left; exists a0; (split; [reflexivity|]);
      cbn [email set_email set_role set_active set_password]; auto.
  - destruct (decide (is_Some (users s !! u))) as [[a0 H0]|];
      [|cbn [fst snd users store ticks]; intros Hsame; left; exact (Hsame' _ Hsame)].
    cbn [fst snd users store ticks].
    destruct (writable (store s)); cbn [fst snd users];
      rewrite lookup_delete_eq; discriminate.
  - destruct (users s !! u) as [a|] eqn:Hu;
      [|cbn [fst snd users store ticks]; intros Hsame; rewrite ?Hu in Hsame; first [discriminate|injection Hsame as <-; left; eexists; split; [reflexivity|left; reflexivity]]].
    destruct (active a); cbn [negb fst snd users store ticks]; [|intros Hsame; rewrite ?Hu in Hsame; first [discriminate|injection Hsame as <-; left; eexists; split; [reflexivity|left; reflexivity]]].
    destruct (Auth.password a =? hash_password p)%string; cbn [fst snd users store ticks];
      [|intros Hsame; rewrite ?Hu in Hsame; first [discriminate|injection Hsame as <-; left; eexists; split; [reflexivity|left; reflexivity]]].
    destruct (writable (store s)); cbn [fst snd users];
      rewrite ?lookup_alter_eq, ?Hu; cbn [fmap option_fmap option_map];
      intros H; injection H as <-; left; exists a; auto.
Qed.

(** X10. If every stored account has a user name and an e-mail address
    that the validations accept, this is still so after any mutating
    operation, whatever its outcome: the half-done update of a failing
    [update_user] included. *)
Theorem mutations_keep_store_well_formed (op : mutation) (s : state) :
  well_formed (users s) ->
  well_formed (users (snd (run_mutation hash_password clock op s))).
Proof.
  intros Hwf v a' Hv. destruct (decide (v = target op)) as [->|Hne].
  - destruct (run_mutation_target_account op s a' Hv) as [(a & Ha & [He|He])|[Hn He]].
    + destruct (Hwf _ _ Ha) as [Hn Hm]. rewrite He. split; assumption.
    + destruct (Hwf _ _ Ha) as [Hn _]. split; assumption.
    + split; assumption.
  - rewrite run_mutation_frame in Hv by exact Hne. exact (Hwf _ _ Hv).
Qed.

End StoreProperties.

(** * auth.py: the forms *)

Section FormProperties.

Import Auth AuthSpec AuthUI PyStr.

Variable hash_password : string -> string.
Variable clock : nat -> Z.


Lemma authenticate_outcome (u p : string) (s s' : state) (r : bool * string * option string) :
  authenticate hash_password clock u p s = (Return r, s') ->
  (exists a : account,
      r = (true, "Login successful", Some (role a)) /\ users s !! u = Some a /\
      active a = true /\ password a = hash_password p /\
      content (store s') = Some (Valid (users s'))) \/
  (exists msg : string, r = (false, msg, None) /\ s' = s).
Proof.
  unfold authenticate, modify_user, _save_users, now, get_users, mbind, M_bind, mret, M_ret.
  cbn [fst snd users store ticks].
  destruct (users s !! u) as [a|] eqn:Hu.
  - destruct (active a) eqn:Ha; cbn [negb].
    + destruct (String.eqb_spec (password a) (hash_password p)) as [Hp|Hp].
      * cbn [fst snd users store ticks].
        destruct (writable (store s)); cbn [fst snd]; [|discriminate].
        intros H. injection H as <- <-. left. exists a.
        repeat (apply conj); try reflexivity; assumption.
      * intros H. injection H as <- <-. right. eexists. split; reflexivity.
    + intros H. injection H as <- <-. right. eexists. split; reflexivity.
  - intros H. injection H as <- <-. right. eexists. split; reflexivity.
Qed.



(** X12. The sign-up form. A success message means that an active
    account with the role "user" and the digest of the password typed has
    been created under a name that was free and saved, and that the name
    had at least 3 characters, the password at least 6, the confirmation
    was the same and the terms were ticked. *)
Theorem signup_form_success (u e pw c : string) (terms : bool) (s s' : state) (msg : string) :
  signup_submit hash_password clock u e pw c terms s = (Return (ShowSuccess msg), s') ->
  (3 <= String.length u)%nat /\ (6 <= String.length pw)%nat /\ c = pw /\ terms = true /\
  users s !! u = None /\
  users s' !! u = Some (Account (hash_password pw) e "user" (clock (ticks s)) None true) /\
  content (store s') = Some (Valid (users s')).
Proof.
  unfold signup_submit.
  destruct (falsy u || falsy e || falsy pw || falsy c); [discriminate|].
  destruct (String.length u <? 3)%nat eqn:Lu; [discriminate|].
  destruct (String.length pw <? 6)%nat eqn:Lp; [discriminate|].
  destruct (String.eqb_spec pw c) as [<-|]; cbn [negb]; [|discriminate].
  destruct terms; cbn [negb]; [|discriminate].
  unfold mbind, M_bind at 1.
  destruct (create_user hash_password clock u pw e "user" s) as [[[[|] m]|x] s1] eqn:E;
    [|discriminate|discriminate].
  intros H. injection H as _ <-.
  destruct (create_user_success _ _ _ _ _ _ _ _ _ E) as (Hu & He & Hn & Hw).
  rewrite (create_user_fresh hash_password clock s u pw e "user" Hu He Hn Hw) in E.
  injection E as _ <-. cbn [users store content].
  apply Nat.ltb_ge in Lu, Lp.
  repeat (apply conj); try reflexivity; try assumption.
  apply lookup_insert_eq.
Qed.







(** X15. Behind [require_auth]: after a successful login the wrapper
    calls the page exactly when no role is required or the required role
    is the one stored for the account, and refuses otherwise; after
    [logout] it shows the login page whatever the requirement. *)
Theorem require_auth_after_login (u p : string) (ss ss' : login) (msg : string)
    (s s' : state) (a : account) (required_role : option string) :
  login_submit hash_password clock u p ss s = (Return (ss', ShowSuccess msg), s') ->
  users s !! u = Some a ->
  require_auth required_role ss' =
    (if truthy_role required_role && negb (same_role (Some (role a)) required_role)
     then AccessDenied else CallPage) /\
  (require_auth required_role ss' = CallPage <->
     required_role = None \/ required_role = Some EmptyString \/ required_role = Some (role a)) /\
  require_auth required_role (logout ss') = ShowLogin.
Proof.
  intros H Hu.
  assert (Hs : ss' = Login true (Some u) (Some (role a))).
  { revert H. unfold login_submit.
    destruct (falsy u || falsy p); [discriminate|].
    unfold mbind, M_bind at 1.
    destruct (authenticate hash_password clock u p s) as [[r|e] s1] eqn:E; [|discriminate].
    destruct (authenticate_outcome u p s s1 r E) as [(b & -> & Hb & _)|(m & -> & ->)];
      [|discriminate].
    intros H'. injection H' as <- _ _. congruence. }
  subst ss'. unfold require_auth, logout. cbn [logged_in login_role negb].
  split; [reflexivity|]. split; [|reflexivity].
  destruct required_role as [[|c r]|]; cbn [truthy_role same_role falsy negb andb].
  - split; auto.
  - destruct (String.eqb_spec (role a) (String c r)) as [E|E]; cbn [negb].
    + split; [intros _; right; right; congruence|reflexivity].
    + split; [discriminate|]. intros [K|[K|K]]; [discriminate|discriminate|congruence].
  - split; auto.
Qed.




Lemma update_active_only (u : string) (b : bool) (a : account) (s : state) :
  users s !! u = Some a ->
  writable (store s) = true ->
  update_user hash_password u None None (Some b) None s =
    (Return (true, "User updated successfully"),
     State (alter (set_active b) u (users s))
       (Storage (Some (Valid (alter (set_active b) u (users s)))) true) (ticks s)).
Proof.
  intros Hu Hw.
  unfold update_user, update_email, update_role, update_active, update_password, modify_user,
    _save_users, get_users, mbind, M_bind, mret, M_ret. cbn [fst snd users store ticks].
  destruct (decide (is_Some (users s !! u))) as [_|Hn]; [|exfalso; apply Hn; eauto].
  cbn [fst snd users store ticks]. rewrite Hw. reflexivity.
Qed.

(** X17. "Toggle Active" pressed twice on a user of a writable store
    succeeds twice, the first press flips the account's flag, and the
    second gives back the accounts as they were before the first. *)
Theorem toggle_active_twice (u : string) (a : account) (s : state) :
  users s !! u = Some a ->
  writable (store s) = true ->
  exists s1 s2 : state,
    toggle_active hash_password u s
      = (Return (Some (true, "User updated successfully")), s1) /\
    users s1 !! u = Some (set_active (negb (active a)) a) /\
    toggle_active hash_password u s1
      = (Return (Some (true, "User updated successfully")), s2) /\
    users s2 = users s /\
    content (store s2) = Some (Valid (users s)).
Proof.
  intros Hu Hw.
  assert (Hl : alter (set_active (negb (active a))) u (users s) !! u
               = Some (set_active (negb (active a)) a))
    by (rewrite lookup_alter_eq, Hu; reflexivity).
  assert (Hback : alter (set_active (negb (active (set_active (negb (active a)) a)))) u
                    (alter (set_active (negb (active a))) u (users s)) = users s).
  { apply map_eq. intros v. destruct (decide (v = u)) as [->|Hv].
    - rewrite lookup_alter_eq, Hl, Hu. cbn [fmap option_fmap option_map set_active active].
      rewrite negb_involutive. destruct a; reflexivity.
    - rewrite !lookup_alter_ne by congruence. reflexivity. }
  set (s1 := State (alter (set_active (negb (active a))) u (users s))
               (Storage (Some (Valid (alter (set_active (negb (active a))) u (users s)))) true)
               (ticks s)).
  assert (H1 : toggle_active hash_password u s
               = (Return (Some (true, "User updated successfully")), s1)).
  { unfold toggle_active, get_all_users, get_users. unfold mbind, M_bind at 1.
    cbn [fst snd]. rewrite Hu. unfold mbind, M_bind.
    rewrite (update_active_only u _ a s Hu Hw). reflexivity. }
  exists s1. eexists. split; [exact H1|]. split; [exact Hl|].
  unfold toggle_active, get_all_users, get_users. unfold mbind, M_bind at 1.
  cbn [fst snd]. unfold s1 at 1. cbn [users]. rewrite Hl. unfold mbind, M_bind.
  rewrite (update_active_only u _ (set_active (negb (active a)) a) s1 Hl eq_refl).
  unfold mret, M_ret. split; [reflexivity|]. cbn [users store content s1].
  rewrite Hback. split; reflexivity.
Qed.

(** X18. The side bar and the page dispatch agree: every button that
    the menu offers to a role brings up a page; the three administration
    pages come up for the role "admin" only; and for any other role a
    [current_page] left on one of them brings up no page at all. *)
Theorem navigation_respects_role (user_role : option string) (current_page : string) :
  (In current_page (menu_options user_role) ->
     is_Some (show_navigation current_page user_role)) /\
  (forall p : page,
      show_navigation current_page user_role = Some p ->
      admin_page p = true -> user_role = Some "admin") /\
  (is_admin user_role = false ->
   In current_page ["user_management"; "analytics"; "settings"] ->
   show_navigation current_page user_role = None).
Proof.
  assert (Hadm : is_admin user_role = true -> user_role = Some "admin").
  { destruct user_role as [r|]; cbn [is_admin]; [|discriminate].
    intros H. apply String.eqb_eq in H. congruence. }
  split; [|split].
  - unfold menu_options. destruct (is_admin user_role) eqn:Ha; cbn [In];
      intros H; decompose [or] H; try contradiction; subst current_page;
      unfold show_navigation; rewrite ?Ha; vm_compute; eauto.
  - intros p. unfold show_navigation.
    destruct (is_admin user_role) eqn:Ha; [intros _ _; apply Hadm; reflexivity|].
    rewrite !andb_false_r.
    destruct (String.eqb current_page "dashboard");
      [intros H; injection H as <-; discriminate|].
    destruct (String.eqb current_page "campaigns");
      [intros H; injection H as <-; discriminate|].
    destruct (String.eqb current_page "profile");
      [intros H; injection H as <-; discriminate|discriminate].
  - intros Ha H. cbn [In] in H. decompose [or] H; try contradiction; subst current_page;
      unfold show_navigation; rewrite Ha; vm_compute; reflexivity.
Qed.

End FormProperties.

(** * tools.py: further properties of the pipeline *)

Section CleanPrompt.

Import PyStr Tools ToolsSpec.

Lemma length_take (n : nat) (s : string) : (String.length (take n s) <= n)%nat.
Proof.
  revert s. induction n as [|n IH]; intros [|c s]; cbn [take String.length]; try lia.
  specialize (IH s). lia.
Qed.

Lemma take_prefix (n : nat) (s : string) : exists r : string, s = take n s ++ r.
Proof.
  revert s. induction n as [|n IH]; intros [|c s]; cbn [take].
  - exists EmptyString. reflexivity.
  - eexists. reflexivity.
  - exists EmptyString. reflexivity.
  - destruct (IH s) as [r E]. exists r. cbn [append]. rewrite <- E. reflexivity.
Qed.

Lemma split_head_prefix (sep s : string) : exists r : string, s = split_head sep s ++ r.
Proof.
  induction s as [|c s [r E]]; [exists EmptyString; reflexivity|].
  cbn [split_head]. destruct (startswith sep (String c s)).
  - eexists. reflexivity.
  - exists r. cbn [append]. rewrite <- E. reflexivity.
Qed.

Lemma rstrip_prefix (s : string) : exists r : string, s = rstrip s ++ r.
Proof.
  induction s as [|c s [r E]]; [exists EmptyString; reflexivity|].
  cbn [rstrip]. destruct (rstrip s) as [|d t] eqn:Er.
  - destruct (is_space c).
    + eexists. reflexivity.
    + exists r. cbn [append] in *. rewrite <- E. reflexivity.
  - exists r. cbn [append] in *. rewrite <- E. reflexivity.
Qed.

Lemma lstrip_suffix (s : string) : exists a : string, s = a ++ lstrip s.
Proof.
  induction s as [|c s [a E]]; [exists EmptyString; reflexivity|].
  cbn [lstrip]. destruct (is_space c).
  - exists (String c a). cbn [append]. rewrite <- E. reflexivity.
  - exists EmptyString. reflexivity.
Qed.

Lemma contains_false_prefix (t a r : string) :
  contains t (a ++ r) = false -> contains t a = false.
Proof.
  intros H. destruct (contains t a) eqn:E; [|reflexivity].
  rewrite (contains_app_l t a r E) in H. discriminate.
Qed.

Lemma contains_false_suffix (t a s : string) :
  contains t (a ++ s) = false -> contains t s = false.
Proof.
  intros H. destruct (contains t s) eqn:E; [|reflexivity].
  rewrite (contains_app_r t a s E) in H. discriminate.
Qed.

Lemma contains_trans (a b c : string) :
  contains a b = true -> contains b c = true -> contains a c = true.
Proof.
  intros Hab Hbc. destruct (contains_split b c Hbc) as (x & y & ->).
  apply contains_app_r. apply contains_app_l. exact Hab.
Qed.

Lemma startswith_app_l (p a r : string) :
  startswith p a = true -> startswith p (a ++ r) = true.
Proof.
  intros H. destruct (startswith_split p a H) as [x ->].
  rewrite append_assoc. apply startswith_app.
Qed.

Lemma contains_split_head (sep s : string) :
  sep <> EmptyString -> contains sep (split_head sep s) = false.
Proof.
  intros Hsep. induction s as [|c s IH].
  - destruct sep; [contradiction|reflexivity].
  - cbn [split_head]. destruct (startswith sep (String c s)) eqn:E.
    + destruct sep; [contradiction|reflexivity].
    + cbn [contains]. rewrite IH, orb_false_r.
      destruct (startswith sep (String c (split_head sep s))) eqn:E'; [|reflexivity].
      destruct (split_head_prefix sep s) as [r Hr].
      apply (startswith_app_l _ _ r) in E'. cbn [append] in E'. rewrite <- Hr in E'.
      congruence.
Qed.

Lemma clean_prompt_free (prompt : string) :
  contains critical_marker (clean_prompt prompt) = false.
Proof.
  unfold clean_prompt, strip.
  set (x := split_head "CRITICAL:" prompt).
  assert (Hx : contains critical_marker x = false)
    by (apply contains_split_head; discriminate).
  destruct (lstrip_suffix x) as [a Ha]. rewrite Ha in Hx.
  apply contains_false_suffix in Hx.
  destruct (rstrip_prefix (lstrip x)) as [r Hr]. rewrite Hr in Hx.
  apply contains_false_prefix in Hx.
  destruct (take_prefix 1000 (rstrip (lstrip x))) as [r' Hr']. rewrite Hr' in Hx.
  apply contains_false_prefix in Hx. exact Hx.
Qed.

Lemma startswith_false_app (c : ascii) (sep a y : string) :
  char_free c sep = true ->
  startswith sep a = false ->
  startswith sep (a ++ String c y) = false.
Proof.
  revert a. induction sep as [|d sep IH]; intros a Hc Hs.
  - destruct a; discriminate.
  - cbn [char_free] in Hc. apply andb_true_iff in Hc as [Hd Hc].
    destruct a as [|e a]; cbn [append startswith].
    + rewrite Ascii.eqb_sym. apply negb_true_iff in Hd. rewrite Hd. reflexivity.
    + cbn [startswith] in Hs. destruct (Ascii.eqb d e); [|reflexivity].
      cbn [andb] in *. apply IH; assumption.
Qed.

Lemma split_head_here (sep rest : string) :
  sep <> EmptyString -> split_head sep (sep ++ rest) = EmptyString.
Proof.
  intros Hsep. destruct sep as [|d sep]; [contradiction|].
  cbn [append split_head].
  change (String d (sep ++ rest)) with (String d sep ++ rest).
  rewrite startswith_app. reflexivity.
Qed.

Lemma split_head_before (c : ascii) (sep body rest : string) :
  char_free c sep = true ->
  contains sep body = false ->
  split_head sep (body ++ String c (sep ++ rest)) = body ++ String c EmptyString.
Proof.
  intros Hc. induction body as [|d body IH]; intros Hb.
  - assert (Hsep : sep <> EmptyString) by (destruct sep; [discriminate|discriminate]).
    cbn [append split_head].
    assert (Hs : startswith sep (EmptyString ++ String c (sep ++ rest)) = false).
    { apply startswith_false_app; [exact Hc|]. destruct sep; [contradiction|reflexivity]. }
    cbn [append] in Hs. rewrite Hs, split_head_here by exact Hsep. reflexivity.
  - cbn [contains] in Hb. apply orb_false_iff in Hb as [Hs Hb].
    cbn [append split_head].
    assert (Hs' : startswith sep (String d body ++ String c (sep ++ rest)) = false)
      by (apply startswith_false_app; assumption).
    cbn [append] in Hs'. rewrite Hs', (IH Hb). reflexivity.
Qed.

Lemma rstrip_app_space (c : ascii) (y : string) :
  is_space c = true -> rstrip (y ++ String c EmptyString) = rstrip y.
Proof.
  intros Hc. induction y as [|d y IH].
  - cbn [append rstrip]. rewrite Hc. reflexivity.
  - cbn [append rstrip]. rewrite IH. reflexivity.
Qed.

Lemma strip_app_space (c : ascii) (b : string) :
  is_space c = true -> strip (b ++ String c EmptyString) = strip b.
Proof.
  intros Hc. unfold strip. induction b as [|d b IH].
  - cbn [append lstrip rstrip]. rewrite Hc. reflexivity.
  - cbn [append lstrip]. destruct (is_space d); [exact IH|].
    change (String d (b ++ String c EmptyString)) with (String d b ++ String c EmptyString).
    apply rstrip_app_space. exact Hc.
Qed.

Lemma clean_prompt_cut (body rest : string) :
  contains critical_marker body = false ->
  clean_prompt (body ++ String (ascii_of_nat 10) (critical_marker ++ rest))
    = take 1000 (strip body).
Proof.
  intros Hb. unfold clean_prompt.
  change "CRITICAL:" with critical_marker.
  rewrite (split_head_before (ascii_of_nat 10) critical_marker body rest eq_refl Hb).
  rewrite strip_app_space by reflexivity. reflexivity.
Qed.

(** X19. What an image generator is given never contains the marker
    "CRITICAL:", so never the no-text clause that [generate_image_prompts]
    puts at the end of every prompt, and is at most 1000 characters long:
    this holds for every generation request of every run of
    [generate_images]. *)
Theorem generators_never_get_the_no_text_clause (w : env) (prompt : string)
    (rest : list string) (brand_text : option string) (website_text : string)
    (text_size : Z) (s : state) :
  exists (urls : list string) (s' : state) (new : list event),
    generate_images w (Some (prompt :: rest)) brand_text website_text text_size s
      = (Return urls, s') /\
    trace s' = (trace s ++ new)%list /\
    generation_requests new <> [] /\
    forall (pr : provider) (p : string),
      In (pr, p) (generation_requests new) ->
      (String.length p <= 1000)%nat /\
      contains critical_marker p = false /\
      contains critical_clause p = false.
Proof.
  destruct (generate_images_run w no_request prompt rest brand_text website_text text_size s)
    as (primary & secondary & s1 & s2 & s' & urls & new & E1 & E2 & Ep & Eg & Et & Hnew & Hu).
  { intros ev H _. exact H. }
  { intros ts. reflexivity. }
  exists urls, s'. eexists. split; [exact Eg|]. split; [exact Et|].
  assert (Hreq : generation_requests
            ((EvDalle (clean_prompt prompt)
               :: (if not_ primary then [EvReplicate (clean_prompt prompt)] else [])) ++ new)
          = (Dalle, clean_prompt prompt)
              :: (if not_ primary then [(Replicate, clean_prompt prompt)] else [])).
  { unfold generation_requests. rewrite omap_app.
    fold (generation_requests new). rewrite (no_requests new Hnew), app_nil_r.
    destruct (not_ primary); reflexivity. }
  rewrite Hreq. split; [discriminate|].
  assert (Hclean : (String.length (clean_prompt prompt) <= 1000)%nat /\
                   contains critical_marker (clean_prompt prompt) = false /\
                   contains critical_clause (clean_prompt prompt) = false).
  { split; [apply length_take|]. split; [apply clean_prompt_free|].
    destruct (contains critical_clause (clean_prompt prompt)) eqn:E; [|reflexivity].
    rewrite <- (clean_prompt_free prompt). symmetry.
    apply (contains_trans critical_marker critical_clause); [vm_compute; reflexivity|exact E]. }
  intros pr p Hin.
  assert (Hp : p = clean_prompt prompt).
  { destruct (not_ primary); cbn [In] in Hin;
      repeat (destruct Hin as [Hin|Hin]; [injection Hin as _ <-; reflexivity|]);
      destruct Hin. }
  subst p. exact Hclean.
Qed.

(** X20. A prompt made from a template, or written by the chat model,
    reaches the generators without its ending: when the text before the
    ending has no "CRITICAL:" of its own, what is sent is that text,
    stripped and cut to 1000 characters. *)
Theorem prompt_ending_is_cut_before_generation (template title caption body : string) :
  contains critical_marker
    (replace "[CAPTION]" (take 100 caption) (replace "[TITLE]" title template)) = false ->
  contains critical_marker body = false ->
  clean_prompt (template_prompt template title caption)
    = take 1000 (strip (replace "[CAPTION]" (take 100 caption)
                          (replace "[TITLE]" title template))) /\
  clean_prompt (body ++ smart_suffix) = take 1000 (strip body).
Proof.
  intros Ht Hb. split.
  - unfold template_prompt.
    assert (E : exists rest, template_suffix
                  = String (ascii_of_nat 10) (critical_marker ++ rest))
      by (eexists; reflexivity).
    destruct E as [rest ->]. apply clean_prompt_cut. exact Ht.
  - assert (E : exists rest, smart_suffix
                  = String (ascii_of_nat 10) (critical_marker ++ rest))
      by (eexists; reflexivity).
    destruct E as [rest ->]. apply clean_prompt_cut. exact Hb.
Qed.

End CleanPrompt.

Section PipelineMore.

Import PyStr Tools ToolsSpec.

Variable w : env.

(** X21. [upload_to_imgbb] never raises and never touches a file. It
    contacts ImgBB at most once, and not at all without an API key or for
    a path with no file; it returns a URL only when ImgBB answered that
    one request with status 200 and a success body carrying the URL. *)
Theorem upload_to_imgbb_outcome (image_path : string) (s : state) :
  exists (r : option string) (new : list event),
    upload_to_imgbb w image_path s
      = (Return r, State (trace s ++ new) (files s) (images_dir s)) /\
    (new = [] \/ new = [EvImgbbPost image_path]) /\
    (falsy (IMGBB_API_KEY w) || negb (file_present image_path s) = true ->
       new = [] /\ r = None) /\
    (forall url : string,
        r = Some url ->
        new = [EvImgbbPost image_path] /\
        requests_post_imgbb w (length (trace s)) image_path
          = PostResponse 200 (BodySuccess url)).
Proof.
  unfold upload_to_imgbb.
  destruct (falsy (IMGBB_API_KEY w)) eqn:Ek.
  { exists None, []. rewrite app_nil_r. destruct s.
    split; [reflexivity|]. split; [left; reflexivity|].
    split; [intros _; split; reflexivity|discriminate]. }
  unfold try_except, mbind, M_bind, path_exists, emit, raise, mret, M_ret.
  cbn [fst snd trace files images_dir orb].
  destruct (file_present image_path s) eqn:Ef; cbn [negb].
  2:{ exists None, []. rewrite app_nil_r. destruct s.
      split; [reflexivity|]. split; [left; reflexivity|].
      split; [intros _; split; reflexivity|discriminate]. }
  destruct (requests_post_imgbb w (length (trace s)) image_path) as [e|code body] eqn:Ep;
    cbn [fst snd].
  - exists None, [EvImgbbPost image_path].
    split; [reflexivity|]. split; [right; reflexivity|]. split; discriminate.
  - destruct (Z.eqb_spec code 200) as [->|Hc].
    + destruct body as [| |url]; cbn [fst snd].
      * exists None, [EvImgbbPost image_path].
        split; [reflexivity|]. split; [right; reflexivity|]. split; discriminate.
      * exists None, [EvImgbbPost image_path].
        split; [reflexivity|]. split; [right; reflexivity|]. split; discriminate.
      * exists (Some url), [EvImgbbPost image_path].
        split; [reflexivity|]. split; [right; reflexivity|]. split; [discriminate|].
        intros u Hu. injection Hu as <-. split; reflexivity.
    + exists None, [EvImgbbPost image_path].
      split; [reflexivity|]. split; [right; reflexivity|]. split; discriminate.
Qed.

Lemma smart_prompt_trace (title caption : string) (s : state) :
  exists prompt : string,
    smart_prompt w title caption s
      = (Return prompt,
         State (trace s ++ [EvChat (ChatRequest (ai_prompt title caption) false (Some 200%nat))])
           (files s) (images_dir s)).
Proof.
  unfold smart_prompt, try_except, chat, mbind, M_bind, mret, M_ret, emit, raise.
  cbn [fst snd trace files images_dir].
  destruct (chat_completions_create w (length (trace s))
              (ChatRequest (ai_prompt title caption) false (Some 200%nat))) as [e|[text|]];
    cbn [fst snd]; eexists; reflexivity.
Qed.

Lemma image_prompts_loop_trace (template : option string) (posts : list post) (s : state) :
  exists prompts : list string,
    image_prompts_loop w posts template s
      = (Return prompts,
         State (trace s ++ (if not_ template
                            then map prompt_request (List.filter titled posts) else []))
           (files s) (images_dir s)) /\
    length prompts = length (List.filter titled posts).
Proof.
  revert s. induction posts as [|p rest IH]; intros s.
  - exists []. cbn [image_prompts_loop List.filter map].
    destruct (not_ template); rewrite app_nil_r; destruct s; split; reflexivity.
  - cbn [image_prompts_loop List.filter].
    change (titled p) with (negb (falsy (get_or_empty (post_title p)))).
    destruct (falsy (get_or_empty (post_title p))) eqn:Ef; cbn [negb].
    + apply IH.
    + unfold mbind at 1, M_bind at 1.
      destruct (not_ template) eqn:Et.
      * destruct (smart_prompt_trace (get_or_empty (post_title p))
                    (get_or_empty (post_caption p)) s) as (prompt & E1).
        rewrite E1. unfold mbind at 1, M_bind at 1.
        match goal with |- context [image_prompts_loop w rest template ?s1] =>
          destruct (IH s1) as (prompts & E2 & Hl) end.
        rewrite E2. exists (prompt :: prompts). cbn [trace files images_dir map length].
        rewrite <- app_assoc. split; [reflexivity|]. rewrite Hl. reflexivity.
      * unfold mret at 1, M_ret at 1. unfold mbind at 1, M_bind at 1.
        destruct (IH s) as (prompts & E2 & Hl). rewrite E2.
        eexists (_ :: prompts). split; [reflexivity|]. cbn [length]. rewrite Hl. reflexivity.
Qed.

Lemma upload_to_imgbb_no_key (p : string) :
  falsy (IMGBB_API_KEY w) = true -> upload_to_imgbb w p = mret None.
Proof. intros Hk. unfold upload_to_imgbb. rewrite Hk. reflexivity. Qed.

Lemma only_rehost_no_key (url : string) :
  falsy (IMGBB_API_KEY w) = true ->
  only no_overlay_no_upload (upload_image_directly w url).
Proof.
  intros Hk. unfold upload_image_directly.
  apply only_try_except; [|intros; apply only_mret].
  apply only_bind; [apply only_emit; exact I|].
  intros n. destruct (requests_get w n url) as [e|body]; [apply only_raise|].
  apply only_bind; [apply only_now_timestamp|]. intros ts.
  apply only_bind; [apply only_ensure_images_dir; exact I|]. intros _.
  apply only_bind; [apply only_write_path; exact I|]. intros _.
  rewrite (upload_to_imgbb_no_key _ Hk).
  apply only_bind; [apply only_mret|]. intros r.
  apply only_bind; [|intros; apply only_mret].
  apply only_try_except; [apply only_os_remove; exact I|intros; apply only_mret].
Qed.

Lemma rehost_no_key (url : string) (s : state) :
  falsy (IMGBB_API_KEY w) = true ->
  fst (upload_image_directly w url s) = Return None.
Proof.
  intros Hk. unfold upload_image_directly. unfold try_except at 1.
  match goal with |- context [match ?m s with _ => _ end] =>
    assert (Hm : forall a, fst (m s) = Return a -> a = None); [|destruct (m s) as [[a|e] s1]] end.
  - intros a. unfold mbind at 1, M_bind at 1. unfold emit at 1. cbn [fst snd].
    destruct (requests_get w (length (trace s)) url) as [e|body]; [discriminate|].
    unfold mbind at 1, M_bind at 1. unfold now_timestamp at 1.
    unfold mbind at 1, M_bind at 1.
    match goal with |- context [ensure_images_dir w ?x] =>
      destruct (ensure_images_dir w x) as [[[]|e] s2] end; [|discriminate].
    unfold mbind at 1, M_bind at 1.
    match goal with |- context [write_path w ?p ?x] =>
      destruct (write_path w p x) as [[[]|e] s3] end; [|discriminate].
    rewrite (upload_to_imgbb_no_key _ Hk).
    unfold mbind at 1, M_bind at 1. unfold mret at 1, M_ret at 1.
    unfold mbind at 1, M_bind at 1.
    match goal with |- context [try_except ?m ?h ?x] =>
      destruct (try_except m h x) as [[[]|e] s4] end; [|discriminate].
    intros H. injection H as <-. reflexivity.
  - cbn [fst]. rewrite (Hm a eq_refl). reflexivity.
  - reflexivity.
Qed.

(** X23. Without an ImgBB API key no brand text is ever put on an
    image, whatever [brand_text] is: a run of [generate_images] renders no
    overlay and sends nothing to ImgBB, and the URL it returns is the one
    the generator gave. *)
Theorem no_api_key_no_overlay (prompt : string) (rest : list string)
    (brand_text : option string) (website_text : string) (text_size : Z) (s : state) :
  falsy (IMGBB_API_KEY w) = true ->
  exists (clean_url : option string) (urls : list string) (s' : state) (new : list event),
    fst (produce_clean_url w prompt s) = Return clean_url /\
    generate_images w (Some (prompt :: rest)) brand_text website_text text_size s
      = (Return urls, s') /\
    urls = (if not_ clean_url then [] else [get_or_empty clean_url]) /\
    trace s' = (trace s ++ new)%list /\
    Forall no_overlay_no_upload new.
Proof.
  intros Hk.
  destruct (produce_clean_url_run w prompt s)
    as (primary & secondary & s1 & s2 & E1 & E2 & Ep & Et).
  set (cu := if not_ primary then secondary else primary) in *.
  set (sp := if not_ primary then s2 else s1) in *.
  exists cu. rewrite generate_images_unfold. unfold try_except, mbind at 1, M_bind at 1.
  rewrite Ep. cbn [fst]. unfold after_generation.
  assert (Hgen : Forall no_overlay_no_upload
            (EvDalle (clean_prompt prompt)
               :: (if not_ primary then [EvReplicate (clean_prompt prompt)] else [])))
    by (destruct (not_ primary); repeat constructor).
  destruct (not_ cu) eqn:En.
  - eexists _, _, _. split; [reflexivity|]. split; [reflexivity|]. split; [reflexivity|].
    split; [exact Et|exact Hgen].
  - pose proof (rehost_no_key (get_or_empty cu) sp Hk) as Hr.
    destruct (only_rehost_no_key (get_or_empty cu) Hk sp) as (n1 & Hn1 & Hf1).
    unfold mbind, M_bind.
    destruct (upload_image_directly w (get_or_empty cu) sp) as [o s3].
    cbn [fst snd] in Hr, Hn1. subst o.
    cbn [not_ negb andb]. rewrite andb_false_r.
    unfold mret, M_ret, emit. cbn [fst snd trace].
    eexists _, _, _. split; [reflexivity|]. split; [reflexivity|].
    split; [destruct (falsy (get_or_empty cu)); reflexivity|].
    split.
    + rewrite Hn1, Et, <- !app_assoc. reflexivity.
    + apply Forall_app. split; [exact Hgen|].
      apply Forall_app. split; [exact Hf1|repeat constructor].
Qed.

End PipelineMore.

Section DynamicPosts.

Import PyStr Tools ToolsSpec.

Variable float_truthy : string -> bool.
Variable py_repr : json -> string.
Variable dict_slice_error : exn.
Variable w : env.

Lemma fallback_with_text (title caption : string) :
  Dyn.fallback_with title (take 100 caption) = fallback_text title caption.
Proof. reflexivity. Qed.

Lemma get_title_post_json (p : post) :
  Dyn.get "title" (JStr EmptyString) (Dyn.post_json p)
    = Return (JStr (get_or_empty (post_title p))).
Proof. destruct p as [[t|] [c|] [h|]]; reflexivity. Qed.

Lemma get_caption_post_json (p : post) :
  Dyn.get "caption" (JStr EmptyString) (Dyn.post_json p)
    = Return (JStr (get_or_empty (post_caption p))).
Proof. destruct p as [[t|] [c|] [h|]]; reflexivity. Qed.

Lemma smart_on_text (title caption : string) (prompts : list string) (s : state) :
  Dyn.smart py_repr dict_slice_error w (JStr title) (JStr caption) prompts s
    = match smart_prompt w title caption s with
      | (Return prompt, s') => (Return (prompts ++ [prompt])%list, s')
      | (Raise e, s') => (Raise e, s')
      end.
Proof.
  unfold Dyn.smart, Dyn.fallback, smart_prompt, try_except, chat, mbind, M_bind, mret, M_ret,
    emit, raise, Dyn.appended, fallback_prompt.
  cbn [fst snd trace files images_dir Dyn.slice Dyn.format].
  rewrite fallback_with_text.
  destruct (chat_completions_create w (length (trace s))
              (ChatRequest (ai_prompt title caption) false (Some 200%nat))) as [e|[text|]];
    reflexivity.
Qed.

Lemma from_template_on_text (template title caption : string) (prompts : list string)
    (s : state) :
  Dyn.from_template dict_slice_error template (JStr title) (JStr caption) prompts s
    = (Return (prompts ++ [template_prompt template title caption])%list, s).
Proof. reflexivity. Qed.

(** The loop on a list that starts with posts of text fields: it does on
    them what the loop over typed posts does, then goes on. *)
Lemma loop_text_posts (template : option string) (good : list post) (tail : list json)
    (prompts : list string) (s : state) :
  Dyn.loop float_truthy py_repr dict_slice_error w
    (map Dyn.post_json good ++ tail)%list template prompts s
  = match image_prompts_loop w good template s with
    | (Return made, s') =>
        Dyn.loop float_truthy py_repr dict_slice_error w tail template
          (prompts ++ made)%list s'
    | (Raise e, s') => (Raise e, s')
    end.
Proof.
  revert prompts s. induction good as [|p good IH]; intros prompts s.
  - cbn [map app image_prompts_loop]. unfold mret, M_ret. rewrite app_nil_r. reflexivity.
  - cbn [map app Dyn.loop image_prompts_loop].
    rewrite get_title_post_json, get_caption_post_json. cbn [Dyn.truthy].
    destruct (falsy (get_or_empty (post_title p))) eqn:Ef; cbn [negb]; [apply IH|].
    unfold mbind, M_bind.
    destruct (not_ template) eqn:Et.
    + rewrite smart_on_text.
      destruct (smart_prompt_trace w (get_or_empty (post_title p))
                  (get_or_empty (post_caption p)) s) as (prompt & E1).
      rewrite E1. rewrite IH.
      destruct (image_prompts_loop w good template _) as [[made|e] s'];
        [|reflexivity].
      unfold mret, M_ret. rewrite <- app_assoc. reflexivity.
    + rewrite from_template_on_text. unfold mret at 1, M_ret at 1. rewrite IH.
      destruct (image_prompts_loop w good template s) as [[made|e] s'];
        [|reflexivity].
      unfold mret, M_ret. rewrite <- app_assoc. reflexivity.
Qed.

Lemma getitem_posts (members : list (string * json)) (v : json) :
  py_getitem "posts" (JObj members) = Return v ->
  Dyn.truthy float_truthy (JObj members) = true /\ py_in "posts" (JObj members) = Return true.
Proof.
  cbn [py_getitem py_in Dyn.truthy].
  destruct (find (fun kv => String.eqb "posts" (fst kv)) members) as [kv|] eqn:Ef;
    [|discriminate].
  intros _. split.
  - destruct members; [discriminate Ef|reflexivity].
  - f_equal. apply existsb_exists. apply find_some in Ef. exists kv. exact Ef.
Qed.

Lemma generate_image_prompts_items (members : list (string * json)) (items : list json)
    (template : option string) (s : state) :
  py_getitem "posts" (JObj members) = Return (JArr items) ->
  Dyn.generate_image_prompts float_truthy py_repr dict_slice_error w (JObj members) template s
    = Dyn.loop float_truthy py_repr dict_slice_error w items template [] s.
Proof.
  intros H. destruct (getitem_posts members _ H) as [Ht Hi].
  unfold Dyn.generate_image_prompts. rewrite Ht, Hi, H. reflexivity.
Qed.


Lemma get_not_an_object (key : string) (default p : json) :
  (forall members, p <> JObj members) -> Dyn.get key default p = Raise AttributeError.
Proof. intros H. destruct p; try reflexivity. exfalso. eapply H. reflexivity. Qed.

(** X27. [generate_image_prompts] on a reply whose ["posts"] entry is
    not a list of objects. An entry of the list that is not an object
    makes it raise [AttributeError] when the loop gets there, after the
    chat requests for the posts before it, and the prompts made so far are
    lost. A ["posts"] entry that is itself a non-empty object or string is
    walked by its keys or characters, so the first step raises
    [AttributeError]; an empty one gives no prompt; a number, a boolean or
    null raises [TypeError]. *)
Theorem image_prompts_on_other_shapes (members : list (string * json)) (good : list post)
    (p : json) (rest : list json) (template : option string) (s : state) :
  py_getitem "posts" (JObj members)
    = Return (JArr (map Dyn.post_json good ++ p :: rest)%list) ->
  (forall m, p <> JObj m) ->
  Dyn.generate_image_prompts float_truthy py_repr dict_slice_error w (JObj members)
    template s
    = (Raise AttributeError,
       State (trace s ++ (if not_ template
                          then map prompt_request (List.filter titled good)
                          else []))
         (files s) (images_dir s)) /\
  (forall (others : list (string * json)) (v : json),
      py_getitem "posts" (JObj others) = Return v ->
      match v with
      | JArr _ => True
      | JObj (_ :: _) | JStr (String _ _) =>
          Dyn.generate_image_prompts float_truthy py_repr dict_slice_error w (JObj others)
            template s = (Raise AttributeError, s)
      | JObj [] | JStr EmptyString =>
          Dyn.generate_image_prompts float_truthy py_repr dict_slice_error w (JObj others)
            template s = (Return [], s)
      | _ =>
          Dyn.generate_image_prompts float_truthy py_repr dict_slice_error w (JObj others)
            template s = (Raise TypeError, s)
      end).
Proof.
  intros H Hp. split.
  - rewrite (generate_image_prompts_items members _ template s H).
    rewrite loop_text_posts.
    destruct (image_prompts_loop_trace w template good s) as (made & E & _). rewrite E.
    cbn [Dyn.loop]. rewrite (get_not_an_object _ _ p Hp). reflexivity.
  - intros others v Hv. destruct (getitem_posts others _ Hv) as [Ht Hi].
    unfold Dyn.generate_image_prompts. rewrite Ht, Hi, Hv. cbn [negb].
    destruct v as [|b|n|l|str|items|ms]; try reflexivity; try exact I.
    + destruct str; reflexivity.
    + destruct ms as [|[k x] ms]; reflexivity.
Qed.

(** X28. A post with a title and a caption that is not a string (null,
    a number, a list, an object), at the point where the loop gets to it.
    With a template the function raises: it cannot cut or substitute the
    caption. Without a template the caption goes into the chat request as
    Python prints it, and when the service replies with a text the post
    gets its prompt and the loop goes on; when the service fails, the
    fallback prompt needs [caption[:100]], which works for a list only,
    and raises otherwise. *)
Theorem image_prompts_caption_not_a_string (p : json) (rest : list json) (title : string)
    (caption : json) (template : option string) (prompts : list string) (s : state) :
  Dyn.get "title" (JStr EmptyString) p = Return (JStr title) ->
  title <> EmptyString ->
  Dyn.get "caption" (JStr EmptyString) p = Return caption ->
  (forall c, caption <> JStr c) ->
  Dyn.loop float_truthy py_repr dict_slice_error w (p :: rest) template prompts s =
    if not_ template then
      match chat_completions_create w (length (trace s))
              (ChatRequest (ai_prompt title (py_repr caption)) false (Some 200%nat)) with
      | ChatReply (Some text) =>
          Dyn.loop float_truthy py_repr dict_slice_error w rest template
            (Dyn.appended prompts (strip text ++ smart_suffix))
            (State (trace s ++ [EvChat (ChatRequest (ai_prompt title (py_repr caption))
                                          false (Some 200%nat))])
               (files s) (images_dir s))
      | _ =>
          match caption with
          | JArr items =>
              Dyn.loop float_truthy py_repr dict_slice_error w rest template
                (Dyn.appended prompts
                   (strip (Dyn.fallback_with title (py_repr (JArr (firstn 100 items))))))
                (State (trace s ++ [EvChat (ChatRequest (ai_prompt title (py_repr caption))
                                              false (Some 200%nat))])
                   (files s) (images_dir s))
          | JObj _ =>
              (Raise dict_slice_error,
               State (trace s ++ [EvChat (ChatRequest (ai_prompt title (py_repr caption))
                                            false (Some 200%nat))])
                 (files s) (images_dir s))
          | _ =>
              (Raise TypeError,
               State (trace s ++ [EvChat (ChatRequest (ai_prompt title (py_repr caption))
                                            false (Some 200%nat))])
                 (files s) (images_dir s))
          end
      end
    else
      (Raise match caption with JObj _ => dict_slice_error | _ => TypeError end, s).
Proof.
  intros Ht Hne Hc Hcap. cbn [Dyn.loop]. rewrite Ht, Hc. cbn [Dyn.truthy].
  assert (Hf : falsy title = false) by (destruct title; [contradiction|reflexivity]).
  rewrite Hf. cbn [negb]. unfold mbind, M_bind.
  assert (Hfmt : Dyn.format py_repr caption = py_repr caption).
  { destruct caption; try reflexivity. exfalso. eapply Hcap. reflexivity. }
  destruct (not_ template).
  - unfold Dyn.smart, Dyn.fallback, chat, mbind, M_bind, mret, M_ret, emit, raise,
      Dyn.appended.
    cbn [fst snd trace files images_dir Dyn.slice Dyn.format]. rewrite Hfmt.
    destruct (chat_completions_create w (length (trace s))
                (ChatRequest (ai_prompt title (py_repr caption)) false (Some 200%nat)))
      as [e|[text|]]; cbn [fst snd];
      destruct caption as [|b|n|l|c|items|ms]; try reflexivity;
      exfalso; eapply Hcap; reflexivity.
  - unfold Dyn.from_template, raise. cbn [Dyn.slice Dyn.as_str].
    destruct caption as [|b|n|l|c|items|ms]; try reflexivity.
    exfalso; eapply Hcap; reflexivity.
Qed.

(** X29. A post whose title is truthy but not a string (a number,
    [true], a list, an object), with a caption that is a string. With a
    template the function raises. Without one the title goes into the chat
    request as Python prints it. For a list that is all; for the other
    values the [print] of [title[:50]] raises inside the [try], after the
    prompt of a successful reply has joined the list, and the handler adds
    the fallback prompt too: such a post gets two prompts. When the
    service fails the post gets the fallback prompt alone. *)
Theorem image_prompts_title_not_a_string (p : json) (rest : list json) (title : json)
    (caption : string) (template : option string) (prompts : list string) (s : state) :
  Dyn.get "title" (JStr EmptyString) p = Return title ->
  Dyn.truthy float_truthy title = true ->
  (forall t, title <> JStr t) ->
  Dyn.get "caption" (JStr EmptyString) p = Return (JStr caption) ->
  Dyn.loop float_truthy py_repr dict_slice_error w (p :: rest) template prompts s =
    if not_ template then
      Dyn.loop float_truthy py_repr dict_slice_error w rest template
        (prompts ++
           match chat_completions_create w (length (trace s))
                   (ChatRequest (ai_prompt (py_repr title) caption) false (Some 200%nat)) with
           | ChatReply (Some text) =>
               match title with
               | JArr _ => [(strip text ++ smart_suffix)%string]
               | _ => [(strip text ++ smart_suffix)%string;
                       strip (Dyn.fallback_with (py_repr title) (take 100 caption))]
               end
           | _ => [strip (Dyn.fallback_with (py_repr title) (take 100 caption))]
           end)%list
        (State (trace s ++ [EvChat (ChatRequest (ai_prompt (py_repr title) caption)
                                      false (Some 200%nat))])
           (files s) (images_dir s))
    else
      (Raise match title with JObj _ => dict_slice_error | _ => TypeError end, s).
Proof.
  intros Ht Htruthy Hne Hc. cbn [Dyn.loop]. rewrite Ht, Hc, Htruthy. cbn [negb].
  unfold mbind, M_bind.
  assert (Hfmt : Dyn.format py_repr title = py_repr title).
  { destruct title; try reflexivity. exfalso. eapply Hne. reflexivity. }
  destruct (not_ template).
  - unfold Dyn.smart, Dyn.fallback, chat, mbind, M_bind, mret, M_ret, emit, raise,
      Dyn.appended.
    cbn [fst snd trace files images_dir Dyn.slice Dyn.format]. rewrite Hfmt.
    destruct (chat_completions_create w (length (trace s))
                (ChatRequest (ai_prompt (py_repr title) caption) false (Some 200%nat)))
      as [e|[text|]]; cbn [fst snd];
      destruct title as [|b|n|l|c|items|ms]; cbn [Dyn.slice];
      rewrite <- ?app_assoc; try reflexivity;
      try discriminate Htruthy; exfalso; eapply Hne; reflexivity.
  - unfold Dyn.from_template, raise. cbn [Dyn.slice Dyn.as_str].
    destruct title as [|b|n|l|c|items|ms]; try reflexivity;
      try discriminate Htruthy.
    exfalso; eapply Hne; reflexivity.
Qed.

End DynamicPosts.

Section ReelsAndWebhook.

Import PyStr Tools.

(** X24. [generate_reels_script] raises [ValueError] for a blank topic
    before it asks anything. Otherwise it sends one chat request in JSON
    mode and touches no file; it returns the decoded reply exactly when
    the reply has a text that is not blank, decodes, and has
    ["reel_script"] in it: the hook, the scenes and the call to action
    are not looked at. A reply that decodes to something without that key
    gives [ValueError]. *)
Theorem generate_reels_script_outcome (w : env) (json_loads : string -> option json)
    (topic : string) (s : state) :
  (falsy topic || falsy (strip topic) = true ->
     Reels.generate_reels_script w json_loads topic s
       = (Raise (ValueError "Topic cannot be empty"), s)) /\
  (falsy topic || falsy (strip topic) = false ->
     exists o : outcome json,
       Reels.generate_reels_script w json_loads topic s
         = (o, State (trace s ++ [EvChat (ChatRequest (Reels.reels_prompt topic) true None)])
                 (files s) (images_dir s)) /\
       (forall result : json,
           o = Return result <->
           exists text : string,
             chat_completions_create w (length (trace s))
               (ChatRequest (Reels.reels_prompt topic) true None) = ChatReply (Some text) /\
             falsy (strip text) = false /\
             json_loads (strip text) = Some result /\
             py_in "reel_script" result = Return true) /\
       (forall (text : string) (r : json),
           chat_completions_create w (length (trace s))
             (ChatRequest (Reels.reels_prompt topic) true None) = ChatReply (Some text) ->
           falsy (strip text) = false ->
           json_loads (strip text) = Some r ->
           py_in "reel_script" r = Return false ->
           o = Raise (ValueError "Invalid reel script response structure"))).
Proof.
  split; intros Hb; unfold Reels.generate_reels_script; rewrite Hb; [reflexivity|].
  set (req := ChatRequest (Reels.reels_prompt topic) true None).
  unfold try_except, chat, mbind, M_bind, mret, M_ret, emit, raise.
  cbn [fst snd trace files images_dir].
  destruct (chat_completions_create w (length (trace s)) req) as [e|[text|]] eqn:Er;
    cbn [fst snd].
  - eexists. split; [reflexivity|]. split.
    + intros result. split; [discriminate|]. intros (t & H & _). discriminate.
    + intros t r H. discriminate.
  - destruct (falsy (strip text)) eqn:Ef; cbn [fst snd].
    { eexists. split; [reflexivity|]. split.
      - intros result. split; [discriminate|]. intros (t & H & Hf & _).
        injection H as <-. congruence.
      - intros t r H Hf. injection H as <-. congruence. }
    destruct (json_loads (strip text)) as [r|] eqn:El; cbn [fst snd].
    2:{ eexists. split; [reflexivity|]. split.
        - intros result. split; [discriminate|]. intros (t & H & _ & Hl & _).
          injection H as <-. congruence.
        - intros t r H _ Hl. injection H as <-. congruence. }
    destruct (py_in "reel_script" r) as [[|]|e] eqn:Ei; cbn [fst snd].
    + eexists. split; [reflexivity|]. split.
      * intros result. split.
        -- intros H. injection H as <-. exists text. repeat (apply conj); auto.
        -- intros (t & H & _ & Hl & _). injection H as <-. congruence.
      * intros t r' H _ Hl Hi. injection H as <-. congruence.
    + eexists. split; [reflexivity|]. split.
      * intros result. split; [discriminate|]. intros (t & H & _ & Hl & Hi).
        injection H as <-. congruence.
      * intros t r' H _ Hl Hi. reflexivity.
    + eexists. split; [reflexivity|]. split.
      * intros result. split; [discriminate|]. intros (t & H & _ & Hl & Hi).
        injection H as <-. congruence.
      * intros t r' H _ Hl Hi. injection H as <-. congruence.
  - eexists. split; [reflexivity|]. split.
    + intros result. split; [discriminate|]. intros (t & H & _). discriminate.
    + intros t r H. discriminate.
Qed.

Import Zapier.

(** X26. Without posts [send_to_zapier] raises [ValueError] and sends
    nothing to the webhook; the HEAD request that tests the image URL has
    been made by then, when the first image URL is a web address. *)
Theorem send_to_zapier_without_posts (w : Zapier.env) (p : payload) (tr : list event) :
  payload_posts p = None \/ payload_posts p = Some [] ->
  fst (send_to_zapier w p tr) = Raise (ValueError "No posts available to send to Zapier") /\
  (forall (url : string) (l : list string),
      image_urls p = Some (url :: l) ->
      startswith "http://" url || startswith "https://" url = true ->
      snd (send_to_zapier w p tr) = (tr ++ [EvHead url])%list) /\
  (forall (url : string) (body : zapier_payload),
      ~ In (EvPost url body) tr ->
      ~ In (EvPost url body) (snd (send_to_zapier w p tr))).
Proof.
  intros Hp. unfold send_to_zapier.
  destruct (pick_image_url w p tr) as [iu tr1] eqn:Epick.
  assert (Htr : tr1 = tr \/ exists url, tr1 = (tr ++ [EvHead url])%list).
  { revert Epick. unfold pick_image_url.
    destruct (image_urls p) as [[|first l]|]; try (intros H; injection H as _ <-; left; reflexivity).
    destruct (negb (falsy first) && (startswith "http://" first || startswith "https://" first));
      [destruct (requests_head w _ _)|];
      intros H; injection H as _ <-;
      [right; eexists; reflexivity|right; eexists; reflexivity|left; reflexivity]. }
  assert (Hurl : forall (url : string) (l : list string),
             image_urls p = Some (url :: l) ->
             startswith "http://" url || startswith "https://" url = true ->
             tr1 = (tr ++ [EvHead url])%list).
  { intros url l Hi Hs. revert Epick. unfold pick_image_url. rewrite Hi, Hs.
    destruct url; [discriminate Hs|]. cbn [falsy negb andb].
    destruct (requests_head w _ _); intros H; injection H as _ <-; reflexivity. }
  destruct Hp as [Hp|Hp]; rewrite Hp; cbn [fst snd];
    (split; [reflexivity|]); (split; [exact Hurl|]);
    intros url body Hn Hin;
    (destruct Htr as [->|[u ->]]; [exact (Hn Hin)|]);
    apply in_app_or in Hin; destruct Hin as [Hin|[Hin|[]]];
    [exact (Hn Hin)|discriminate|exact (Hn Hin)|discriminate].
Qed.

End ReelsAndWebhook.

Section WebhookAnyPayload.

Import PyStr Tools ZapierDyn.

Variable float_truthy : string -> bool.
Variable w : env.



(** X30. [send_to_zapier] on a payload whose ["posts"] entry is not a
    non-empty list, once the image step has returned. A value that is not
    truthy (absent, null, an empty list, string or object, zero) gives
    [ValueError("No posts available to send to Zapier")]. A non-empty
    string gives [AttributeError] (its first character has no [get]), a
    non-empty object [KeyError] (it has no key 0), a number or [true]
    [TypeError] (it has no length). In no case is anything posted. *)
Theorem send_to_zapier_on_other_posts (payload posts : json) (tr tr1 : list event)
    (picked : option string) :
  pick_image_url float_truthy w payload tr = (Return picked, tr1) ->
  Dyn.get "posts" JNull payload = Return posts ->
  if negb (Dyn.truthy float_truthy posts)
  then send_to_zapier float_truthy w payload tr
         = (Raise (ValueError "No posts available to send to Zapier"), tr1)
  else
    match posts with
    | JArr _ => True
    | JStr _ => send_to_zapier float_truthy w payload tr = (Raise AttributeError, tr1)
    | JObj _ => send_to_zapier float_truthy w payload tr = (Raise KeyError, tr1)
    | _ => send_to_zapier float_truthy w payload tr = (Raise TypeError, tr1)
    end.
Proof.
  intros Hpick Hposts. unfold send_to_zapier. rewrite Hpick, Hposts.
  assert (Htopic : exists tp, Dyn.get "topic" (JStr EmptyString) payload = Return tp).
  { destruct payload; try discriminate Hposts. cbn [Dyn.get].
    destruct (find _ _); eexists; reflexivity. }
  destruct Htopic as [tp Htopic].
  destruct (Dyn.truthy float_truthy posts) eqn:Ht; cbn [negb]; [|reflexivity].
  destruct posts as [|b|n|l|str|items|ms]; try reflexivity; try exact I.
  destruct str as [|c str]; [discriminate Ht|].
  cbn [py_len Dyn.first_item]. unfold build_payload. rewrite Htopic. reflexivity.
Qed.

End WebhookAnyPayload.

(** * The further properties at concrete inputs *)

Section StoreExamples.

Import PyStr Samples MoreSamples Auth AuthSpec AuthUI ReLang.

(** X1 at a name that ends with a line feed, on a fresh store. *)
Lemma create_user_line_feed_name :
  fst (create_user toy_hash toy_clock line_feed_name "secret1" "eve@x.com" "user" fresh_store)
    = Return (true, "User created successfully") <->
  exists body t : string,
    line_feed_name = body ++ t /\ body <> EmptyString /\
    all_chars username_char body = true /\ dollar_tail t.
Proof.
  apply (create_user_username_shape toy_hash toy_clock fresh_store line_feed_name
           "secret1" "eve@x.com" "user"); vm_compute; reflexivity.
Defined.

(** X3 at alice. *)
Lemma deactivated_alice_cannot_login :
  exists s1 : state,
    update_user toy_hash "alice" None None (Some false) None alice_store
      = (Return (true, "User updated successfully"), s1) /\
    content (store s1) = Some (Valid (users s1)) /\
    users s1 !! "alice" = Some (set_active false alice_account) /\
    forall q : string,
      authenticate toy_hash toy_clock "alice" q s1
        = (Return (false, "Account is deactivated", None), s1).
Proof.
  apply (deactivated_account_cannot_login toy_hash toy_clock alice_store "alice" alice_account);
    vm_compute; reflexivity.
Defined.

(** X4 at alice. *)
Lemma deleted_alice_is_gone :
  exists s1 : state,
    delete_user "alice" alice_store = (Return (true, "User '" ++ "alice" ++ "' deleted"), s1) /\
    users s1 !! "alice" = None /\
    (forall v : string, v <> "alice" -> users s1 !! v = users alice_store !! v) /\
    content (store s1) = Some (Valid (users s1)) /\
    (forall q : string,
        authenticate toy_hash toy_clock "alice" q s1
          = (Return (false, "User not found", None), s1)) /\
    delete_user "alice" s1 = (Return (false, "User not found"), s1).
Proof.
  apply (deleted_user_is_gone toy_hash toy_clock alice_store "alice" alice_account);
    vm_compute; reflexivity.
Defined.

(** X5 at the update of alice with a password that is too short. *)
Lemma failed_update_of_alice :
  alice_after_failed_update = alice_store \/
  exists (u : string) (e r : option string) (a : option bool) (p : string),
    short_password_update = Update u e r a (Some p) /\ (String.length p < 6)%nat /\
    email_passes e = true /\ is_Some (users alice_store !! u) /\
    store alice_after_failed_update = store alice_store /\
    ticks alice_after_failed_update = ticks alice_store.
Proof.
  apply (failed_operations_change_nothing toy_hash toy_clock short_password_update
           alice_store alice_after_failed_update).
  vm_compute. reflexivity.
Defined.

(** X6 at alice and a new password of nine characters. *)
Lemma alice_new_password_takes_effect :
  exists s1 s2 : state,
    update_user toy_hash "alice" None None None (Some "newsecret") alice_store
      = (Return (true, "User updated successfully"), s1) /\
    users s1 !! "alice" = Some (set_password (toy_hash "newsecret") alice_account) /\
    authenticate toy_hash toy_clock "alice" "newsecret" s1
      = (Return (true, "Login successful", Some (role alice_account)), s2) /\
    (last_login <$> users s2 !! "alice") = Some (Some (toy_clock (ticks alice_store))) /\
    forall old : string,
      toy_hash old <> toy_hash "newsecret" ->
      authenticate toy_hash toy_clock "alice" old s1
        = (Return (false, "Invalid password", None), s1).
Proof.
  apply (new_password_takes_effect toy_hash toy_clock alice_store "alice" alice_account
           "newsecret"); [vm_compute; reflexivity..|cbn; lia].
Defined.

(** X7 at the creation of alice. *)
Lemma alice_store_reloads :
  _load_users (store alice_store) = Return (users alice_store) /\
  UserDatabase_init alice_store = (Return tt, alice_store).
Proof.
  apply (saved_store_reloads toy_hash toy_clock
           (Create "alice" "secret1" "alice@x.com" "user") fresh_store alice_store).
  vm_compute. reflexivity.
Defined.

(** X8 at alice: a failed update to the role admin, then a login. *)
Lemma alice_role_saved_by_login :
  exists (s1 s2 : state) (a2 : account),
    update_user toy_hash "alice" None (Some "admin") None (Some "abc") alice_store
      = (Return (false, "Password must be at least 6 characters"), s1) /\
    store s1 = store alice_store /\
    authenticate toy_hash toy_clock "alice" "secret1" s1
      = (Return (true, "Login successful", Some "admin"), s2) /\
    content (store s2) = Some (Valid (users s2)) /\
    users s2 !! "alice" = Some a2 /\ role a2 = "admin".
Proof.
  apply (failed_update_saved_by_next_login toy_hash toy_clock alice_store "alice"
           alice_account "secret1" "admin" "abc"); [vm_compute; reflexivity..|cbn; lia].
Defined.

(** X10 at the failed update of alice. *)
Lemma alice_store_stays_well_formed :
  well_formed (users (snd (run_mutation toy_hash toy_clock short_password_update alice_store))).
Proof.
  apply (mutations_keep_store_well_formed toy_hash toy_clock short_password_update alice_store).
  intros u a H.
  assert (E : users alice_store = <["alice" := alice_account]> ∅) by (vm_compute; reflexivity).
  rewrite E in H. apply lookup_insert_Some in H.
  destruct H as [[<- <-]|[_ H]]; [vm_compute; split; reflexivity|].
  rewrite lookup_empty in H. discriminate.
Defined.

(** X12 at the sign-up of carol. *)
Lemma signup_form_carol :
  (3 <= String.length "carol")%nat /\ (6 <= String.length "secret9")%nat /\
  "secret9" = "secret9" /\ true = true /\
  users alice_store !! "carol" = None /\
  users carol_signed_up !! "carol"
    = Some (Account (toy_hash "secret9") "carol@x.com" "user" (toy_clock (ticks alice_store))
              None true) /\
  content (store carol_signed_up) = Some (Valid (users carol_signed_up)).
Proof.
  apply (signup_form_success toy_hash toy_clock "carol" "carol@x.com" "secret9" "secret9" true
           alice_store carol_signed_up
           "User created successfully You can now login as user.").
  vm_compute. reflexivity.
Defined.

(** X15 at alice, a plain user, before a page for admins. *)
Lemma require_admin_after_alice_login :
  require_auth (Some "admin") alice_session =
    (if truthy_role (Some "admin")
        && negb (same_role (Some (role alice_account)) (Some "admin"))
     then AccessDenied else CallPage) /\
  (require_auth (Some "admin") alice_session = CallPage <->
     Some "admin" = None \/ Some "admin" = Some EmptyString
     \/ Some "admin" = Some (role alice_account)) /\
  require_auth (Some "admin") (logout alice_session) = ShowLogin.
Proof.
  apply (require_auth_after_login toy_hash toy_clock "alice" "secret1" logged_out
           alice_session "Welcome alice! (user)" alice_store alice_logged_in alice_account
           (Some "admin")); vm_compute; reflexivity.
Defined.

(** X17 at alice. *)
Lemma toggle_alice_twice :
  exists s1 s2 : state,
    toggle_active toy_hash "alice" alice_store
      = (Return (Some (true, "User updated successfully")), s1) /\
    users s1 !! "alice" = Some (set_active (negb (active alice_account)) alice_account) /\
    toggle_active toy_hash "alice" s1
      = (Return (Some (true, "User updated successfully")), s2) /\
    users s2 = users alice_store /\
    content (store s2) = Some (Valid (users alice_store)).
Proof.
  apply (toggle_active_twice toy_hash "alice" alice_account alice_store);
    vm_compute; reflexivity.
Defined.

End StoreExamples.

Section PipelineExamples.

Import PyStr Samples MoreSamples Tools ToolsSpec.

(** X20 at the sample template and the sample reply of the chat model. *)
Lemma sample_prompt_endings_are_cut :
  clean_prompt (template_prompt "Photo of [TITLE]: [CAPTION]" "Desert Bloom"
                  "A new fragrance for the season.")
    = take 1000 (strip (replace "[CAPTION]" (take 100 "A new fragrance for the season.")
                          (replace "[TITLE]" "Desert Bloom" "Photo of [TITLE]: [CAPTION]"))) /\
  clean_prompt ("A studio photograph of a perfume bottle on marble." ++ smart_suffix)
    = take 1000 (strip "A studio photograph of a perfume bottle on marble.").
Proof.
  apply (prompt_ending_is_cut_before_generation "Photo of [TITLE]: [CAPTION]" "Desert Bloom"
           "A new fragrance for the season."
           "A studio photograph of a perfume bottle on marble."); vm_compute; reflexivity.
Defined.

(** X23 in the world without an API key, with a brand text. *)
Lemma no_key_world_no_overlay :
  exists (clean_url : option string) (urls : list string) (s' : state) (new : list event),
    fst (produce_clean_url no_key_world "A perfume bottle" empty_state) = Return clean_url /\
    generate_images no_key_world (Some ["A perfume bottle"]) (Some "Experts Group FZE")
      "www.example.com" 80 empty_state = (Return urls, s') /\
    urls = (if not_ clean_url then [] else [get_or_empty clean_url]) /\
    trace s' = (trace empty_state ++ new)%list /\
    Forall no_overlay_no_upload new.
Proof.
  apply (no_api_key_no_overlay no_key_world "A perfume bottle" [] (Some "Experts Group FZE")
           "www.example.com" 80 empty_state).
  reflexivity.
Defined.

Import Zapier.

(** X26 at the payload without posts. *)
Lemma payload_without_posts_is_refused :
  fst (send_to_zapier hook_world payload_without_posts [])
    = Raise (ValueError "No posts available to send to Zapier") /\
  (forall (url : string) (l : list string),
      image_urls payload_without_posts = Some (url :: l) ->
      startswith "http://" url || startswith "https://" url = true ->
      snd (send_to_zapier hook_world payload_without_posts []) = ([] ++ [EvHead url])%list) /\
  (forall (url : string) (body : zapier_payload),
      ~ In (EvPost url body) [] ->
      ~ In (EvPost url body) (snd (send_to_zapier hook_world payload_without_posts []))).
Proof.
  apply (send_to_zapier_without_posts hook_world payload_without_posts []).
  left. reflexivity.
Defined.

End PipelineExamples.

Section DynamicExamples.

Import PyStr Samples MoreSamples Tools ToolsSpec.


(** X27 at a reply whose second entry is a string, with a template. *)
Lemma reply_with_a_string_raises :
  Dyn.generate_image_prompts toy_float_truthy toy_repr TypeError happy_world
    (JObj reply_with_a_string) (Some "Photo of [TITLE]: [CAPTION]") empty_state
    = (Raise AttributeError,
       State (trace empty_state
                ++ (if not_ (Some "Photo of [TITLE]: [CAPTION]")
                    then map prompt_request (List.filter titled [sample_post])
                    else []))
         (files empty_state) (images_dir empty_state)) /\
  (forall (others : list (string * json)) (v : json),
      py_getitem "posts" (JObj others) = Return v ->
      match v with
      | JArr _ => True
      | JObj (_ :: _) | JStr (String _ _) =>
          Dyn.generate_image_prompts toy_float_truthy toy_repr TypeError happy_world
            (JObj others) (Some "Photo of [TITLE]: [CAPTION]") empty_state
            = (Raise AttributeError, empty_state)
      | JObj [] | JStr EmptyString =>
          Dyn.generate_image_prompts toy_float_truthy toy_repr TypeError happy_world
            (JObj others) (Some "Photo of [TITLE]: [CAPTION]") empty_state
            = (Return [], empty_state)
      | _ =>
          Dyn.generate_image_prompts toy_float_truthy toy_repr TypeError happy_world
            (JObj others) (Some "Photo of [TITLE]: [CAPTION]") empty_state
            = (Raise TypeError, empty_state)
      end).
Proof.
  apply (image_prompts_on_other_shapes toy_float_truthy toy_repr TypeError happy_world
           reply_with_a_string [sample_post] (JStr "Desert Bloom") []
           (Some "Photo of [TITLE]: [CAPTION]") empty_state).
  - reflexivity.
  - intros m. discriminate.
Defined.

(** X28 at a post with a null caption, with a template. *)
Lemma null_caption_with_template_raises :
  Dyn.loop toy_float_truthy toy_repr TypeError happy_world [null_caption_post]
    (Some "Photo of [TITLE]: [CAPTION]") [] empty_state
    = (Raise TypeError, empty_state).
Proof.
  refine (image_prompts_caption_not_a_string toy_float_truthy toy_repr TypeError happy_world
            null_caption_post [] "Desert Bloom" JNull (Some "Photo of [TITLE]: [CAPTION]")
            [] empty_state _ _ _ _).
  - reflexivity.
  - discriminate.
  - reflexivity.
  - intros c. discriminate.
Defined.

(** X29 at a post whose title is the number 5, without a template: two
    prompts for the one post. *)
Lemma number_title_gets_two_prompts :
  Dyn.loop toy_float_truthy toy_repr TypeError happy_world [number_title_post]
    None [] empty_state
    = (Return [smart_sample;
               strip (Dyn.fallback_with (toy_repr (JInt 5)) (take 100 "A caption."))],
       State [EvChat (ChatRequest (ai_prompt (toy_repr (JInt 5)) "A caption.")
                        false (Some 200%nat))]
         [] false).
Proof.
  refine (image_prompts_title_not_a_string toy_float_truthy toy_repr TypeError happy_world
            number_title_post [] (JInt 5) "A caption." None [] empty_state _ _ _ _).
  - reflexivity.
  - reflexivity.
  - intros t. discriminate.
  - reflexivity.
Defined.

End DynamicExamples.

Section WebhookExamples.

Import PyStr Samples MoreSamples Tools.


(** X30 at a payload whose posts are a string. *)
Lemma string_posts_payload_raises :
  ZapierDyn.send_to_zapier toy_float_truthy any_hook_world string_posts_payload []
    = (Raise AttributeError, []).
Proof.
  refine (send_to_zapier_on_other_posts toy_float_truthy any_hook_world string_posts_payload
            (JStr "abc") [] [] None _ _); reflexivity.
Defined.

(** The run on the payload with the list of tags: [TypeError], and
    nothing posted. *)
Example tag_list_payload_raises :
  ZapierDyn.send_to_zapier toy_float_truthy any_hook_world tag_list_payload []
    = (Raise TypeError, [ZapierDyn.EvHead "https://i.ibb.co/a/clean.jpg"]).
Proof. vm_compute. reflexivity. Qed.

End WebhookExamples.

Section ReadOnlyStoreExamples.

Import PyStr Samples MoreSamples Auth AuthUI.

(** On a disk that cannot be written the login of alice raises, with the
    login stamp in memory and the file as it was. *)
Example login_on_read_only_store :
  fst (login_submit toy_hash toy_clock "alice" "secret1" logged_out (read_only alice_store))
    = Raise OSError /\
  (last_login <$>
     users (snd (login_submit toy_hash toy_clock "alice" "secret1" logged_out
                   (read_only alice_store))) !! "alice")
    = Some (Some (toy_clock 1)) /\
  store (snd (login_submit toy_hash toy_clock "alice" "secret1" logged_out
                (read_only alice_store)))
    = store (read_only alice_store).
Proof. repeat (apply conj); vm_compute; reflexivity. Qed.

(** The edit form on the same disk: alice is an admin in memory only. *)
Example edit_form_on_read_only_store :
  fst (edit_form_save toy_hash "alice" "new@x.com" "admin" "Active" EmptyString EmptyString
         (read_only alice_logged_in))
    = Raise OSError /\
  (role <$>
     users (snd (edit_form_save toy_hash "alice" "new@x.com" "admin" "Active" EmptyString
                   EmptyString (read_only alice_logged_in))) !! "alice")
    = Some "admin" /\
  store (snd (edit_form_save toy_hash "alice" "new@x.com" "admin" "Active" EmptyString
                EmptyString (read_only alice_logged_in)))
    = store (read_only alice_logged_in).
Proof. repeat (apply conj); vm_compute; reflexivity. Qed.

(** The edit form and the profile form on a disk that works. *)
Example forms_on_a_working_store :
  fst (edit_form_save toy_hash "alice" "new@x.com" "admin" "Inactive" EmptyString EmptyString
         alice_logged_in)
    = Return (EditAnswer (true, "User updated successfully")) /\
  (role <$> users alice_edited !! "alice") = Some "admin" /\
  fst (change_password_submit toy_hash (Some "alice") "secret1" "secret2" "secret2"
         alice_logged_in)
    = Return (Profile (ShowSuccess "Password updated successfully!")) /\
  (password <$> users alice_new_password !! "alice") = Some (toy_hash "secret2") /\
  ticks (snd (add_user_submit toy_hash toy_clock "dave" "dave@x.com" "secret7" "secret7"
                "user" alice_store))
    = S (S (ticks alice_store)).
Proof. repeat (apply conj); vm_compute; reflexivity. Qed.

End ReadOnlyStoreExamples.
